(** * Socialer: visibility, feed, follow, like and messaging handlers

    A shallow embedding of the request handlers of the Socialer backend
    (src/server/controllers/postController.js, commentController.js,
    userController.js and the socket handlers of src/server/index.js)
    over an explicit model of the relational store they talk to.

    - Tables are lists of rows in the store's scan order: order matters
      for [findMany ... orderBy], and row counts matter for likes.
    - Every [await prisma.x.y(...)] is a call that may reject; which calls
      reject is decided by the environment ([rejects]).  A rejection
      unwinds to the handler's [catch], and the writes made before it stay
      (the handlers use no transaction).
    - Identifiers are strings, an absent viewer ([req.user?.id] being
      [undefined]) is [None]. *)

From Stdlib Require Import String List ZArith Bool Lia Sorted Permutation.
Import ListNotations.
Open Scope string_scope.

(** ** Rows *)

Inductive Visibility := PUBLIC | FRIENDS | PRIVATE.

Inductive NotificationType := LIKE | COMMENT | FOLLOW.

Record User := mkUser {
  user_id : string;
  user_username : string;
  user_firstName : string;
  user_lastName : string }.

Record Follow := mkFollow {
  followerId : string;
  followingId : string }.

Record Post := mkPost {
  post_id : string;
  post_authorId : string;
  post_content : option string;
  post_visibility : Visibility;
  post_location : option string;
  post_tags : list string;
  post_createdAt : Z }.

Record Comment := mkComment {
  comment_id : string;
  comment_userId : string;
  comment_postId : string;
  comment_parentId : option string;
  comment_content : string;
  comment_createdAt : Z }.

Record Like := mkLike {
  like_userId : string;
  like_postId : string }.

Record Message := mkMessage {
  message_id : string;
  message_content : string;
  message_senderId : string;
  message_receiverId : string;
  message_mediaUrl : option string;
  message_mediaType : option string }.

Record Notification := mkNotification {
  notif_type : NotificationType;
  notif_message : string;
  notif_recipientId : string;
  notif_triggererId : string;
  notif_relatedId : option string }.

(** ** The store *)

Record DB := mkDB {
  users : list User;
  follows : list Follow;
  posts : list Post;
  likes : list Like;
  comments : list Comment;
  notifications : list Notification;
  messages : list Message }.

Definition set_follows (db : DB) (l : list Follow) : DB :=
  mkDB (users db) l (posts db) (likes db) (comments db) (notifications db) (messages db).

Definition set_posts (db : DB) (l : list Post) : DB :=
  mkDB (users db) (follows db) l (likes db) (comments db) (notifications db) (messages db).

Definition set_likes (db : DB) (l : list Like) : DB :=
  mkDB (users db) (follows db) (posts db) l (comments db) (notifications db) (messages db).

Definition set_comments (db : DB) (l : list Comment) : DB :=
  mkDB (users db) (follows db) (posts db) (likes db) l (notifications db) (messages db).

Definition set_notifications (db : DB) (l : list Notification) : DB :=
  mkDB (users db) (follows db) (posts db) (likes db) (comments db) l (messages db).

Definition set_messages (db : DB) (l : list Message) : DB :=
  mkDB (users db) (follows db) (posts db) (likes db) (comments db) (notifications db) l.

(** ** Asynchronous calls that may reject *)

Inductive Op :=
  | user_findUnique
  | follow_findUnique | follow_findMany | follow_create
  | post_findUnique | post_findMany | post_update | post_delete
  | like_findUnique | like_create | like_delete
  | comment_findUnique | comment_findMany | comment_count
  | comment_create | comment_update | comment_delete
  | notification_create
  | message_create.

(** What a handler run depends on besides the store: which store calls
    reject, and the id and timestamp the store gives to a created row. *)
Record Env := mkEnv {
  rejects : Op -> bool;
  fresh_id : string;
  now : Z }.

Inductive Outcome (A : Type) :=
  | Resolved (a : A)
  | Rejected.
Arguments Resolved {A} a.
Arguments Rejected {A}.

Definition Async (A : Type) : Type := Env -> DB -> Outcome A * DB.

Definition ret {A} (a : A) : Async A := fun _ db => (Resolved a, db).

Definition throw {A} : Async A := fun _ db => (Rejected, db).

Definition bind {A B} (m : Async A) (k : A -> Async B) : Async B :=
  fun e db =>
    match m e db with
    | (Resolved a, db') => k a e db'
    | (Rejected, db') => (Rejected, db')
    end.

Notation "x <- m ;; k" := (bind m (fun x => k))
  (at level 61, m at next level, right associativity).
Notation "m ;;; k" := (bind m (fun _ => k))
  (at level 61, right associativity).

(** [await prisma.<op>(...)]: rejects when the environment says so,
    otherwise runs the query. *)
Definition call {A} (op : Op) (q : Async A) : Async A :=
  fun e db => if rejects e op then (Rejected, db) else q e db.

Definition get {A} (f : DB -> A) : Async A := fun _ db => (Resolved (f db), db).

Definition put (f : DB -> DB) : Async unit := fun _ db => (Resolved tt, f db).

Definition env {A} (f : Env -> A) : Async A := fun e db => (Resolved (f e), db).

(** ** Responses *)

(** The [data] field of a response body.  The rows are kept; what
    [include] joins to them from other tables (author profile, [_count])
    and the derived [pages] number are left out. *)
Inductive Data :=
  | DNull
  | DPost (post : Post) (isLiked : bool)
  | DUpdated (post : Post)
  | DFeed (posts : list (Post * bool)) (page limit : Z) (hasMore : bool)
  | DLiked (isLiked : bool)
  | DComment (comment : Comment)
  | DComments (comments : list (Comment * list Comment)) (page limit : Z) (total : nat)
  | DReplies (replies : list Comment) (page limit : Z) (total : nat).

Record Response := mkResponse {
  status : nat;
  error : option string;
  data : Data }.

(** [res.json({message, data})], status 200. *)
Definition json (d : Data) : Response := mkResponse 200 None d.

(** [res.status(c).json({message, data})] *)
Definition json_status (c : nat) (d : Data) : Response := mkResponse c None d.

(** [res.status(c).json({error, message})] *)
Definition json_error (c : nat) (err : string) : Response := mkResponse c (Some err) DNull.

(** The error taxonomy of the specification, read off the status code. *)
Inductive Kind := Success | InvalidAction | Forbidden | NotFound | Conflict | Internal | Other.

Definition kind (r : Response) : Kind :=
  match status r with
  | 200 | 201 => Success
  | 400 => match error r with Some "Invalid action" => InvalidAction | _ => Other end
  | 403 => Forbidden
  | 404 => NotFound
  | 409 => Conflict
  | 500 => Internal
  | _ => Other
  end.

(** A handler body inside [try { ... } catch (error) { res.status(500)... }]. *)
Definition try_catch (body : Async Response) (on_error : Response) : Env -> DB -> Response * DB :=
  fun e db =>
    match body e db with
    | (Resolved r, db') => (r, db')
    | (Rejected, db') => (on_error, db')
    end.

(** ** JavaScript comparisons used by the handlers *)

Definition vis_eqb (a b : Visibility) : bool :=
  match a, b with
  | PUBLIC, PUBLIC | FRIENDS, FRIENDS | PRIVATE, PRIVATE => true
  | _, _ => false
  end.

(** [a === b] where [b] may be [undefined]. *)
Definition strict_eq (a : string) (b : option string) : bool :=
  match b with
  | Some s => String.eqb a s
  | None => false
  end.

(** [if (x)] on a string that may be [undefined]: the empty string is falsy. *)
Definition truthy (x : option string) : bool :=
  match x with
  | Some s => negb (String.eqb s "")
  | None => false
  end.

(** ** Store queries *)

(** [orderBy] is modelled by a stable insertion sort of the scanned rows:
    rows with equal keys come out in the order the table holds them, which
    stands for whatever order the engine scans them in.  The engine may
    scan in another order at the next query, so a property that compares
    two queries is stated for rows whose keys differ. *)
Fixpoint insert_by {A} (le : A -> A -> bool) (x : A) (l : list A) : list A :=
  match l with
  | [] => [x]
  | y :: l' => if le x y then x :: y :: l' else y :: insert_by le x l'
  end.

Fixpoint sort_by {A} (le : A -> A -> bool) (l : list A) : list A :=
  match l with
  | [] => []
  | x :: l' => insert_by le x (sort_by le l')
  end.

(** [skip] and [take] of [findMany]: a negative [skip] is refused by the
    client, a negative [take] selects from the end of the ordered rows. *)
Definition skip_take {A} (skip take : Z) (l : list A) : option (list A) :=
  if (skip <? 0)%Z then None
  else if (0 <=? take)%Z then Some (firstn (Z.to_nat take) (skipn (Z.to_nat skip) l))
  else Some (rev (firstn (Z.to_nat (- take)) (skipn (Z.to_nat skip) (rev l)))).

Definition resolve_option {A} (o : option A) : Async A :=
  match o with
  | Some a => ret a
  | None => throw
  end.

Definition createdAt_desc (p q : Post) : bool := (post_createdAt q <=? post_createdAt p)%Z.

Definition comment_desc (c d : Comment) : bool := (comment_createdAt d <=? comment_createdAt c)%Z.

Definition comment_asc (c d : Comment) : bool := (comment_createdAt c <=? comment_createdAt d)%Z.

Definition follow_is (f g : string) (r : Follow) : bool :=
  String.eqb (followerId r) f && String.eqb (followingId r) g.

Definition like_is (u p : string) (r : Like) : bool :=
  String.eqb (like_userId r) u && String.eqb (like_postId r) p.

Module prisma.

Module user.
Definition findUnique (id : string) : Async (option User) :=
  call user_findUnique (get (fun db => find (fun u => String.eqb (user_id u) id) (users db))).
End user.

Module follow.
Definition findUnique (f g : string) : Async (option Follow) :=
  call follow_findUnique (get (fun db => find (follow_is f g) (follows db))).

(** [findMany({ where: { followerId }, select: { followingId: true } })] *)
Definition findMany (f : string) : Async (list string) :=
  call follow_findMany
    (get (fun db => map followingId (filter (fun r => String.eqb (followerId r) f) (follows db)))).

(** The pair (followerId, followingId) is a unique key: creating a second
    row for it is refused by the store. *)
Definition create (f g : string) : Async unit :=
  call follow_create
    (existing <- get (fun db => existsb (follow_is f g) (follows db)) ;;
     if existing then throw
     else put (fun db => set_follows db (follows db ++ [mkFollow f g]))).
End follow.

Module post.
Definition findUnique (id : string) : Async (option Post) :=
  call post_findUnique (get (fun db => find (fun p => String.eqb (post_id p) id) (posts db))).

(** [findUnique] with [include: { likes: currentUserId ? { where: { userId } } : false }] *)
Definition findUnique_likes (id : string) (currentUserId : option string)
  : Async (option (Post * list Like)) :=
  call post_findUnique
    (get (fun db =>
       match find (fun p => String.eqb (post_id p) id) (posts db) with
       | None => None
       | Some p =>
           Some (p, match currentUserId with
                    | Some u => if truthy currentUserId
                                then filter (like_is u (post_id p)) (likes db)
                                else []
                    | None => []
                    end)
       end)).

(** [findMany({ where, include: { likes: { where: { userId } } },
                orderBy: { createdAt: 'desc' }, skip, take })] *)
Definition findMany (where_ : Post -> bool) (userId : string) (skip take : Z)
  : Async (list (Post * list Like)) :=
  call post_findMany
    (rows <- get (fun db =>
       skip_take skip take
         (map (fun p => (p, filter (like_is userId (post_id p)) (likes db)))
              (sort_by createdAt_desc (filter where_ (posts db))))) ;;
     resolve_option rows).

Record UpdateData := mkUpdateData {
  upd_content : option string;
  upd_visibility : option Visibility;
  upd_location : option string;
  upd_tags : option (list string) }.

Definition apply_update (d : UpdateData) (p : Post) : Post :=
  mkPost (post_id p) (post_authorId p)
    (match upd_content d with Some c => Some c | None => post_content p end)
    (match upd_visibility d with Some v => v | None => post_visibility p end)
    (match upd_location d with Some l => Some l | None => post_location p end)
    (match upd_tags d with Some t => t | None => post_tags p end)
    (post_createdAt p).

Definition update (id : string) (d : UpdateData) : Async Post :=
  call post_update
    (found <- get (fun db => find (fun p => String.eqb (post_id p) id) (posts db)) ;;
     match found with
     | None => throw
     | Some p =>
         put (fun db => set_posts db
                (map (fun q => if String.eqb (post_id q) id then apply_update d q else q)
                     (posts db))) ;;;
         ret (apply_update d p)
     end).

(** [delete] takes the row of that id out of the table.  What the store
    does with the comments and likes of a deleted post is set by the
    referential actions of the Prisma schema, which the controllers do
    not show: a property of what a delete leaves behind is stated for a
    post that no stored row belongs to. *)
Definition delete (id : string) : Async unit :=
  call post_delete
    (found <- get (fun db => existsb (fun p => String.eqb (post_id p) id) (posts db)) ;;
     if found
     then put (fun db => set_posts db
                 (filter (fun q => negb (String.eqb (post_id q) id)) (posts db)))
     else throw).
End post.

Module like.
Definition findUnique (u p : string) : Async (option Like) :=
  call like_findUnique (get (fun db => find (like_is u p) (likes db))).

(** (userId, postId) is a unique key. *)
Definition create (u p : string) : Async unit :=
  call like_create
    (existing <- get (fun db => existsb (like_is u p) (likes db)) ;;
     if existing then throw
     else put (fun db => set_likes db (likes db ++ [mkLike u p]))).

Fixpoint remove_first (u p : string) (l : list Like) : list Like :=
  match l with
  | [] => []
  | r :: l' => if like_is u p r then l' else r :: remove_first u p l'
  end.

(** Deleting by the unique key removes the row it names and is refused
    when there is none. *)
Definition delete (u p : string) : Async unit :=
  call like_delete
    (existing <- get (fun db => existsb (like_is u p) (likes db)) ;;
     if existing
     then put (fun db => set_likes db (remove_first u p (likes db)))
     else throw).
End like.

Module notification.
Definition create (n : Notification) : Async unit :=
  call notification_create
    (put (fun db => set_notifications db (notifications db ++ [n]))).
End notification.

Module comment.
Definition findUnique (id : string) : Async (option Comment) :=
  call comment_findUnique
    (get (fun db => find (fun c => String.eqb (comment_id c) id) (comments db))).

Definition parent_is (parent : option string) (c : Comment) : bool :=
  match parent, comment_parentId c with
  | None, None => true
  | Some a, Some b => String.eqb a b
  | _, _ => false
  end.

(** Rows of [findMany({ where, orderBy, skip, take })]. *)
Definition findMany (where_ : Comment -> bool) (le : Comment -> Comment -> bool)
  (skip take : Z) : Async (list Comment) :=
  call comment_findMany
    (rows <- get (fun db => skip_take skip take (sort_by le (filter where_ (comments db)))) ;;
     resolve_option rows).

(** The [include: { replies: { take: 3, orderBy: { createdAt: 'asc' } } }]
    of one row, read in the same query. *)
Definition replies_of (db : DB) (c : Comment) : list Comment :=
  firstn 3 (sort_by comment_asc (filter (parent_is (Some (comment_id c))) (comments db))).

Definition findMany_replies (where_ : Comment -> bool) (le : Comment -> Comment -> bool)
  (skip take : Z) : Async (list (Comment * list Comment)) :=
  call comment_findMany
    (rows <- get (fun db =>
       skip_take skip take
         (map (fun c => (c, replies_of db c)) (sort_by le (filter where_ (comments db))))) ;;
     resolve_option rows).

Definition count (where_ : Comment -> bool) : Async nat :=
  call comment_count (get (fun db => length (filter where_ (comments db)))).

(** [create] appends the row.  The foreign keys of the new row are not
    checked here: a property of a created comment is stated for a stored
    user and post and, for a reply, a stored parent. *)
Definition create (content userId postId : string) (parentId : option string)
  : Async Comment :=
  call comment_create
    (id <- env fresh_id ;;
     t <- env now ;;
     let c := mkComment id userId postId parentId content t in
     put (fun db => set_comments db (comments db ++ [c])) ;;;
     ret c).

Definition set_content (content : string) (c : Comment) : Comment :=
  mkComment (comment_id c) (comment_userId c) (comment_postId c) (comment_parentId c)
    content (comment_createdAt c).

Definition update (id content : string) : Async Comment :=
  call comment_update
    (found <- get (fun db => find (fun c => String.eqb (comment_id c) id) (comments db)) ;;
     match found with
     | None => throw
     | Some c =>
         put (fun db => set_comments db
                (map (fun q => if String.eqb (comment_id q) id then set_content content q else q)
                     (comments db))) ;;;
         ret (set_content content c)
     end).

(** [delete] takes the row of that id out of the table.  As for posts,
    what happens to the replies of a deleted comment is the schema's
    matter: a property of what a delete leaves behind is stated for a
    comment without replies. *)
Definition delete (id : string) : Async unit :=
  call comment_delete
    (found <- get (fun db => existsb (fun c => String.eqb (comment_id c) id) (comments db)) ;;
     if found
     then put (fun db => set_comments db
                 (filter (fun q => negb (String.eqb (comment_id q) id)) (comments db)))
     else throw).
End comment.

Module message.
Definition create (content senderId receiverId : string) (mediaUrl mediaType : option string)
  : Async Message :=
  call message_create
    (id <- env fresh_id ;;
     let m := mkMessage id content senderId receiverId mediaUrl mediaType in
     put (fun db => set_messages db (messages db ++ [m])) ;;;
     ret m).
End message.

End prisma.

(** ** postController.js *)

Definition Handler : Type := Env -> DB -> Response * DB.

Module postController.

(** [isLiked: currentUserId ? post.likes.length > 0 : false] *)
Definition isLiked_of (currentUserId : option string) (post_likes : list Like) : bool :=
  if truthy currentUserId then negb (Nat.eqb (length post_likes) 0) else false.

Definition getPostById (id : string) (currentUserId : option string) : Handler :=
  try_catch
    (found <- prisma.post.findUnique_likes id currentUserId ;;
     match found with
     | None => ret (json_error 404 "Post not found")
     | Some (post, post_likes) =>
         let respond := ret (json (DPost post (isLiked_of currentUserId post_likes))) in
         if vis_eqb (post_visibility post) PRIVATE
            && negb (strict_eq (post_authorId post) currentUserId)
         then ret (json_error 403 "Access denied")
         else
           if vis_eqb (post_visibility post) FRIENDS
              && negb (strict_eq (post_authorId post) currentUserId)
           then
             match currentUserId with
             | Some u =>
                 if truthy currentUserId then
                   isFollowing <- prisma.follow.findUnique u (post_authorId post) ;;
                   match isFollowing with
                   | None => ret (json_error 403 "Access denied")
                   | Some _ => respond
                   end
                 else ret (json_error 403 "Access denied")
             | None => ret (json_error 403 "Access denied")
             end
           else respond
     end)
    (json_error 500 "Failed to retrieve post").

Definition updatePost (id : string) (body : prisma.post.UpdateData) (userId : string)
  : Handler :=
  try_catch
    (existingPost <- prisma.post.findUnique id ;;
     match existingPost with
     | None => ret (json_error 404 "Post not found")
     | Some existingPost =>
         if negb (String.eqb (post_authorId existingPost) userId)
         then ret (json_error 403 "Access denied")
         else
           post <- prisma.post.update id body ;;
           ret (json (DUpdated post))
     end)
    (json_error 500 "Failed to update post").

Definition deletePost (id : string) (userId : string) : Handler :=
  try_catch
    (existingPost <- prisma.post.findUnique id ;;
     match existingPost with
     | None => ret (json_error 404 "Post not found")
     | Some existingPost =>
         if negb (String.eqb (post_authorId existingPost) userId)
         then ret (json_error 403 "Access denied")
         else
           prisma.post.delete id ;;;
           ret (json DNull)
     end)
    (json_error 500 "Failed to delete post").

Definition likePost (postId : string) (user : User) : Handler :=
  let userId := user_id user in
  try_catch
    (post <- prisma.post.findUnique postId ;;
     match post with
     | None => ret (json_error 404 "Post not found")
     | Some post =>
         existingLike <- prisma.like.findUnique userId postId ;;
         match existingLike with
         | Some _ =>
             prisma.like.delete userId postId ;;;
             ret (json (DLiked false))
         | None =>
             prisma.like.create userId postId ;;;
             (if negb (String.eqb (post_authorId post) userId)
              then prisma.notification.create
                     (mkNotification LIKE
                        (user_firstName user ++ " " ++ user_lastName user ++ " liked your post")
                        (post_authorId post) userId (Some postId))
              else ret tt) ;;;
             ret (json (DLiked true))
         end
     end)
    (json_error 500 "Failed to like/unlike post").

(** [followingIds.includes]-style membership of the [in] filter. *)
Definition id_in (ids : list string) (id : string) : bool :=
  existsb (String.eqb id) ids.

(** The [where] clause of the feed query. *)
Definition feed_where (followingIds : list string) (userId : string) (p : Post) : bool :=
  id_in followingIds (post_authorId p)
  && (vis_eqb (post_visibility p) PUBLIC
      || (vis_eqb (post_visibility p) FRIENDS && id_in followingIds (post_authorId p))
      || String.eqb (post_authorId p) userId).

(** [page] and [limit] are the numbers written in the query string, when
    present; the defaults are 1 and 10.  They are exact integers here,
    where the code reads them as doubles, by [Number] for the offset and
    by [parseInt] for [take]: a property that depends on how large they
    are is stated for numbers of at most 32 bits. *)
Definition getFeed (page limit : option Z) (userId : string) : Handler :=
  let page := match page with Some n => n | None => 1%Z end in
  let limit := match limit with Some n => n | None => 10%Z end in
  let offset := ((page - 1) * limit)%Z in
  try_catch
    (following <- prisma.follow.findMany userId ;;
     let followingIds := (following ++ [userId])%list in
     posts <- prisma.post.findMany (feed_where followingIds userId) userId offset limit ;;
     let postsData :=
       map (fun pl => (fst pl, negb (Nat.eqb (length (snd pl)) 0))) posts in
     ret (json (DFeed postsData page limit (Z.eqb (Z.of_nat (length posts)) limit))))
    (json_error 500 "Failed to retrieve feed").

End postController.

(** ** commentController.js *)

Module commentController.

Definition createComment (postId content : string) (parentId : option string) (user : User)
  : Handler :=
  let userId := user_id user in
  try_catch
    (post <- prisma.post.findUnique postId ;;
     match post with
     | None => ret (json_error 404 "Post not found")
     | Some post =>
         if vis_eqb (post_visibility post) PRIVATE
            && negb (String.eqb (post_authorId post) userId)
         then ret (json_error 403 "Access denied")
         else
           allowed <-
             (if vis_eqb (post_visibility post) FRIENDS
                 && negb (String.eqb (post_authorId post) userId)
              then
                isFollowing <- prisma.follow.findUnique userId (post_authorId post) ;;
                ret (match isFollowing with Some _ => true | None => false end)
              else ret true) ;;
           if negb allowed then ret (json_error 403 "Access denied")
           else
             parent_ok <-
               (match parentId with
                | Some pid =>
                    if truthy parentId then
                      parentComment <- prisma.comment.findUnique pid ;;
                      ret (match parentComment with
                           | None => false
                           | Some pc => String.eqb (comment_postId pc) postId
                           end)
                    else ret true
                | None => ret true
                end) ;;
             if negb parent_ok then ret (json_error 404 "Parent comment not found")
             else
               comment <- prisma.comment.create content userId postId parentId ;;
               (if negb (String.eqb (post_authorId post) userId)
                then prisma.notification.create
                       (mkNotification COMMENT
                          (user_firstName user ++ " " ++ user_lastName user
                             ++ " commented on your post")
                          (post_authorId post) userId (Some postId))
                else ret tt) ;;;
               ret (json_status 201 (DComment comment))
     end)
    (json_error 500 "Failed to create comment").

Definition getPostComments (postId : string) (page limit : option Z) : Handler :=
  let page := match page with Some n => n | None => 1%Z end in
  let limit := match limit with Some n => n | None => 20%Z end in
  let offset := ((page - 1) * limit)%Z in
  let top_level (c : Comment) :=
    String.eqb (comment_postId c) postId && prisma.comment.parent_is None c in
  try_catch
    (post <- prisma.post.findUnique postId ;;
     match post with
     | None => ret (json_error 404 "Post not found")
     | Some _ =>
         comments <- prisma.comment.findMany_replies top_level comment_desc offset limit ;;
         totalComments <- prisma.comment.count top_level ;;
         ret (json (DComments comments page limit totalComments))
     end)
    (json_error 500 "Failed to retrieve comments").

Definition getCommentReplies (commentId : string) (page limit : option Z) : Handler :=
  let page := match page with Some n => n | None => 1%Z end in
  let limit := match limit with Some n => n | None => 10%Z end in
  let offset := ((page - 1) * limit)%Z in
  let reply (c : Comment) := prisma.comment.parent_is (Some commentId) c in
  try_catch
    (replies <- prisma.comment.findMany reply comment_asc offset limit ;;
     totalReplies <- prisma.comment.count reply ;;
     ret (json (DReplies replies page limit totalReplies)))
    (json_error 500 "Failed to retrieve replies").

Definition updateComment (id content : string) (userId : string) : Handler :=
  try_catch
    (existingComment <- prisma.comment.findUnique id ;;
     match existingComment with
     | None => ret (json_error 404 "Comment not found")
     | Some existingComment =>
         if negb (String.eqb (comment_userId existingComment) userId)
         then ret (json_error 403 "Access denied")
         else
           comment <- prisma.comment.update id content ;;
           ret (json (DComment comment))
     end)
    (json_error 500 "Failed to update comment").

Definition deleteComment (id : string) (userId : string) : Handler :=
  try_catch
    (existingComment <- prisma.comment.findUnique id ;;
     match existingComment with
     | None => ret (json_error 404 "Comment not found")
     | Some existingComment =>
         if negb (String.eqb (comment_userId existingComment) userId)
         then ret (json_error 403 "Access denied")
         else
           prisma.comment.delete id ;;;
           ret (json DNull)
     end)
    (json_error 500 "Failed to delete comment").

End commentController.

(** ** userController.js *)

Module userController.

Definition followUser (followingId : string) (user : User) : Handler :=
  let followerId := user_id user in
  try_catch
    (if String.eqb followerId followingId
     then ret (json_error 400 "Invalid action")
     else
       targetUser <- prisma.user.findUnique followingId ;;
       match targetUser with
       | None => ret (json_error 404 "User not found")
       | Some _ =>
           existingFollow <- prisma.follow.findUnique followerId followingId ;;
           match existingFollow with
           | Some _ => ret (json_error 409 "Already following")
           | None =>
               prisma.follow.create followerId followingId ;;;
               prisma.notification.create
                 (mkNotification FOLLOW
                    (user_firstName user ++ " " ++ user_lastName user
                       ++ " started following you")
                    followingId followerId None) ;;;
               ret (json DNull)
           end
       end)
    (json_error 500 "Failed to follow user").

End userController.

(** ** The [send_message] socket handler of index.js *)

Module socket.

Inductive Target :=
  | ToRoom (room : string)       (* io.to(room).emit *)
  | ToSocket (socketId : string) (* socket.emit *).

Inductive Payload :=
  | PMessage (m : Message)
  | PMessageSent (messageId : string)
  | PError (message : string).

Record Emit := mkEmit {
  target : Target;
  event : string;
  payload : Payload }.

Record Socket := mkSocket {
  socket_id : string;
  socket_userId : string }.

Record SendMessage := mkSendMessage {
  receiverId : string;
  content : string;
  mediaUrl : option string;
  mediaType : option string }.

(** [data] is what the client sent; destructuring [undefined] throws
    inside the [try]. *)
Definition send_message (sock : Socket) (data : option SendMessage)
  : Env -> DB -> list Emit * DB :=
  fun e db =>
    let body : Async (list Emit) :=
      d <- resolve_option data ;;
      message <- prisma.message.create (content d) (socket_userId sock) (receiverId d)
                   (mediaUrl d) (mediaType d) ;;
      ret [ mkEmit (ToRoom ("user_" ++ receiverId d)) "new_message" (PMessage message);
            mkEmit (ToSocket (socket_id sock)) "message_sent"
              (PMessageSent (message_id message)) ]
    in
    match body e db with
    | (Resolved out, db') => (out, db')
    | (Rejected, db') =>
        ([ mkEmit (ToSocket (socket_id sock)) "error" (PError "Failed to send message") ], db')
    end.

End socket.

(** ** Vocabulary of the statements *)

(** No store call rejects. *)
Definition quiet (e : Env) : Prop := forall op, rejects e op = false.

Definition lookup_post (db : DB) (id : string) : option Post :=
  find (fun p => String.eqb (post_id p) id) (posts db).

Definition lookup_comment (db : DB) (id : string) : option Comment :=
  find (fun c => String.eqb (comment_id c) id) (comments db).

Definition lookup_user (db : DB) (id : string) : option User :=
  find (fun u => String.eqb (user_id u) id) (users db).

(** The follow edge "[f] follows [g]" is in the store. *)
Definition follows_edge (db : DB) (f g : string) : Prop := In (mkFollow f g) (follows db).

(** Number of Like rows for the pair (user, post). *)
Definition like_rows (db : DB) (u p : string) : nat :=
  length (filter (like_is u p) (likes db)).

(** The read rule of the specification (section 4.1), in its words:
    PUBLIC is readable by anyone, PRIVATE by the author only, FRIENDS by
    the author and by viewers who follow the author; it is what the
    handlers are compared with. *)
Definition canRead (db : DB) (p : Post) (viewer : option string) : Prop :=
  match post_visibility p with
  | PUBLIC => True
  | PRIVATE => viewer = Some (post_authorId p)
  | FRIENDS =>
      viewer = Some (post_authorId p)
      \/ exists v, viewer = Some v /\ follows_edge db v (post_authorId p)
  end.

(** Referential integrity of the follow table: no self-loop, and the
    followed user exists. *)
Definition follows_wf (db : DB) : Prop :=
  forall r, In r (follows db) ->
    followerId r <> followingId r /\ lookup_user db (followingId r) <> None.

(** Running a handler once per environment, in sequence. *)
Fixpoint run_all (h : Handler) (es : list Env) (db : DB) : list Response * DB :=
  match es with
  | [] => ([], db)
  | e :: es' =>
      let (r, db1) := h e db in
      let (rs, db2) := run_all h es' db1 in
      (r :: rs, db2)
  end.

(** The posts of a feed response. *)
Definition feed_posts (r : Response) : list Post :=
  match data r with
  | DFeed ps _ _ _ => map fst ps
  | _ => []
  end.

Definition newest_first (l : list Post) : Prop :=
  StronglySorted (fun p q => (post_createdAt q <= post_createdAt p)%Z) l.

(** Newest first, and among posts of equal creation time in the order
    [id_before] of their ids. *)
Definition newest_first_then_id (id_before : string -> string -> bool) (l : list Post) : Prop :=
  StronglySorted
    (fun p q => (post_createdAt q < post_createdAt p)%Z
                \/ (post_createdAt q = post_createdAt p
                    /\ id_before (post_id p) (post_id q) = true)) l.

(** Changing the visibility of every post by [f], nothing else. *)
Definition set_visibility (v : Visibility) (p : Post) : Post :=
  mkPost (post_id p) (post_authorId p) (post_content p) v
    (post_location p) (post_tags p) (post_createdAt p).

Definition with_visibility (f : Post -> Visibility) (db : DB) : DB :=
  set_posts db (map (fun p => set_visibility (f p) p) (posts db)).

(** The write decision of one handler: 404 when the item is missing,
    otherwise 200 exactly for its author and 403, with the store
    untouched, for anyone else. *)
Definition owner_only {Item} (found : option Item) (owner : Item -> string)
  (userId : string) (db : DB) (run : Response * DB) : Prop :=
  match found with
  | None => kind (fst run) = NotFound /\ snd run = db
  | Some item =>
      (kind (fst run) = Success <-> owner item = userId)
      /\ (owner item <> userId -> kind (fst run) = Forbidden /\ snd run = db)
  end.

(** The parent named by a reply exists and is a comment of post [postId]. *)
Definition parent_in_post (db : DB) (pid postId : string) : Prop :=
  exists pc, lookup_comment db pid = Some pc /\ comment_postId pc = postId.

(** ** A small store used in the examples

    Ids are written in the shape the request validation accepts (cuid). *)

Definition calm : Env := mkEnv (fun _ => false) "cnewrow0001" 100.

Definition alice : User := mkUser "cuseralice1" "alice" "Alice" "A".
Definition bob : User := mkUser "cuserbob001" "bob" "Bob" "B".
Definition carol : User := mkUser "cusercarol1" "carol" "Carol" "C".

Definition p_pub : Post :=
  mkPost "cpost0public" "cuseralice1" (Some "hello") PUBLIC None [] 10.
Definition p_fr : Post :=
  mkPost "cpost0friends" "cuseralice1" (Some "friends") FRIENDS None [] 20.
Definition p_priv : Post :=
  mkPost "cpost0private" "cuseralice1" (Some "diary") PRIVATE None [] 30.

Definition c1 : Comment :=
  mkComment "ccomment001" "cuseralice1" "cpost0private" None "note to self" 31.
Definition c2 : Comment :=
  mkComment "ccomment002" "cuseralice1" "cpost0private" (Some "ccomment001") "and more" 32.
Definition c3 : Comment :=
  mkComment "ccomment003" "cuserbob001" "cpost0public" None "hi" 33.

(** bob follows alice; carol follows nobody. *)
Definition db0 : DB :=
  mkDB [alice; bob; carol] [mkFollow "cuserbob001" "cuseralice1"] [p_pub; p_fr; p_priv] []
       [c1; c2; c3] [] [].

(** Two posts of bob created at the same instant, held by the store in
    either order. *)
Definition t1 : Post := mkPost "cpost00000a" "cuserbob001" (Some "one") PUBLIC None [] 50.
Definition t2 : Post := mkPost "cpost00000b" "cuserbob001" (Some "two") PUBLIC None [] 50.

Definition db_ab : DB := mkDB [alice; bob; carol] [] [t1; t2] [] [] [] [].
Definition db_ba : DB := mkDB [alice; bob; carol] [] [t2; t1] [] [] [] [].

(** An environment in which only [notification.create] rejects. *)
Definition notify_down : Env :=
  mkEnv (fun op => match op with notification_create => true | _ => false end) "cnewrow0001" 100.

(** An environment in which only [message.create] rejects. *)
Definition message_down : Env :=
  mkEnv (fun op => match op with message_create => true | _ => false end) "cnewrow0001" 100.

(** * The rest of the controllers

    The handlers below complete the controllers above.  They use three
    more store calls; whether these reject is decided by [more], given to
    each handler that makes one. *)

Inductive MoreOp := follow_delete | post_create | post_count.

Definition call_more {A} (more : MoreOp -> bool) (op : MoreOp) (q : Async A) : Async A :=
  fun e db => if more op then (Rejected, db) else q e db.

(** A response whose [data] is of type [A]: [res.status(c).json(...)]. *)
Record Reply (A : Type) := mkReply {
  reply_status : nat;
  reply_error : option string;
  reply_data : option A }.
Arguments mkReply {A} _ _ _.
Arguments reply_status {A} _.
Arguments reply_error {A} _.
Arguments reply_data {A} _.

Definition reply_json {A} (c : nat) (d : A) : Reply A := mkReply c None (Some d).

Definition reply_error_json {A} (c : nat) (err : string) : Reply A :=
  mkReply c (Some err) None.

Definition try_catch_reply {A} (body : Async (Reply A)) (on_error : Reply A)
  : Env -> DB -> Reply A * DB :=
  fun e db =>
    match body e db with
    | (Resolved r, db') => (r, db')
    | (Rejected, db') => (on_error, db')
    end.

(** ** userController.js, continued *)

Module userController_rest.

Fixpoint remove_first (f g : string) (l : list Follow) : list Follow :=
  match l with
  | [] => []
  | r :: l' => if follow_is f g r then l' else r :: remove_first f g l'
  end.

(** [prisma.follow.delete({ where: { followerId_followingId } })]: removes
    the row the unique key names and is refused when there is none. *)
Definition follow_delete_where (more : MoreOp -> bool) (f g : string) : Async unit :=
  call_more more follow_delete
    (existing <- get (fun db => existsb (follow_is f g) (follows db)) ;;
     if existing
     then put (fun db => set_follows db (remove_first f g (follows db)))
     else throw).

Definition unfollowUser (more : MoreOp -> bool) (followingId : string) (user : User)
  : Handler :=
  let followerId := user_id user in
  try_catch
    (existingFollow <- prisma.follow.findUnique followerId followingId ;;
     match existingFollow with
     | None => ret (json_error 404 "Not following")
     | Some _ =>
         follow_delete_where more followerId followingId ;;;
         ret (json DNull)
     end)
    (json_error 500 "Failed to unfollow user").

Record Profile := mkProfile {
  profile_user : User;
  isFollowing : bool;
  isOwnProfile : bool }.

Definition getUserById (id : string) (currentUserId : option string)
  : Env -> DB -> Reply Profile * DB :=
  try_catch_reply
    (user <- prisma.user.findUnique id ;;
     match user with
     | None => ret (reply_error_json 404 "User not found")
     | Some user =>
         isFollowing <-
           (match currentUserId with
            | Some u =>
                if truthy currentUserId && negb (String.eqb u (user_id user))
                then
                  followRelation <- prisma.follow.findUnique u (user_id user) ;;
                  ret (match followRelation with Some _ => true | None => false end)
                else ret false
            | None => ret false
            end) ;;
         ret (reply_json 200
                (mkProfile user isFollowing (strict_eq (user_id user) currentUserId)))
     end)
    (reply_error_json 500 "Failed to retrieve user").

End userController_rest.

(** ** postController.js, continued *)

Module postController_rest.

Record File := mkFile {
  file_path : string;
  file_mimetype : string }.

Inductive MediaType := IMAGE | VIDEO | AUDIO | DOCUMENT.

(** The classification of an uploaded file by [createPost]. *)
Definition media_type (file : File) : MediaType :=
  if String.prefix "image/" (file_mimetype file) then IMAGE
  else if String.prefix "video/" (file_mimetype file) then VIDEO
  else if String.prefix "audio/" (file_mimetype file) then AUDIO
  else DOCUMENT.

Record CreateBody := mkCreateBody {
  body_content : option string;
  body_visibility : option Visibility;
  body_location : option string;
  body_tags : option (list string) }.

(** What [createPost] answers with: the created row and, beside it, the
    media columns computed from the uploaded files (the rows of [DB] keep
    the columns that handlers read back). *)
Record Created := mkCreated {
  created_post : Post;
  mediaUrls : list string;
  mediaTypes : list MediaType }.

Definition post_create_row (more : MoreOp -> bool) (content : option string)
  (visibility : Visibility) (location : option string) (tags : list string)
  (authorId : string) : Async Post :=
  call_more more post_create
    (id <- env fresh_id ;;
     t <- env now ;;
     let p := mkPost id authorId content visibility location tags t in
     put (fun db => set_posts db (posts db ++ [p])) ;;;
     ret p).

(** [!content]: absent, or the empty string. *)
Definition no_content (content : option string) : bool := negb (truthy content).

(** [!req.files || req.files.length === 0] *)
Definition no_files (files : option (list File)) : bool :=
  match files with
  | None => true
  | Some l => Nat.eqb (length l) 0
  end.

Definition createPost (more : MoreOp -> bool) (body : CreateBody)
  (files : option (list File)) (user : User) : Env -> DB -> Reply Created * DB :=
  let content := body_content body in
  let visibility := match body_visibility body with Some v => v | None => PUBLIC end in
  let location := body_location body in
  let tags := match body_tags body with Some t => t | None => [] end in
  let authorId := user_id user in
  try_catch_reply
    (if no_content content && no_files files
     then ret (reply_error_json 400 "Empty post")
     else
       let urls := match files with Some l => map file_path l | None => [] end in
       let types := match files with Some l => map media_type l | None => [] end in
       post <- post_create_row more content visibility location tags authorId ;;
       ret (reply_json 201 (mkCreated post urls types)))
    (reply_error_json 500 "Failed to create post").

(** The [where] of [getUserPosts]: the author, and the visibilities the
    viewer may see. *)
Inductive VisibilityFilter := OnlyPublic | PublicOrFriends | AnyVisibility.

Definition passes (vf : VisibilityFilter) (v : Visibility) : bool :=
  match vf with
  | OnlyPublic => vis_eqb v PUBLIC
  | PublicOrFriends => vis_eqb v PUBLIC || vis_eqb v FRIENDS
  | AnyVisibility => true
  end.

Definition user_posts_where (userId : string) (vf : VisibilityFilter) (p : Post) : bool :=
  String.eqb (post_authorId p) userId && passes vf (post_visibility p).

(** [findMany] with [likes: currentUserId ? { where: { userId } } : false]. *)
Definition findMany_viewer (where_ : Post -> bool) (currentUserId : option string)
  (skip take : Z) : Async (list (Post * list Like)) :=
  call post_findMany
    (rows <- get (fun db =>
       skip_take skip take
         (map (fun p => (p, match currentUserId with
                            | Some u => if truthy currentUserId
                                        then filter (like_is u (post_id p)) (likes db)
                                        else []
                            | None => []
                            end))
              (sort_by createdAt_desc (filter where_ (posts db))))) ;;
     resolve_option rows).

Definition count (more : MoreOp -> bool) (where_ : Post -> bool) : Async nat :=
  call_more more post_count (get (fun db => length (filter where_ (posts db)))).

Record UserPosts := mkUserPosts {
  up_posts : list (Post * bool);
  up_page : Z;
  up_limit : Z;
  up_total : nat;
  up_pages : option Z }.

(** [Math.ceil(total / limit)], when it is a finite number. *)
Definition pages_of (total : nat) (limit : Z) : option Z :=
  if (limit =? 0)%Z then None else Some (- ((- Z.of_nat total) / limit))%Z.

Definition getUserPosts (more : MoreOp -> bool) (userId : string) (page limit : option Z)
  (currentUserId : option string) : Env -> DB -> Reply UserPosts * DB :=
  let page := match page with Some n => n | None => 1%Z end in
  let limit := match limit with Some n => n | None => 10%Z end in
  let offset := ((page - 1) * limit)%Z in
  try_catch_reply
    (visibilityFilter <-
       (if strict_eq userId currentUserId then ret AnyVisibility
        else
          match currentUserId with
          | Some u =>
              if truthy currentUserId then
                isFollowing <- prisma.follow.findUnique u userId ;;
                ret (match isFollowing with
                     | Some _ => PublicOrFriends
                     | None => OnlyPublic
                     end)
              else ret OnlyPublic
          | None => ret OnlyPublic
          end) ;;
     posts <- findMany_viewer (user_posts_where userId visibilityFilter) currentUserId
                offset limit ;;
     totalPosts <- count more (user_posts_where userId visibilityFilter) ;;
     let postsData :=
       map (fun pl => (fst pl, postController.isLiked_of currentUserId (snd pl))) posts in
     ret (reply_json 200
            (mkUserPosts postsData page limit totalPosts (pages_of totalPosts limit))))
    (reply_error_json 500 "Failed to retrieve posts").

End postController_rest.

(** ** routes/posts.js: the upload filter *)

Module upload.

Definition allowedTypes : list string :=
  ["image/jpeg"; "image/png"; "image/gif"; "video/mp4"].

(** [fileFilter]: [allowedTypes.includes(file.mimetype)]. *)
Definition fileFilter (file : postController_rest.File) : bool :=
  existsb (String.eqb (postController_rest.file_mimetype file)) allowedTypes.

End upload.

(** ** middleware/auth.js and the socket handshake *)

Module auth.

(** What [jwt.verify(token, env.JWT_SECRET)] does with a token: it
    returns the payload, here its [userId], or throws an error of one of
    the names the middleware tells apart.  The function is given to the
    middleware as [verify]. *)
Inductive Verified :=
  | Decoded (userId : string)
  | JsonWebTokenError
  | TokenExpiredError
  | OtherError.

(** The token of an [Authorization] header: the header is there, starts
    with ["Bearer "], and the token is what follows ([substring(7)]). *)
Definition bearer (authHeader : option string) : option string :=
  match authHeader with
  | Some h =>
      if truthy authHeader && String.prefix "Bearer " h
      then Some (String.substring 7 (String.length h - 7) h)
      else None
  | None => None
  end.

(** A middleware either hands the request on ([next()]) or answers it. *)
Inductive Step (A : Type) :=
  | Next (a : A)
  | Respond (r : Response).
Arguments Next {A} a.
Arguments Respond {A} r.

(** [authenticate]: on [Next user], [req.user = user]. *)
Definition authenticate (verify : string -> Verified) (authHeader : option string)
  : Env -> DB -> Step User * DB :=
  fun e db =>
    match bearer authHeader with
    | None => (Respond (json_error 401 "Authentication required"), db)
    | Some token =>
        match verify token with
        | JsonWebTokenError => (Respond (json_error 401 "Invalid token"), db)
        | TokenExpiredError => (Respond (json_error 401 "Token expired"), db)
        | OtherError => (Respond (json_error 500 "Authentication failed"), db)
        | Decoded userId =>
            match prisma.user.findUnique userId e db with
            | (Resolved (Some user), db') => (Next user, db')
            | (Resolved None, db') => (Respond (json_error 401 "Invalid token"), db')
            | (Rejected, db') => (Respond (json_error 500 "Authentication failed"), db')
            end
        end
    end.

(** [optionalAuth]: always [next()], with [req.user] a user or [null]. *)
Definition optionalAuth (verify : string -> Verified) (authHeader : option string)
  : Env -> DB -> option User * DB :=
  fun e db =>
    match bearer authHeader with
    | None => (None, db)
    | Some token =>
        match verify token with
        | Decoded userId =>
            match prisma.user.findUnique userId e db with
            | (Resolved user, db') => (user, db')
            | (Rejected, db') => (None, db')
            end
        | _ => (None, db)
        end
    end.

(** The [io.use] middleware of index.js: [inl] is the message of the
    error given to [next], [inr] the socket with [socket.userId] set;
    [socketId] is the id the transport gave the connection. *)
Definition handshake (verify : string -> Verified) (socketId : string)
  (token : option string) : Env -> DB -> (string + socket.Socket) * DB :=
  fun e db =>
    match token with
    | None => (inl "Authentication error", db)
    | Some t =>
        if negb (truthy token) then (inl "Authentication error", db)
        else
          match verify t with
          | Decoded userId =>
              match prisma.user.findUnique userId e db with
              | (Resolved (Some user), db') =>
                  (inr (socket.mkSocket socketId (user_id user)), db')
              | (Resolved None, db') => (inl "User not found", db')
              | (Rejected, db') => (inl "Authentication error", db')
              end
          | _ => (inl "Authentication error", db)
          end
    end.

End auth.

(** ** middleware/validation.js *)

Module validation.

#[local] Set Warnings "-register-all".

(** Request data as JavaScript values. *)
Inductive JValue :=
  | JUndefined
  | JNull
  | JBool (b : bool)
  | JNumber (n : Z)
  | JString (s : string)
  | JArray (items : list JValue)
  | JObject (fields : list (string * JValue)).

(** [v.k]: [undefined] when [v] is not an object or has no such key. *)
Definition field (k : string) (v : JValue) : JValue :=
  match v with
  | JObject fields =>
      match find (fun kv => String.eqb (fst kv) k) fields with
      | Some kv => snd kv
      | None => JUndefined
      end
  | _ => JUndefined
  end.

(** The part of zod that the schemas of this file use. *)
Inductive ZSchema :=
  | ZString (min max : option nat) (cuid : bool)
  | ZEnum (options : list string)
  | ZArray (item : ZSchema) (max : option nat)
  | ZOptional (inner : ZSchema)
  | ZDefault (inner : ZSchema) (value : JValue)
  | ZObject (shape : list (string * ZSchema)).

Definition at_least (min : option nat) (n : nat) : bool :=
  match min with Some m => Nat.leb m n | None => true end.

Definition at_most (max : option nat) (n : nat) : bool :=
  match max with Some m => Nat.leb n m | None => true end.

(** [schema.parse(v)]: the parsed value, or [None] for a [ZodError].  An
    object schema keeps the keys of its shape and drops every other key
    of the input (zod's default for [z.object]).  [is_cuid] is zod's test
    for [.cuid()]; lengths are counted in characters of the string. *)
Fixpoint parse (is_cuid : string -> bool) (schema : ZSchema) (v : JValue)
  : option JValue :=
  match schema with
  | ZString min max cuid =>
      match v with
      | JString s =>
          if at_least min (String.length s) && at_most max (String.length s)
             && (negb cuid || is_cuid s)
          then Some v else None
      | _ => None
      end
  | ZEnum options =>
      match v with
      | JString s => if existsb (String.eqb s) options then Some v else None
      | _ => None
      end
  | ZArray item max =>
      match v with
      | JArray items =>
          if at_most max (length items)
          then
            option_map JArray
              ((fix all (l : list JValue) : option (list JValue) :=
                  match l with
                  | [] => Some []
                  | x :: l' =>
                      match parse is_cuid item x, all l' with
                      | Some y, Some ys => Some (y :: ys)
                      | _, _ => None
                      end
                  end) items)
          else None
      | _ => None
      end
  | ZOptional inner =>
      match v with
      | JUndefined => Some JUndefined
      | _ => parse is_cuid inner v
      end
  | ZDefault inner value =>
      match v with
      | JUndefined => Some value
      | _ => parse is_cuid inner v
      end
  | ZObject shape =>
      match v with
      | JObject _ =>
          option_map JObject
            ((fix keys (sh : list (string * ZSchema)) : option (list (string * JValue)) :=
                match sh with
                | [] => Some []
                | (k, s) :: sh' =>
                    match parse is_cuid s (field k v), keys sh' with
                    | Some JUndefined, Some rest => Some rest
                    | Some y, Some rest => Some ((k, y) :: rest)
                    | _, _ => None
                    end
                end) shape)
      | _ => None
      end
  end.

Record Request := mkRequest {
  req_body : JValue;
  req_query : JValue;
  req_params : JValue }.

(** [validateRequest(schema)]: [inr] is [req.validatedData] handed on,
    [inl] the 400 answer to a [ZodError]. *)
Definition validateRequest (is_cuid : string -> bool) (schema : ZSchema) (req : Request)
  : Response + JValue :=
  match parse is_cuid schema
          (JObject [("body", req_body req); ("query", req_query req);
                    ("params", req_params req)]) with
  | Some result => inr result
  | None => inl (json_error 400 "Validation failed")
  end.

Module schemas.

Definition createPost : ZSchema :=
  ZObject
    [("body",
      ZObject
        [("content", ZOptional (ZString (Some 1) (Some 5000) false));
         ("visibility", ZDefault (ZEnum ["PUBLIC"; "FRIENDS"; "PRIVATE"]) (JString "PUBLIC"));
         ("location", ZOptional (ZString None (Some 100) false));
         ("tags", ZOptional (ZArray (ZString None (Some 50) false) (Some 10)))])].

Definition createComment : ZSchema :=
  ZObject
    [("body",
      ZObject
        [("content", ZString (Some 1) (Some 1000) false);
         ("parentId", ZOptional (ZString None None true))]);
     ("params", ZObject [("postId", ZString None None true)])].

Definition getUserById : ZSchema :=
  ZObject [("params", ZObject [("id", ZString None None true)])].

Definition getPostById : ZSchema :=
  ZObject [("params", ZObject [("id", ZString None None true)])].

End schemas.

End validation.

(** ** routes/posts.js: the middleware chains *)

Module routes.

Import validation.

(** The fields of a validated body, as the controllers destructure
    them: a field the schema left out is [undefined]. *)
Definition as_string (v : JValue) : option string :=
  match v with JString s => Some s | _ => None end.

Definition as_visibility (v : JValue) : option Visibility :=
  match v with
  | JString "PUBLIC" => Some PUBLIC
  | JString "FRIENDS" => Some FRIENDS
  | JString "PRIVATE" => Some PRIVATE
  | _ => None
  end.

Definition as_tags (v : JValue) : option (list string) :=
  match v with
  | JArray items =>
      Some (flat_map (fun x => match x with JString s => [s] | _ => [] end) items)
  | _ => None
  end.

(** [const { k } = x] throws when [x] is [undefined] or [null]. *)
Definition destructurable (v : JValue) : bool :=
  match v with JUndefined | JNull => false | _ => true end.

(** A controller run on [req.validatedData]: its first statements
    destructure [params] (and [body]) inside the [try]; with a key that
    is not a string the store call is refused.  Both end in the 500 of
    the [catch]. *)
Definition with_params (validatedData : JValue) (key : string) (on_error : Response)
  (k : string -> Handler) : Handler :=
  if destructurable (field "params" validatedData)
  then
    match field key (field "params" validatedData) with
    | JString id => k id
    | _ => fun _ db => (on_error, db)
    end
  else fun _ db => (on_error, db).

Definition updatePost_on (validatedData : JValue) (user : User) : Handler :=
  with_params validatedData "id" (json_error 500 "Failed to update post")
    (fun id =>
       let body := field "body" validatedData in
       if destructurable body
       then postController.updatePost id
              (prisma.post.mkUpdateData (as_string (field "content" body))
                 (as_visibility (field "visibility" body))
                 (as_string (field "location" body))
                 (as_tags (field "tags" body)))
              (user_id user)
       else fun _ db => (json_error 500 "Failed to update post", db)).

Definition deletePost_on (validatedData : JValue) (user : User) : Handler :=
  with_params validatedData "id" (json_error 500 "Failed to delete post")
    (fun id => postController.deletePost id (user_id user)).

Definition getPostComments_on (validatedData : JValue) (page limit : option Z) : Handler :=
  with_params validatedData "postId" (json_error 500 "Failed to retrieve comments")
    (fun postId => commentController.getPostComments postId page limit).

Definition updateComment_on (validatedData : JValue) (user : User) : Handler :=
  with_params validatedData "id" (json_error 500 "Failed to update comment")
    (fun id =>
       let body := field "body" validatedData in
       match destructurable body, field "content" body with
       | true, JString content => commentController.updateComment id content (user_id user)
       | _, _ => fun _ db => (json_error 500 "Failed to update comment", db)
       end).

Definition deleteComment_on (validatedData : JValue) (user : User) : Handler :=
  with_params validatedData "id" (json_error 500 "Failed to delete comment")
    (fun id => commentController.deleteComment id (user_id user)).

Definition createComment_on (validatedData : JValue) (user : User) : Handler :=
  with_params validatedData "postId" (json_error 500 "Failed to create comment")
    (fun postId =>
       let body := field "body" validatedData in
       match destructurable body, field "content" body with
       | true, JString content =>
           commentController.createComment postId content
             (as_string (field "parentId" body)) user
       | _, _ => fun _ db => (json_error 500 "Failed to create comment", db)
       end).

(** [router.<method>(path, authenticate, validateRequest(schema), controller)] *)
Definition authenticated (verify : string -> auth.Verified) (is_cuid : string -> bool)
  (schema : ZSchema) (controller : JValue -> User -> Handler)
  (authHeader : option string) (req : Request) : Handler :=
  fun e db =>
    match auth.authenticate verify authHeader e db with
    | (auth.Respond r, db') => (r, db')
    | (auth.Next user, db') =>
        match validateRequest is_cuid schema req with
        | inl r => (r, db')
        | inr validatedData => controller validatedData user e db'
        end
    end.

(** [router.get(path, optionalAuth, validateRequest(schema), controller)] *)
Definition optional (verify : string -> auth.Verified) (is_cuid : string -> bool)
  (schema : ZSchema) (controller : JValue -> option User -> Handler)
  (authHeader : option string) (req : Request) : Handler :=
  fun e db =>
    match auth.optionalAuth verify authHeader e db with
    | (user, db') =>
        match validateRequest is_cuid schema req with
        | inl r => (r, db')
        | inr validatedData => controller validatedData user e db'
        end
    end.

(** The requests the router makes of a path: [req.params] holds the
    segment matched by the parameter of the route. *)
Definition request (param segment : string) (body : JValue) : Request :=
  mkRequest body (JObject []) (JObject [(param, JString segment)]).

(** [router.put('/:id', authenticate, validateRequest(schemas.createPost), updatePost)] *)
Definition put_post (verify : string -> auth.Verified) (is_cuid : string -> bool)
  (authHeader : option string) (id : string) (body : JValue) : Handler :=
  authenticated verify is_cuid schemas.createPost updatePost_on authHeader
    (request "id" id body).

(** [router.delete('/:id', authenticate, validateRequest(schemas.getPostById), deletePost)] *)
Definition delete_post (verify : string -> auth.Verified) (is_cuid : string -> bool)
  (authHeader : option string) (id : string) (body : JValue) : Handler :=
  authenticated verify is_cuid schemas.getPostById deletePost_on authHeader
    (request "id" id body).

(** [router.post('/:postId/comments', authenticate,
                 validateRequest(schemas.createComment), createComment)] *)
Definition post_comment (verify : string -> auth.Verified) (is_cuid : string -> bool)
  (authHeader : option string) (postId : string) (body : JValue) : Handler :=
  authenticated verify is_cuid schemas.createComment createComment_on authHeader
    (request "postId" postId body).

(** [router.get('/:postId/comments', optionalAuth,
                validateRequest(schemas.getPostById), getPostComments)];
    [page] and [limit] are those of the query string. *)
Definition get_post_comments (verify : string -> auth.Verified) (is_cuid : string -> bool)
  (authHeader : option string) (postId : string) (body : JValue) (page limit : option Z)
  : Handler :=
  optional verify is_cuid schemas.getPostById
    (fun vd _ => getPostComments_on vd page limit)
    authHeader (request "postId" postId body).

(** [router.put('/comments/:id', authenticate,
                validateRequest(schemas.createComment), updateComment)] *)
Definition put_comment (verify : string -> auth.Verified) (is_cuid : string -> bool)
  (authHeader : option string) (id : string) (body : JValue) : Handler :=
  authenticated verify is_cuid schemas.createComment updateComment_on authHeader
    (request "id" id body).

(** [router.delete('/comments/:id', authenticate,
                   validateRequest(schemas.getPostById), deleteComment)] *)
Definition delete_comment (verify : string -> auth.Verified) (is_cuid : string -> bool)
  (authHeader : option string) (id : string) (body : JValue) : Handler :=
  authenticated verify is_cuid schemas.getPostById deleteComment_on authHeader
    (request "id" id body).

End routes.

(** ** Requests used in the examples *)

(** Two tokens that verify, one for alice and one for bob; every other
    token is refused. *)
Definition sample_verify (token : string) : auth.Verified :=
  if String.eqb token "tokalice" then auth.Decoded "cuseralice1"
  else if String.eqb token "tokbob" then auth.Decoded "cuserbob001"
  else auth.JsonWebTokenError.

(** The ids of the examples have the shape of a cuid: a [c] followed by
    eight characters or more. *)
Definition sample_is_cuid (s : string) : bool :=
  String.prefix "c" s && Nat.leb 9 (String.length s).

(** ** Vocabulary of the further properties *)

(** The largest number a 32-bit signed integer holds.  Up to it the
    numbers of a query string are the same number whether read by
    [Number] (as [(page - 1) * limit] does) or by [parseInt], and the
    store takes them as [skip] and [take]. *)
Definition max_int32 : Z := 2147483647.

(** No two stored posts were created at the same instant. *)
Definition distinct_createdAt (db : DB) : Prop :=
  NoDup (map post_createdAt (posts db)).

(** No stored comment is a reply to comment [id]. *)
Definition no_replies (db : DB) (id : string) : Prop :=
  forall c, In c (comments db) -> comment_parentId c <> Some id.

(** No stored comment and no stored like belongs to post [postId]. *)
Definition no_dependents (db : DB) (postId : string) : Prop :=
  (forall c, In c (comments db) -> comment_postId c <> postId)
  /\ (forall l, In l (likes db) -> like_postId l <> postId).

(** A store with three posts of alice, created at three instants, and
    nothing else but the users. *)
Definition db_posts : DB := mkDB [alice; bob; carol] [] [p_pub; p_fr; p_priv] [] [] [] [].

(** * Proofs *)

(** ** Shared lemmas *)

Lemma find_follow_some (f g : string) (l : list Follow) (r : Follow) :
  find (follow_is f g) l = Some r -> In (mkFollow f g) l.
Proof.
  intros H. apply find_some in H. destruct H as [Hin Hb].
  unfold follow_is in Hb. apply andb_true_iff in Hb. destruct Hb as [H1 H2].
  apply String.eqb_eq in H1. apply String.eqb_eq in H2.
  destruct r as [a b]. simpl in *. subst. exact Hin.
Qed.

Lemma find_follow_none (f g : string) (l : list Follow) :
  find (follow_is f g) l = None -> ~ In (mkFollow f g) l.
Proof.
  intros H Hin. apply (find_none _ _ H) in Hin.
  unfold follow_is in Hin. simpl in Hin. rewrite !String.eqb_refl in Hin. discriminate.
Qed.

Lemma existsb_follow_find (f g : string) (l : list Follow) :
  existsb (follow_is f g) l = match find (follow_is f g) l with Some _ => true | None => false end.
Proof.
  induction l as [|r l IH]; simpl; [reflexivity|].
  destruct (follow_is f g r); simpl; [reflexivity|exact IH].
Qed.

(** Unfolding one handler run down to the store reads. *)
Ltac run :=
  unfold try_catch, bind, call, get, put, env, ret, throw, resolve_option; simpl.

Ltac calm_down H := repeat rewrite (H _) in *; simpl.

(** ** Reading a post *)

(** C1. A FRIENDS post is served (200) exactly to its author and to the
    viewers with a follow edge viewer -> author; every other viewer, and
    the anonymous one, gets 403.  Viewer ids are non-empty strings. *)
Theorem friends_post_read_rule
  (e : Env) (db : DB) (id : string) (viewer : option string) (p : Post) :
  quiet e ->
  viewer <> Some "" ->
  lookup_post db id = Some p ->
  post_visibility p = FRIENDS ->
  let r := fst (postController.getPostById id viewer e db) in
  (kind r = Success <->
     (viewer = Some (post_authorId p)
      \/ exists v, viewer = Some v /\ follows_edge db v (post_authorId p)))
  /\ (~ (viewer = Some (post_authorId p)
         \/ exists v, viewer = Some v /\ follows_edge db v (post_authorId p)) ->
      kind r = Forbidden)
  /\ (viewer = None -> kind r = Forbidden).
Proof.
  intros Hq Hne Hp Hv. unfold lookup_post in Hp.
  unfold postController.getPostById, prisma.post.findUnique_likes,
    prisma.follow.findUnique. run. calm_down Hq. rewrite Hp. simpl.
  rewrite Hv. simpl.
  destruct viewer as [v|]; simpl.
  - destruct (String.eqb_spec (post_authorId p) v) as [Ha|Ha]; simpl.
    + subst v. repeat split; auto; try discriminate.
      intros H. exfalso. apply H. left. reflexivity.
    + assert (Hv' : v <> "") by (intros ->; apply Hne; reflexivity).
      destruct (String.eqb_spec v "") as [|_]; [contradiction|]. simpl.
      calm_down Hq.
      destruct (find (follow_is v (post_authorId p)) (follows db)) as [r|] eqn:Hf; simpl.
      * apply find_follow_some in Hf. repeat split; auto; try discriminate.
        -- intros _. right. exists v. split; [reflexivity|exact Hf].
        -- intros H. exfalso. apply H. right. exists v. split; [reflexivity|exact Hf].
      * apply find_follow_none in Hf. repeat split; auto; try discriminate.
        intros [H|[w [Hw Hin]]]; [congruence|].
        injection Hw as <-. contradiction.
  - repeat split; auto; try discriminate.
    intros [H|[w [Hw _]]]; discriminate.
Qed.

Lemma friends_post_read_rule_witness :
  kind (fst (postController.getPostById "cpost0friends" (Some "cuserbob001") calm db0)) = Success
  /\ kind (fst (postController.getPostById "cpost0friends" None calm db0)) = Forbidden.
Proof.
  split.
  - apply (friends_post_read_rule calm db0 "cpost0friends" (Some "cuserbob001") p_fr);
      [intro; reflexivity | discriminate | reflexivity | reflexivity |].
    right. exists "cuserbob001". split; [reflexivity|]. left. reflexivity.
  - apply (friends_post_read_rule calm db0 "cpost0friends" None p_fr);
      [intro; reflexivity | discriminate | reflexivity | reflexivity | reflexivity].
Defined.

(** C2. A PRIVATE post is served (200) exactly to its author; every other
    viewer, the anonymous one included, gets 403 (not 404); and a post
    that does not exist gives 404 whatever the viewer is. *)
Theorem private_post_read_rule
  (e : Env) (db : DB) (id : string) (viewer : option string) :
  quiet e ->
  let r := fst (postController.getPostById id viewer e db) in
  match lookup_post db id with
  | None => kind r = NotFound
  | Some p =>
      post_visibility p = PRIVATE ->
      (kind r = Success <-> viewer = Some (post_authorId p))
      /\ (viewer <> Some (post_authorId p) -> kind r = Forbidden /\ status r = 403)
  end.
Proof.
  intros Hq. unfold lookup_post.
  unfold postController.getPostById, prisma.post.findUnique_likes. run. calm_down Hq.
  destruct (find (fun p => String.eqb (post_id p) id) (posts db)) as [p|] eqn:Hp; simpl;
    [|reflexivity].
  intros Hv. rewrite Hv. simpl.
  destruct viewer as [v|]; simpl.
  - destruct (String.eqb_spec (post_authorId p) v) as [Ha|Ha]; simpl.
    + subst v. split; [split; auto|]. intros H. congruence.
    + split; [split; [discriminate|congruence]|]. intros _. split; reflexivity.
  - split; [split; discriminate|]. intros _. split; reflexivity.
Qed.

Lemma private_post_read_rule_witness :
  kind (fst (postController.getPostById "cpost0private" None calm db0)) = Forbidden
  /\ kind (fst (postController.getPostById "cpost0private" (Some "cuseralice1") calm db0)) = Success
  /\ kind (fst (postController.getPostById "cpost000404" (Some "cuseralice1") calm db0)) = NotFound.
Proof.
  assert (Hq : quiet calm) by (intro; reflexivity).
  split; [|split].
  - apply (private_post_read_rule calm db0 "cpost0private" None Hq); [reflexivity|discriminate].
  - apply (private_post_read_rule calm db0 "cpost0private" (Some "cuseralice1") Hq); reflexivity.
  - exact (private_post_read_rule calm db0 "cpost000404" (Some "cuseralice1") Hq).
Defined.

(** ** Comments and the parent post's read rule *)

(** Creating a comment applies the read rule of the parent post to the
    commenting user. *)
Lemma createComment_follows_read_rule
  (e : Env) (db : DB) (postId content : string) (parentId : option string)
  (user : User) (p : Post) :
  quiet e ->
  lookup_post db postId = Some p ->
  let r := fst (commentController.createComment postId content parentId user e db) in
  kind r = Forbidden <-> ~ canRead db p (Some (user_id user)).
Proof.
  intros Hq Hp. unfold lookup_post in Hp. unfold canRead, follows_edge.
  unfold commentController.createComment, prisma.post.findUnique,
    prisma.follow.findUnique, prisma.comment.findUnique, prisma.comment.create,
    prisma.notification.create.
  run. calm_down Hq. rewrite Hp. simpl.
  destruct (post_visibility p) eqn:Hv; simpl.
  - (* PUBLIC *)
    split; [|tauto]. intros H. exfalso. revert H.
    destruct parentId as [pid|]; simpl.
    + destruct (String.eqb pid ""); simpl; calm_down Hq.
      * destruct (String.eqb (post_authorId p) (user_id user)); simpl; calm_down Hq;
          discriminate.
      * destruct (find _ (comments db)) as [pc|]; simpl; [|discriminate].
        destruct (String.eqb (comment_postId pc) postId); simpl; calm_down Hq;
          [|discriminate].
        destruct (String.eqb (post_authorId p) (user_id user)); simpl; calm_down Hq;
          discriminate.
    + calm_down Hq.
      destruct (String.eqb (post_authorId p) (user_id user)); simpl; calm_down Hq;
        discriminate.
  - (* FRIENDS *)
    destruct (String.eqb_spec (post_authorId p) (user_id user)) as [Ha|Ha]; simpl.
    + split.
      * intros H. exfalso. revert H.
        destruct parentId as [pid|]; simpl.
        -- destruct (String.eqb pid ""); simpl; calm_down Hq; [discriminate|].
           destruct (find _ (comments db)) as [pc|]; simpl; [|discriminate].
           destruct (String.eqb (comment_postId pc) postId); simpl; calm_down Hq;
             discriminate.
        -- calm_down Hq. discriminate.
      * intros H. exfalso. apply H. left. congruence.
    + calm_down Hq.
      destruct (find (follow_is (user_id user) (post_authorId p)) (follows db))
        as [r|] eqn:Hf; simpl.
      * apply find_follow_some in Hf. split.
        -- intros H. exfalso. revert H.
           destruct parentId as [pid|]; simpl.
           ++ destruct (String.eqb pid ""); simpl; calm_down Hq; [discriminate|].
              destruct (find _ (comments db)) as [pc|]; simpl; [|discriminate].
              destruct (String.eqb (comment_postId pc) postId); simpl; calm_down Hq;
                discriminate.
           ++ calm_down Hq. discriminate.
        -- intros H. exfalso. apply H. right. exists (user_id user). auto.
      * apply find_follow_none in Hf. split; [|reflexivity].
        intros _ [H|[v [Hv' Hin]]]; [congruence|].
        injection Hv' as <-. contradiction.
  - (* PRIVATE *)
    destruct (String.eqb_spec (post_authorId p) (user_id user)) as [Ha|Ha]; simpl.
    + split.
      * intros H. exfalso. revert H.
        destruct parentId as [pid|]; simpl.
        -- destruct (String.eqb pid ""); simpl; calm_down Hq; [discriminate|].
           destruct (find _ (comments db)) as [pc|]; simpl; [|discriminate].
           destruct (String.eqb (comment_postId pc) postId); simpl; calm_down Hq;
             discriminate.
        -- calm_down Hq. discriminate.
      * intros H. exfalso. apply H. congruence.
    + split; [|reflexivity]. intros _ H. congruence.
Qed.

(** C3. Listing comments does not apply the parent post's read rule.
    On the store [db0] the PRIVATE post [p_priv] of
    alice is refused (403) to carol and to the anonymous viewer, yet
    [getPostComments] hands out its comments and [getCommentReplies] the
    replies to them: neither handler looks at the viewer or at the post's
    visibility, while [createComment] on the same post is refused. *)
Theorem comment_listing_ignores_post_visibility :
  kind (fst (postController.getPostById "cpost0private" (Some "cusercarol1") calm db0)) = Forbidden
  /\ kind (fst (postController.getPostById "cpost0private" None calm db0)) = Forbidden
  /\ kind (fst (commentController.createComment "cpost0private" "hi" None carol calm db0))
     = Forbidden
  /\ fst (commentController.getPostComments "cpost0private" None None calm db0)
     = json (DComments [(c1, [c2])] 1 20 1)
  /\ fst (commentController.getCommentReplies "ccomment001" None None calm db0)
     = json (DReplies [c2] 1 10 1).
Proof.
  repeat split; reflexivity.
Qed.

(** ** The feed *)

Section Sorting.
Context {A : Type} (le : A -> A -> bool).
Hypothesis le_total : forall x y, le x y = true \/ le y x = true.
Hypothesis le_trans : forall x y z, le x y = true -> le y z = true -> le x z = true.

Lemma insert_by_In (x y : A) (l : list A) :
  In y (insert_by le x l) -> y = x \/ In y l.
Proof.
  induction l as [|z l IH]; simpl.
  - intros [H|[]]; auto.
  - destruct (le x z); simpl.
    + intros [H|H]; auto.
    + intros [H|H]; auto. destruct (IH H); auto.
Qed.

Lemma insert_by_sorted (x : A) (l : list A) :
  StronglySorted (fun a b => le a b = true) l ->
  StronglySorted (fun a b => le a b = true) (insert_by le x l).
Proof.
  induction 1 as [|z l Hs IH Hz]; simpl.
  - constructor; constructor.
  - destruct (le x z) eqn:Hxz.
    + constructor; [constructor; assumption|].
      constructor; [exact Hxz|].
      rewrite Forall_forall in *. intros y Hy. apply (le_trans x z y Hxz (Hz y Hy)).
    + constructor; [exact IH|].
      rewrite Forall_forall in *. intros y Hy.
      destruct (insert_by_In _ _ _ Hy) as [->|Hin]; [|auto].
      destruct (le_total x z) as [H|H]; [congruence|exact H].
Qed.

Lemma sort_by_sorted (l : list A) :
  StronglySorted (fun a b => le a b = true) (sort_by le l).
Proof.
  induction l as [|x l IH]; simpl; [constructor|].
  apply insert_by_sorted. exact IH.
Qed.

End Sorting.

Lemma StronglySorted_app_l {A} (R : A -> A -> Prop) (a b : list A) :
  StronglySorted R (a ++ b) -> StronglySorted R a.
Proof.
  induction a as [|x a IH]; simpl; intros H; [constructor|].
  apply StronglySorted_inv in H. destruct H as [Hs Hf].
  constructor; [auto|]. apply Forall_app in Hf. tauto.
Qed.

Lemma StronglySorted_app_r {A} (R : A -> A -> Prop) (a b : list A) :
  StronglySorted R (a ++ b) -> StronglySorted R b.
Proof.
  induction a as [|x a IH]; simpl; intros H; [exact H|].
  apply StronglySorted_inv in H. tauto.
Qed.

Lemma StronglySorted_impl {A} (R S : A -> A -> Prop) (l : list A) :
  (forall x y, R x y -> S x y) -> StronglySorted R l -> StronglySorted S l.
Proof.
  intros HRS. induction 1 as [|x l Hs IH Hx]; constructor; auto.
  eapply Forall_impl; [|exact Hx]. intros y. apply HRS.
Qed.

(** A page is a run of consecutive rows of the ordered result. *)
Lemma skip_take_segment {A} (skip take : Z) (l page : list A) :
  skip_take skip take l = Some page -> exists a b, l = (a ++ page ++ b)%list.
Proof.
  unfold skip_take. destruct (skip <? 0)%Z; [discriminate|].
  destruct (0 <=? take)%Z; intros H; injection H as <-.
  - exists (firstn (Z.to_nat skip) l),
           (skipn (Z.to_nat take) (skipn (Z.to_nat skip) l)).
    rewrite (firstn_skipn (Z.to_nat take)). symmetry. apply firstn_skipn.
  - exists (rev (skipn (Z.to_nat (- take)) (skipn (Z.to_nat skip) (rev l)))),
           (rev (firstn (Z.to_nat skip) (rev l))).
    rewrite <- !rev_app_distr, <- app_assoc.
    rewrite (firstn_skipn (Z.to_nat (- take))), firstn_skipn. symmetry. apply rev_involutive.
Qed.

Lemma feed_posts_of_rows (rows : list (Post * list Like)) (page limit : Z) (more : bool) :
  feed_posts
    (json (DFeed (map (fun pl => (fst pl, negb (Nat.eqb (length (snd pl)) 0))) rows)
             page limit more))
  = map fst rows.
Proof.
  unfold feed_posts. simpl. rewrite map_map. reflexivity.
Qed.

(** C4, as the code has it. Whatever the viewer, the page and the store,
    the posts of a feed response are in order of creation time, newest
    first. *)
Theorem feed_newest_first
  (e : Env) (db : DB) (page limit : option Z) (userId : string) :
  newest_first (feed_posts (fst (postController.getFeed page limit userId e db))).
Proof.
  unfold postController.getFeed, prisma.follow.findMany, prisma.post.findMany. run.
  destruct (rejects e follow_findMany); simpl; [constructor|].
  destruct (rejects e post_findMany); simpl; [constructor|].
  match goal with
  | |- context [skip_take ?s ?t ?l] => destruct (skip_take s t l) as [rows|] eqn:Hpage
  end; simpl; [|constructor].
  rewrite feed_posts_of_rows.
  apply skip_take_segment in Hpage. destruct Hpage as [a [b Hab]].
  apply (f_equal (map fst)) in Hab. rewrite map_map in Hab. simpl in Hab.
  rewrite map_id, !map_app in Hab.
  match type of Hab with
  | sort_by _ ?l = _ =>
      assert (Hs : StronglySorted (fun p q => createdAt_desc p q = true)
                     (sort_by createdAt_desc l))
  end.
  { apply sort_by_sorted; unfold createdAt_desc; intros; rewrite ?Z.leb_le in *; lia. }
  rewrite Hab in Hs.
  apply StronglySorted_app_r, StronglySorted_app_l in Hs.
  unfold newest_first.
  eapply StronglySorted_impl; [|exact Hs].
  intros p q Hpq. unfold createdAt_desc in Hpq. apply Z.leb_le in Hpq. exact Hpq.
Qed.

(** C4, as stated, fails: nothing breaks ties by id.  The stores [db_ab]
    and [db_ba] hold the same two posts of bob, created at the same
    instant, and bob's feed lists them in the order the store holds them:
    ids ascending on one store, descending on the other. *)
Lemma feed_ties_follow_the_store :
  Permutation (posts db_ab) (posts db_ba)
  /\ feed_posts (fst (postController.getFeed None None "cuserbob001" calm db_ab)) = [t1; t2]
  /\ feed_posts (fst (postController.getFeed None None "cuserbob001" calm db_ba)) = [t2; t1]
  /\ ~ newest_first_then_id String.ltb
         (feed_posts (fst (postController.getFeed None None "cuserbob001" calm db_ba)))
  /\ ~ newest_first_then_id (fun a b => String.ltb b a)
         (feed_posts (fst (postController.getFeed None None "cuserbob001" calm db_ab))).
Proof.
  split; [apply perm_swap|].
  split; [reflexivity|]. split; [reflexivity|].
  split; intros H; vm_compute in H; apply StronglySorted_inv in H;
    destruct H as [_ H]; apply Forall_inv in H; simpl in H;
    destruct H as [H|[_ H]]; try lia; vm_compute in H; discriminate.
Qed.

(** With no store call rejecting, a page number of at least 1 and a
    non-negative limit, the feed request is answered with a page. *)
Lemma getFeed_responds
  (e : Env) (db : DB) (page limit : option Z) (userId : string) :
  quiet e ->
  (1 <= match page with Some n => n | None => 1 end)%Z ->
  (0 <= match limit with Some n => n | None => 10 end)%Z ->
  exists ps more,
    fst (postController.getFeed page limit userId e db)
    = json (DFeed ps (match page with Some n => n | None => 1 end)
                     (match limit with Some n => n | None => 10 end) more).
Proof.
  intros Hq Hp Hl.
  unfold postController.getFeed, prisma.follow.findMany, prisma.post.findMany. run.
  calm_down Hq. unfold skip_take.
  destruct (Z.ltb_spec ((match page with Some n => n | None => 1 end - 1)
                        * match limit with Some n => n | None => 10 end) 0) as [H|H];
    [nia|].
  destruct (Z.leb_spec 0 (match limit with Some n => n | None => 10 end)) as [H'|H'];
    [|lia].
  simpl. eexists. eexists. reflexivity.
Qed.

(** C5. In every feed response, [hasMore] is true exactly when the number
    of posts returned equals the requested limit (10 when none is given);
    a page shorter than the limit reports [hasMore = false]. *)
Theorem feed_hasMore_iff_full_page
  (e : Env) (db : DB) (page limit : option Z) (userId : string)
  (ps : list (Post * bool)) (pg lm : Z) (more : bool) :
  data (fst (postController.getFeed page limit userId e db)) = DFeed ps pg lm more ->
  lm = match limit with Some n => n | None => 10%Z end
  /\ (more = true <-> Z.of_nat (length ps) = lm)
  /\ ((Z.of_nat (length ps) < lm)%Z -> more = false).
Proof.
  unfold postController.getFeed, prisma.follow.findMany, prisma.post.findMany. run.
  destruct (rejects e follow_findMany); simpl; [discriminate|].
  destruct (rejects e post_findMany); simpl; [discriminate|].
  match goal with
  | |- context [skip_take ?s ?t ?l] => destruct (skip_take s t l) as [rows|]
  end; simpl; [|discriminate].
  intros H. injection H as <- <- <- <-.
  rewrite length_map. split; [reflexivity|].
  split; [apply Z.eqb_eq|].
  intros Hlt. apply Z.eqb_neq. lia.
Qed.

Lemma feed_hasMore_iff_full_page_witness :
  (true = true <-> Z.of_nat (length [(t1, false); (t2, false)]) = 2%Z)
  /\ (false = true <-> Z.of_nat (length [(t1, false); (t2, false)]) = 10%Z).
Proof.
  split.
  - apply (feed_hasMore_iff_full_page calm db_ab (Some 1%Z) (Some 2%Z) "cuserbob001"
             [(t1, false); (t2, false)] 1 2 true). reflexivity.
  - apply (feed_hasMore_iff_full_page calm db_ab None None "cuserbob001"
             [(t1, false); (t2, false)] 1 10 false). reflexivity.
Defined.

(** The approximation: a full last page reports more, and the page after
    it is empty. *)
Example feed_hasMore_on_full_last_page :
  data (fst (postController.getFeed (Some 1%Z) (Some 2%Z) "cuserbob001" calm db_ab))
  = DFeed [(t1, false); (t2, false)] 1 2 true
  /\ data (fst (postController.getFeed (Some 2%Z) (Some 2%Z) "cuserbob001" calm db_ab))
     = DFeed [] 2 2 false.
Proof.
  split; reflexivity.
Qed.

(** ** Following *)

(** C6. [followUser] for an authenticated follower [u] and a target [v],
    on a store whose follow table is well formed, with the two reads not
    rejecting: 400 "Invalid action" when [u = v]; 404 when [v] does not
    exist; 409 when the edge exists; in these cases the store is
    untouched.  Otherwise the edge (u, v) is appended, and then a FOLLOW
    notification for [v] triggered by [u]; when the notification write
    rejects the answer is 500 and the edge stays. *)
Theorem followUser_contract (e : Env) (db : DB) (user : User) (v : string) :
  rejects e user_findUnique = false ->
  rejects e follow_findUnique = false ->
  lookup_user db (user_id user) <> None ->
  follows_wf db ->
  let u := user_id user in
  let r := fst (userController.followUser v user e db) in
  let db' := snd (userController.followUser v user e db) in
  (u = v -> kind r = InvalidAction /\ db' = db)
  /\ (lookup_user db v = None -> kind r = NotFound /\ db' = db)
  /\ (follows_edge db u v -> kind r = Conflict /\ db' = db)
  /\ (u <> v -> lookup_user db v <> None -> ~ follows_edge db u v ->
      rejects e follow_create = false ->
      let edge_added := set_follows db (follows db ++ [mkFollow u v]) in
      (rejects e notification_create = false ->
         kind r = Success
         /\ db' = set_notifications edge_added
                    (notifications db ++
                     [mkNotification FOLLOW
                        (user_firstName user ++ " " ++ user_lastName user
                           ++ " started following you") v u None]))
      /\ (rejects e notification_create = true ->
            kind r = Internal /\ db' = edge_added)).
Proof.
  intros Hu Hf Hauth Hwf u r db'. subst u r db'. unfold lookup_user in *.
  unfold userController.followUser, prisma.user.findUnique, prisma.follow.findUnique,
    prisma.follow.create, prisma.notification.create.
  run.
  destruct (String.eqb_spec (user_id user) v) as [Heq|Hne]; simpl.
  - (* self-follow *)
    split; [auto|]. split; [intros Hv; subst v; contradiction|].
    split; [intros He; subst v; apply Hwf in He; simpl in He; tauto|].
    intros; contradiction.
  - rewrite Hu. simpl.
    destruct (find (fun x => String.eqb (user_id x) v) (users db)) as [tu|] eqn:Htu; simpl.
    + rewrite Hf. simpl.
      destruct (find (follow_is (user_id user) v) (follows db)) as [ef|] eqn:Hef; simpl.
      * apply find_follow_some in Hef.
        split; [intros; contradiction|]. split; [discriminate|].
        split; [auto|]. intros; contradiction.
      * pose proof (existsb_follow_find (user_id user) v (follows db)) as Hex.
        rewrite Hef in Hex. apply find_follow_none in Hef.
        split; [intros; contradiction|]. split; [discriminate|].
        split; [intros; contradiction|].
        intros _ _ _ Hc. rewrite Hc, Hex. simpl.
        split; intros Hn; rewrite Hn; simpl; split; reflexivity.
    + split; [intros; contradiction|]. split; [auto|].
      split; [|intros; contradiction].
      intros He. apply Hwf in He. simpl in He. unfold lookup_user in He.
      rewrite Htu in He. tauto.
Qed.

Lemma db0_follows_wf : follows_wf db0.
Proof.
  intros r [<-|[]]. simpl. split; discriminate.
Defined.

Lemma followUser_contract_witness :
  (kind (fst (userController.followUser "cuseralice1" carol notify_down db0)) = Internal
   /\ snd (userController.followUser "cuseralice1" carol notify_down db0)
      = set_follows db0 (follows db0 ++ [mkFollow "cusercarol1" "cuseralice1"]))
  /\ kind (fst (userController.followUser "cuseralice1" bob calm db0)) = Conflict
  /\ kind (fst (userController.followUser "cusercarol1" carol calm db0)) = InvalidAction
  /\ kind (fst (userController.followUser "cuserdave01" carol calm db0)) = NotFound.
Proof.
  split; [|split; [|split]].
  - destruct (followUser_contract notify_down db0 carol "cuseralice1") as (_ & _ & _ & H);
      [reflexivity | reflexivity | discriminate | exact db0_follows_wf |].
    apply H; [discriminate | discriminate | | reflexivity | reflexivity].
    intros [E|[]]. discriminate.
  - destruct (followUser_contract calm db0 bob "cuseralice1") as (_ & _ & H & _);
      [reflexivity | reflexivity | discriminate | exact db0_follows_wf |].
    apply H. left. reflexivity.
  - destruct (followUser_contract calm db0 carol "cusercarol1") as (H & _);
      [reflexivity | reflexivity | discriminate | exact db0_follows_wf |].
    apply H. reflexivity.
  - destruct (followUser_contract calm db0 carol "cuserdave01") as (_ & H & _);
      [reflexivity | reflexivity | discriminate | exact db0_follows_wf |].
    apply H. reflexivity.
Defined.

(** ** Liking *)

Lemma like_is_refl (u p : string) : like_is u p (mkLike u p) = true.
Proof. unfold like_is. simpl. rewrite !String.eqb_refl. reflexivity. Qed.

Lemma like_rows_zero_find (u p : string) (l : list Like) :
  length (filter (like_is u p) l) = 0 ->
  find (like_is u p) l = None /\ existsb (like_is u p) l = false.
Proof.
  induction l as [|r l IH]; simpl; [auto|].
  destruct (like_is u p r); simpl; [discriminate|exact IH].
Qed.

Lemma like_rows_succ_find (u p : string) (l : list Like) (n : nat) :
  length (filter (like_is u p) l) = S n ->
  (exists r, find (like_is u p) l = Some r) /\ existsb (like_is u p) l = true.
Proof.
  induction l as [|r l IH]; simpl; [discriminate|].
  destruct (like_is u p r); simpl; [eauto|exact IH].
Qed.

Lemma like_rows_append (u p : string) (l : list Like) :
  length (filter (like_is u p) (l ++ [mkLike u p])) = S (length (filter (like_is u p) l)).
Proof.
  rewrite filter_app, length_app. simpl. rewrite like_is_refl. simpl. lia.
Qed.

Lemma like_rows_remove_first (u p : string) (l : list Like) :
  length (filter (like_is u p) (prisma.like.remove_first u p l))
  = pred (length (filter (like_is u p) l)).
Proof.
  induction l as [|r l IH]; simpl; [reflexivity|].
  destruct (like_is u p r) eqn:Hr; simpl; [reflexivity|].
  rewrite Hr. exact IH.
Qed.

Lemma remove_first_append (u p : string) (l : list Like) :
  length (filter (like_is u p) l) = 0 ->
  prisma.like.remove_first u p (l ++ [mkLike u p]) = l.
Proof.
  induction l as [|r l IH]; simpl.
  - intros _. rewrite like_is_refl. reflexivity.
  - destruct (like_is u p r) eqn:Hr; simpl; [discriminate|].
    intros H. rewrite (IH H). reflexivity.
Qed.

(** One call of [likePost] on an existing post, no store call rejecting. *)
Lemma likePost_step (e : Env) (db : DB) (user : User) (postId : string) (p : Post) :
  quiet e ->
  lookup_post db postId = Some p ->
  let r := fst (postController.likePost postId user e db) in
  let db' := snd (postController.likePost postId user e db) in
  posts db' = posts db
  /\ (like_rows db (user_id user) postId = 0 ->
      r = json (DLiked true)
      /\ likes db' = (likes db ++ [mkLike (user_id user) postId])%list
      /\ like_rows db' (user_id user) postId = 1)
  /\ (forall n, like_rows db (user_id user) postId = S n ->
      r = json (DLiked false)
      /\ db' = set_likes db (prisma.like.remove_first (user_id user) postId (likes db))
      /\ like_rows db' (user_id user) postId = n).
Proof.
  intros Hq Hp. unfold lookup_post in Hp. unfold like_rows.
  unfold postController.likePost, prisma.post.findUnique, prisma.like.findUnique,
    prisma.like.create, prisma.like.delete, prisma.notification.create.
  run. calm_down Hq. rewrite Hp. simpl. calm_down Hq.
  destruct (length (filter (like_is (user_id user) postId) (likes db))) as [|n] eqn:Hn.
  - destruct (like_rows_zero_find _ _ _ Hn) as [Hfind Hex].
    rewrite Hfind. simpl. calm_down Hq. rewrite Hex. simpl.
    destruct (String.eqb (post_authorId p) (user_id user)); simpl; calm_down Hq;
      (split; [reflexivity|]; split; [|intros ? ?; discriminate]);
      intros _; rewrite like_rows_append, Hn; auto.
  - destruct (like_rows_succ_find _ _ _ _ Hn) as [[r Hfind] Hex].
    rewrite Hfind. simpl. calm_down Hq. rewrite Hex. simpl.
    split; [reflexivity|]. split; [discriminate|].
    intros m Hm. injection Hm as <-.
    rewrite like_rows_remove_first, Hn. auto.
Qed.

Lemma likePost_run_all (user : User) (postId : string) (p : Post) (es : list Env) :
  forall (db : DB) (b : bool),
  Forall quiet es ->
  lookup_post db postId = Some p ->
  like_rows db (user_id user) postId = (if b then 1 else 0) ->
  like_rows (snd (run_all (postController.likePost postId user) es db))
    (user_id user) postId
  = (if xorb b (Nat.odd (length es)) then 1 else 0)
  /\ fst (run_all (postController.likePost postId user) es db)
     = map (fun i => json (DLiked (xorb b (Nat.even i)))) (seq 0 (length es)).
Proof.
  induction es as [|e es IH]; intros db b Hq Hp Hb.
  - simpl. rewrite xorb_false_r. auto.
  - apply Forall_cons_iff in Hq. destruct Hq as [He Hes].
    destruct (likePost_step e db user postId p He Hp) as (Hposts & H0 & HS).
    cbn [run_all].
    destruct (postController.likePost postId user e db) as [r db1] eqn:Hrun.
    cbn [fst snd] in Hposts, H0, HS.
    assert (Hp1 : lookup_post db1 postId = Some p)
      by (unfold lookup_post in *; rewrite Hposts; exact Hp).
    assert (Hstep : r = json (DLiked (negb b))
                    /\ like_rows db1 (user_id user) postId = (if negb b then 1 else 0)).
    { destruct b; simpl.
      - destruct (HS 0 Hb) as (? & _ & ?). auto.
      - destruct (H0 Hb) as (? & _ & ?). auto. }
    destruct Hstep as [Hr Hb1].
    destruct (IH db1 (negb b) Hes Hp1 Hb1) as [IHrows IHrs].
    destruct (run_all (postController.likePost postId user) es db1) as [rs db2].
    cbn [fst snd] in *. split.
    + rewrite IHrows. cbn [length]. rewrite Nat.odd_succ, <- Nat.negb_odd.
      destruct b, (Nat.odd (length es)); reflexivity.
    + cbn [length seq map]. rewrite Hr, IHrs.
      assert (E : xorb b (Nat.even 0) = negb b) by (destruct b; reflexivity).
      rewrite E. apply f_equal.
      rewrite <- seq_shift, map_map. apply map_ext. intros i.
      rewrite Nat.even_succ, <- Nat.negb_even.
      destruct b, (Nat.even i); reflexivity.
Qed.

(** C7. Starting from a store with no Like row for (u, p), [p] an
    existing post, and store calls not rejecting: after [n] calls of
    [likePost] there is exactly one row for (u, p) when [n] is odd and
    none when [n] is even; the i-th call answers [isLiked] = the presence
    it leaves (true, false, true, ...); and after two calls the like table
    is the original one, the second call having added no notification. *)
Theorem likePost_toggle
  (es : list Env) (db : DB) (user : User) (postId : string) (p : Post) :
  Forall quiet es ->
  lookup_post db postId = Some p ->
  like_rows db (user_id user) postId = 0 ->
  let h := postController.likePost postId user in
  like_rows (snd (run_all h es db)) (user_id user) postId
  = (if Nat.odd (length es) then 1 else 0)
  /\ fst (run_all h es db)
     = map (fun i => json (DLiked (Nat.even i))) (seq 0 (length es))
  /\ (forall e1 e2, quiet e1 -> quiet e2 ->
      let db1 := snd (h e1 db) in
      let db2 := snd (h e2 db1) in
      fst (h e1 db) = json (DLiked true)
      /\ like_rows db1 (user_id user) postId = 1
      /\ fst (h e2 db1) = json (DLiked false)
      /\ likes db2 = likes db
      /\ notifications db2 = notifications db1).
Proof.
  intros Hq Hp H0 h. subst h.
  destruct (likePost_run_all user postId p es db false Hq Hp H0) as [Hrows Hrs].
  split; [exact Hrows|]. split; [exact Hrs|].
  intros e1 e2 H1 H2 db1 db2.
  destruct (likePost_step e1 db user postId p H1 Hp) as (Hposts & Ha & _).
  destruct (Ha H0) as (Hr1 & Hl1 & Hn1). fold db1 in Hposts, Hl1, Hn1.
  assert (Hp1 : lookup_post db1 postId = Some p)
    by (unfold lookup_post in *; rewrite Hposts; exact Hp).
  destruct (likePost_step e2 db1 user postId p H2 Hp1) as (_ & _ & Hb).
  destruct (Hb 0 Hn1) as (Hr2 & Hdb2 & _). fold db2 in Hdb2.
  repeat split; auto.
  - rewrite Hdb2. simpl. rewrite Hl1. apply remove_first_append. exact H0.
  - rewrite Hdb2. reflexivity.
Qed.

Lemma likePost_toggle_witness :
  like_rows (snd (run_all (postController.likePost "cpost0public" bob) [calm; calm; calm] db0))
    "cuserbob001" "cpost0public" = 1
  /\ fst (run_all (postController.likePost "cpost0public" bob) [calm; calm; calm] db0)
     = [json (DLiked true); json (DLiked false); json (DLiked true)].
Proof.
  destruct (likePost_toggle [calm; calm; calm] db0 bob "cpost0public" p_pub) as (H1 & H2 & _);
    [repeat constructor | reflexivity | reflexivity |].
  split; [exact H1 | exact H2].
Defined.

(** ** Real-time messages *)

(** C8. [send_message]: when the Message row is written, the row is
    appended to the store and then exactly two events go out, in this
    order: [new_message] with the written row to the room of the
    receiver, and [message_sent] with the id of that row to the sending
    socket alone.  When the write fails (or the payload is missing) the
    store is untouched, nothing is broadcast, and the only event is
    [error] to the sending socket. *)
Theorem send_message_contract
  (sock : socket.Socket) (data : option socket.SendMessage) (e : Env) (db : DB) :
  let out := fst (socket.send_message sock data e db) in
  let db' := snd (socket.send_message sock data e db) in
  (forall d, data = Some d -> rejects e message_create = false ->
     let m := mkMessage (fresh_id e) (socket.content d) (socket.socket_userId sock)
                (socket.receiverId d) (socket.mediaUrl d) (socket.mediaType d) in
     db' = set_messages db (messages db ++ [m])
     /\ out = [ socket.mkEmit (socket.ToRoom ("user_" ++ socket.receiverId d))
                  "new_message" (socket.PMessage m);
                socket.mkEmit (socket.ToSocket (socket.socket_id sock))
                  "message_sent" (socket.PMessageSent (message_id m)) ])
  /\ (data = None \/ rejects e message_create = true ->
      db' = db
      /\ out = [ socket.mkEmit (socket.ToSocket (socket.socket_id sock))
                   "error" (socket.PError "Failed to send message") ]).
Proof.
  unfold socket.send_message, prisma.message.create. run.
  split.
  - intros d -> Hw. simpl. unfold call. rewrite Hw. simpl. split; reflexivity.
  - intros [->|Hw]; simpl; [split; reflexivity|].
    destruct data as [d|]; simpl; [|split; reflexivity].
    unfold call. rewrite Hw. simpl. split; reflexivity.
Qed.

Lemma send_message_contract_witness :
  (snd (socket.send_message (socket.mkSocket "s1" "cuserbob001")
          (Some (socket.mkSendMessage "cuseralice1" "yo" None None)) calm db0)
   = set_messages db0 [mkMessage "cnewrow0001" "yo" "cuserbob001" "cuseralice1" None None]
   /\ fst (socket.send_message (socket.mkSocket "s1" "cuserbob001")
             (Some (socket.mkSendMessage "cuseralice1" "yo" None None)) calm db0)
      = [ socket.mkEmit (socket.ToRoom "user_cuseralice1") "new_message"
            (socket.PMessage (mkMessage "cnewrow0001" "yo" "cuserbob001" "cuseralice1" None None));
          socket.mkEmit (socket.ToSocket "s1") "message_sent"
            (socket.PMessageSent "cnewrow0001") ])
  /\ (snd (socket.send_message (socket.mkSocket "s1" "cuserbob001")
             (Some (socket.mkSendMessage "cuseralice1" "yo" None None)) message_down db0)
      = db0
      /\ fst (socket.send_message (socket.mkSocket "s1" "cuserbob001")
                (Some (socket.mkSendMessage "cuseralice1" "yo" None None)) message_down db0)
         = [ socket.mkEmit (socket.ToSocket "s1") "error"
               (socket.PError "Failed to send message") ]).
Proof.
  split.
  - destruct (send_message_contract (socket.mkSocket "s1" "cuserbob001")
                (Some (socket.mkSendMessage "cuseralice1" "yo" None None)) calm db0)
      as [H _].
    apply (H (socket.mkSendMessage "cuseralice1" "yo" None None)); reflexivity.
  - destruct (send_message_contract (socket.mkSocket "s1" "cuserbob001")
                (Some (socket.mkSendMessage "cuseralice1" "yo" None None)) message_down db0)
      as [_ H].
    apply H. right. reflexivity.
Defined.

(** ** Writing *)

Lemma lookup_post_with_visibility (f : Post -> Visibility) (l : list Post) (id : string) :
  find (fun p => String.eqb (post_id p) id) (map (fun p => set_visibility (f p) p) l)
  = option_map (fun p => set_visibility (f p) p)
      (find (fun p => String.eqb (post_id p) id) l).
Proof.
  induction l as [|p l IH]; simpl; [reflexivity|].
  destruct (String.eqb (post_id p) id); simpl; [reflexivity|exact IH].
Qed.

Lemma existsb_post_with_visibility (f : Post -> Visibility) (l : list Post) (id : string) :
  existsb (fun p => String.eqb (post_id p) id) (map (fun p => set_visibility (f p) p) l)
  = existsb (fun p => String.eqb (post_id p) id) l.
Proof.
  induction l as [|p l IH]; simpl; [reflexivity|].
  rewrite IH. reflexivity.
Qed.

Lemma find_existsb {A} (f : A -> bool) (l : list A) (x : A) :
  find f l = Some x -> existsb f l = true.
Proof.
  induction l as [|y l IH]; simpl; [discriminate|].
  destruct (f y); simpl; auto.
Qed.

Lemma updatePost_owner_only (e : Env) (db : DB) (id userId : string)
  (body : prisma.post.UpdateData) :
  quiet e ->
  owner_only (lookup_post db id) post_authorId userId db
    (postController.updatePost id body userId e db).
Proof.
  intros Hq. unfold owner_only, lookup_post.
  unfold postController.updatePost, prisma.post.findUnique, prisma.post.update.
  run. calm_down Hq.
  destruct (find (fun p => String.eqb (post_id p) id) (posts db)) as [p|] eqn:Hp; simpl;
    [|auto].
  destruct (String.eqb_spec (post_authorId p) userId) as [Ha|Ha]; simpl.
  - calm_down Hq. rewrite Hp. simpl. split; [tauto|contradiction].
  - split; [split; [discriminate|contradiction]|auto].
Qed.

Lemma deletePost_owner_only (e : Env) (db : DB) (id userId : string) :
  quiet e ->
  owner_only (lookup_post db id) post_authorId userId db
    (postController.deletePost id userId e db).
Proof.
  intros Hq. unfold owner_only, lookup_post.
  unfold postController.deletePost, prisma.post.findUnique, prisma.post.delete.
  run. calm_down Hq.
  destruct (find (fun p => String.eqb (post_id p) id) (posts db)) as [p|] eqn:Hp; simpl;
    [|auto].
  destruct (String.eqb_spec (post_authorId p) userId) as [Ha|Ha]; simpl.
  - calm_down Hq. rewrite (find_existsb _ _ _ Hp). simpl. split; [tauto|contradiction].
  - split; [split; [discriminate|contradiction]|auto].
Qed.

Lemma updateComment_owner_only (e : Env) (db : DB) (id content userId : string) :
  quiet e ->
  owner_only (lookup_comment db id) comment_userId userId db
    (commentController.updateComment id content userId e db).
Proof.
  intros Hq. unfold owner_only, lookup_comment.
  unfold commentController.updateComment, prisma.comment.findUnique, prisma.comment.update.
  run. calm_down Hq.
  destruct (find (fun c => String.eqb (comment_id c) id) (comments db)) as [c|] eqn:Hc;
    simpl; [|auto].
  destruct (String.eqb_spec (comment_userId c) userId) as [Ha|Ha]; simpl.
  - calm_down Hq. rewrite Hc. simpl. split; [tauto|contradiction].
  - split; [split; [discriminate|contradiction]|auto].
Qed.

Lemma deleteComment_owner_only (e : Env) (db : DB) (id userId : string) :
  quiet e ->
  owner_only (lookup_comment db id) comment_userId userId db
    (commentController.deleteComment id userId e db).
Proof.
  intros Hq. unfold owner_only, lookup_comment.
  unfold commentController.deleteComment, prisma.comment.findUnique, prisma.comment.delete.
  run. calm_down Hq.
  destruct (find (fun c => String.eqb (comment_id c) id) (comments db)) as [c|] eqn:Hc;
    simpl; [|auto].
  destruct (String.eqb_spec (comment_userId c) userId) as [Ha|Ha]; simpl.
  - calm_down Hq. rewrite (find_existsb _ _ _ Hc). simpl. split; [tauto|contradiction].
  - split; [split; [discriminate|contradiction]|auto].
Qed.

Lemma post_writes_ignore_visibility (e : Env) (db : DB) (id userId : string)
  (f : Post -> Visibility) :
  (forall body,
     kind (fst (postController.updatePost id body userId e (with_visibility f db)))
     = kind (fst (postController.updatePost id body userId e db)))
  /\ kind (fst (postController.deletePost id userId e (with_visibility f db)))
     = kind (fst (postController.deletePost id userId e db)).
Proof.
  split; [intros body|].
  - unfold postController.updatePost, prisma.post.findUnique, prisma.post.update,
      with_visibility. run.
    destruct (rejects e post_findUnique); simpl; [reflexivity|].
    rewrite lookup_post_with_visibility.
    destruct (find (fun p => String.eqb (post_id p) id) (posts db)) as [p|] eqn:Hp; simpl;
      [|reflexivity].
    destruct (String.eqb (post_authorId p) userId); simpl; [|reflexivity].
    destruct (rejects e post_update); simpl; [reflexivity|].
    rewrite lookup_post_with_visibility, Hp. reflexivity.
  - unfold postController.deletePost, prisma.post.findUnique, prisma.post.delete,
      with_visibility. run.
    destruct (rejects e post_findUnique); simpl; [reflexivity|].
    rewrite lookup_post_with_visibility.
    destruct (find (fun p => String.eqb (post_id p) id) (posts db)) as [p|] eqn:Hp; simpl;
      [|reflexivity].
    destruct (String.eqb (post_authorId p) userId); simpl; [|reflexivity].
    destruct (rejects e post_delete); simpl; [reflexivity|].
    rewrite existsb_post_with_visibility.
    destruct (existsb _ (posts db)); reflexivity.
Qed.

Lemma comment_writes_ignore_visibility (e : Env) (db : DB) (id userId : string)
  (f : Post -> Visibility) :
  (forall content,
     fst (commentController.updateComment id content userId e (with_visibility f db))
     = fst (commentController.updateComment id content userId e db))
  /\ fst (commentController.deleteComment id userId e (with_visibility f db))
     = fst (commentController.deleteComment id userId e db).
Proof.
  split; [intros content|].
  - unfold commentController.updateComment, prisma.comment.findUnique,
      prisma.comment.update. run.
    destruct (rejects e comment_findUnique); simpl; [reflexivity|].
    destruct (find _ (comments db)) as [c|] eqn:Hc; simpl; [|reflexivity].
    destruct (String.eqb (comment_userId c) userId); simpl; [|reflexivity].
    destruct (rejects e comment_update); simpl; [reflexivity|].
    rewrite Hc. reflexivity.
  - unfold commentController.deleteComment, prisma.comment.findUnique,
      prisma.comment.delete. run.
    destruct (rejects e comment_findUnique); simpl; [reflexivity|].
    destruct (find _ (comments db)) as [c|] eqn:Hc; simpl; [|reflexivity].
    destruct (String.eqb (comment_userId c) userId); simpl; [|reflexivity].
    destruct (rejects e comment_delete); simpl; [reflexivity|].
    destruct (existsb _ (comments db)); reflexivity.
Qed.

(** The write decision of the four controllers, once they are handed an
    id: 404 when the item does not exist; otherwise the call succeeds
    exactly when the user is its author, and anyone else gets 403 with
    the store untouched.  The answer does not depend on the visibility
    of any post.  Which requests hand the controllers an id is decided
    by the routes. *)
Theorem writes_are_owner_only (e : Env) (db : DB) (id userId : string) :
  (quiet e ->
     (forall body,
        owner_only (lookup_post db id) post_authorId userId db
          (postController.updatePost id body userId e db))
     /\ owner_only (lookup_post db id) post_authorId userId db
          (postController.deletePost id userId e db)
     /\ (forall content,
           owner_only (lookup_comment db id) comment_userId userId db
             (commentController.updateComment id content userId e db))
     /\ owner_only (lookup_comment db id) comment_userId userId db
          (commentController.deleteComment id userId e db))
  /\ (forall f : Post -> Visibility,
        (forall body,
           kind (fst (postController.updatePost id body userId e (with_visibility f db)))
           = kind (fst (postController.updatePost id body userId e db)))
        /\ kind (fst (postController.deletePost id userId e (with_visibility f db)))
           = kind (fst (postController.deletePost id userId e db))
        /\ (forall content,
              fst (commentController.updateComment id content userId e
                     (with_visibility f db))
              = fst (commentController.updateComment id content userId e db))
        /\ fst (commentController.deleteComment id userId e (with_visibility f db))
           = fst (commentController.deleteComment id userId e db)).
Proof.
  split.
  - intros Hq. split; [intros body; apply updatePost_owner_only; exact Hq|].
    split; [apply deletePost_owner_only; exact Hq|].
    split; [intros content; apply updateComment_owner_only; exact Hq|].
    apply deleteComment_owner_only; exact Hq.
  - intros f.
    destruct (post_writes_ignore_visibility e db id userId f) as [H1 H2].
    destruct (comment_writes_ignore_visibility e db id userId f) as [H3 H4].
    auto.
Qed.

Lemma writes_are_owner_only_witness :
  kind (fst (postController.deletePost "cpost0private" "cuseralice1" calm db0)) = Success
  /\ kind (fst (postController.deletePost "cpost0public" "cuserbob001" calm db0)) = Forbidden
  /\ kind (fst (commentController.deleteComment "ccomment003" "cuserbob001" calm db0)) = Success
  /\ kind (fst (commentController.deleteComment "ccomment003" "cuseralice1" calm db0)) = Forbidden
  /\ kind (fst (commentController.deleteComment "ccomment009" "cuseralice1" calm db0)) = NotFound.
Proof.
  assert (Hq : quiet calm) by (intro; reflexivity).
  split; [|split; [|split; [|split]]].
  - destruct (writes_are_owner_only calm db0 "cpost0private" "cuseralice1") as [H _].
    destruct (H Hq) as (_ & [Hd _] & _). apply Hd. reflexivity.
  - destruct (writes_are_owner_only calm db0 "cpost0public" "cuserbob001") as [H _].
    destruct (H Hq) as (_ & [_ Hd] & _). apply Hd. discriminate.
  - destruct (writes_are_owner_only calm db0 "ccomment003" "cuserbob001") as [H _].
    destruct (H Hq) as (_ & _ & _ & [Hd _]). apply Hd. reflexivity.
  - destruct (writes_are_owner_only calm db0 "ccomment003" "cuseralice1") as [H _].
    destruct (H Hq) as (_ & _ & _ & [_ Hd]). apply Hd. discriminate.
  - destruct (writes_are_owner_only calm db0 "ccomment009" "cuseralice1") as [H _].
    destruct (H Hq) as (_ & _ & _ & [Hd _]). exact Hd.
Defined.

(** C9. On the routes the update half of the write rule fails for the
    author too.  alice's [PUT /posts/cpost0public] of her own post is
    answered 500 and bob's [PUT /posts/comments/ccomment003] of his own
    comment 400, both with the store untouched: the first route
    validates with [schemas.createPost], which keeps no [params], the
    second with [schemas.createComment], which wants [params.postId].
    The controllers handed the same id and content would update (200),
    and the DELETE routes of the same items, validated with
    [schemas.getPostById], succeed for the same authors. *)
Theorem author_updates_fail_on_the_routes :
  routes.put_post sample_verify sample_is_cuid (Some "Bearer tokalice") "cpost0public"
    (validation.JObject [("content", validation.JString "edited")]) calm db0
  = (json_error 500 "Failed to update post", db0)
  /\ routes.put_comment sample_verify sample_is_cuid (Some "Bearer tokbob") "ccomment003"
       (validation.JObject [("content", validation.JString "edited")]) calm db0
     = (json_error 400 "Validation failed", db0)
  /\ kind (fst (postController.updatePost "cpost0public"
                  (prisma.post.mkUpdateData (Some "edited") None None None)
                  "cuseralice1" calm db0)) = Success
  /\ kind (fst (commentController.updateComment "ccomment003" "edited" "cuserbob001"
                  calm db0)) = Success
  /\ kind (fst (routes.delete_post sample_verify sample_is_cuid (Some "Bearer tokalice")
                  "cpost0public" (validation.JObject []) calm db0)) = Success
  /\ kind (fst (routes.delete_comment sample_verify sample_is_cuid (Some "Bearer tokbob")
                  "ccomment003" (validation.JObject []) calm db0)) = Success.
Proof.
  repeat split; vm_compute; reflexivity.
Qed.

(** ** Replies *)

(** Case analysis on an innermost scrutinee of the goal. *)
Ltac break_match :=
  match goal with
  | |- context [match ?x with _ => _ end] =>
      lazymatch x with
      | context [match _ with _ => _ end] => fail
      | _ => destruct x eqn:?
      end
  end; simpl.

(** What [createComment] with a parent id may do to the store, whichever
    store calls reject: nothing, or append the reply (and then possibly
    the notification), and only after the parent was found in the post. *)
Lemma createComment_reply_store
  (e : Env) (db : DB) (postId content pid : string) (user : User) :
  pid <> "" ->
  let db' := snd (commentController.createComment postId content (Some pid) user e db) in
  db' = db
  \/ (parent_in_post db pid postId
      /\ comments db'
         = (comments db ++
            [mkComment (fresh_id e) (user_id user) postId (Some pid) content (now e)])%list).
Proof.
  intros Hpid.
  unfold commentController.createComment, prisma.post.findUnique,
    prisma.follow.findUnique, prisma.comment.findUnique, prisma.comment.create,
    prisma.notification.create.
  run. rewrite (proj2 (String.eqb_neq pid "") Hpid). simpl.
  repeat break_match; auto;
    right; (split; [|reflexivity]);
    match goal with
    | H : find _ (comments db) = Some ?pc,
      H' : negb (String.eqb (comment_postId ?pc) postId) = false |- _ =>
        exists pc; split; [exact H|];
        apply negb_false_iff in H'; apply String.eqb_eq; exact H'
    end.
Qed.

Lemma createComment_orphan_reply_refused
  (e : Env) (db : DB) (postId content pid : string) (user : User) :
  quiet e ->
  pid <> "" ->
  ~ parent_in_post db pid postId ->
  let r := fst (commentController.createComment postId content (Some pid) user e db) in
  kind r = NotFound \/ kind r = Forbidden.
Proof.
  intros Hq Hpid Hno.
  unfold commentController.createComment, prisma.post.findUnique,
    prisma.follow.findUnique, prisma.comment.findUnique, prisma.comment.create,
    prisma.notification.create.
  run. rewrite (proj2 (String.eqb_neq pid "") Hpid). simpl.
  repeat break_match; auto;
    try match goal with
        | H : rejects e _ = true |- _ => rewrite Hq in H; discriminate
        end;
    exfalso; apply Hno;
    match goal with
    | H : find _ (comments db) = Some ?pc,
      H' : negb (String.eqb (comment_postId ?pc) postId) = false |- _ =>
        exists pc; split; [exact H|];
        apply negb_false_iff in H'; apply String.eqb_eq; exact H'
    end.
Qed.

(** C10, as the code has it. A [createComment] request that carries a
    (non-empty) parent id with no comment of that id in the post of the
    request creates nothing: it is refused with 404, unless the post's
    read rule already refuses the caller, which gives 403 first.  And
    whichever store calls reject, a comment that the request adds to the
    store has its parent among the comments of the same post. *)
Theorem reply_needs_parent_in_post
  (e : Env) (db : DB) (postId content pid : string) (user : User) :
  pid <> "" ->
  let r := fst (commentController.createComment postId content (Some pid) user e db) in
  let db' := snd (commentController.createComment postId content (Some pid) user e db) in
  (quiet e -> ~ parent_in_post db pid postId ->
     db' = db
     /\ match lookup_post db postId with
        | None => kind r = NotFound
        | Some p =>
            (canRead db p (Some (user_id user)) -> kind r = NotFound)
            /\ (~ canRead db p (Some (user_id user)) -> kind r = Forbidden)
        end)
  /\ (forall c, In c (comments db') -> ~ In c (comments db) ->
        comment_parentId c = Some pid /\ parent_in_post db pid (comment_postId c)).
Proof.
  intros Hpid r db'.
  pose proof (createComment_reply_store e db postId content pid user Hpid) as Hstore.
  fold db' in Hstore. split.
  - intros Hq Hno. split; [destruct Hstore as [H|[H _]]; [exact H|contradiction]|].
    pose proof (createComment_orphan_reply_refused e db postId content pid user
                  Hq Hpid Hno) as Hkind.
    fold r in Hkind.
    destruct (lookup_post db postId) as [p|] eqn:Hp.
    + pose proof (createComment_follows_read_rule e db postId content (Some pid) user p
                    Hq Hp) as Hrule.
      fold r in Hrule. split.
      * intros Hcan. destruct Hkind as [H|H]; [exact H|].
        apply Hrule in H. contradiction.
      * intros Hcannot. apply Hrule. exact Hcannot.
    + subst r. unfold lookup_post in Hp.
      unfold commentController.createComment, prisma.post.findUnique. run.
      calm_down Hq. rewrite Hp. reflexivity.
  - intros c Hin Hnew. destruct Hstore as [H|[Hpar H]].
    + rewrite H in Hin. contradiction.
    + rewrite H in Hin. apply in_app_or in Hin. destruct Hin as [Hin|[<-|[]]].
      * contradiction.
      * simpl. split; [reflexivity|exact Hpar].
Qed.

Lemma reply_needs_parent_in_post_witness :
  kind (fst (commentController.createComment "cpost0public" "x" (Some "ccomment001") bob calm db0))
  = NotFound
  /\ snd (commentController.createComment "cpost0public" "x" (Some "ccomment001") bob
            calm db0)
     = db0.
Proof.
  destruct (reply_needs_parent_in_post calm db0 "cpost0public" "x" "ccomment001" bob) as [H _];
    [discriminate|].
  destruct H as [Hdb [Hk _]].
  - intro; reflexivity.
  - intros [pc [Hpc Hpost]]. vm_compute in Hpc. injection Hpc as <-. discriminate.
  - split; [apply Hk; exact I | exact Hdb].
Defined.

(** C10, as stated, fails on a post the caller may not read: bob's reply
    to a comment id that does not exist, on alice's PRIVATE post, is
    refused with 403, not 404. *)
Lemma orphan_reply_on_unreadable_post_is_forbidden :
  ~ parent_in_post db0 "ccomment404" "cpost0private"
  /\ kind (fst (commentController.createComment "cpost0private" "x" (Some "ccomment404")
                  bob calm db0))
     = Forbidden
  /\ kind (fst (commentController.createComment "cpost0private" "x" (Some "ccomment404")
                  bob calm db0))
     <> NotFound.
Proof.
  split; [|split; [reflexivity|discriminate]].
  intros [pc [Hpc _]]. vm_compute in Hpc. discriminate.
Qed.

(** * Further properties *)

(** ** Lists and queries *)

Lemma insert_by_In_iff {A} (le : A -> A -> bool) (x y : A) (l : list A) :
  In y (insert_by le x l) <-> y = x \/ In y l.
Proof.
  induction l as [|z l IH]; simpl.
  - split; intros [H|H]; auto.
  - destruct (le x z); simpl; [split; intros [H|H]; auto|].
    rewrite IH. split; intros H; tauto || (destruct H as [H|[H|H]]; auto).
Qed.

Lemma sort_by_In_iff {A} (le : A -> A -> bool) (x : A) (l : list A) :
  In x (sort_by le l) <-> In x l.
Proof.
  induction l as [|y l IH]; simpl; [tauto|].
  rewrite insert_by_In_iff, IH. split; intros [H|H]; auto.
Qed.

Lemma skip_take_In {A} (skip take : Z) (l page : list A) (x : A) :
  skip_take skip take l = Some page -> In x page -> In x l.
Proof.
  intros H Hx. apply skip_take_segment in H. destruct H as [a [b ->]].
  apply in_or_app. right. apply in_or_app. left. exact Hx.
Qed.

Lemma id_in_iff (ids : list string) (id : string) :
  postController.id_in ids id = true <-> In id ids.
Proof.
  unfold postController.id_in. rewrite existsb_exists. split.
  - intros [x [Hin Hx]]. apply String.eqb_eq in Hx. subst. exact Hin.
  - intros H. exists id. split; [exact H|apply String.eqb_refl].
Qed.

Lemma following_ids_iff (f g : string) (l : list Follow) :
  In g (map followingId (filter (fun r => String.eqb (followerId r) f) l))
  <-> In (mkFollow f g) l.
Proof.
  rewrite in_map_iff. split.
  - intros [r [Hg Hin]]. apply filter_In in Hin. destruct Hin as [Hin Hf].
    apply String.eqb_eq in Hf. destruct r as [a b]. simpl in *. subst. exact Hin.
  - intros H. exists (mkFollow f g). split; [reflexivity|].
    apply filter_In. split; [exact H|]. simpl. apply String.eqb_refl.
Qed.

Lemma vis_eqb_eq (a b : Visibility) : vis_eqb a b = true <-> a = b.
Proof. destruct a, b; simpl; split; congruence. Qed.

(** The [where] of the feed query, read as a statement about the post:
    its author is the viewer or someone the viewer follows, and it is not
    another user's PRIVATE post. *)
Lemma feed_where_iff (db : DB) (userId : string) (p : Post) :
  postController.feed_where
    (map followingId (filter (fun r => String.eqb (followerId r) userId) (follows db))
     ++ [userId])%list userId p = true
  <-> (post_authorId p = userId \/ follows_edge db userId (post_authorId p))
      /\ (post_visibility p = PRIVATE -> post_authorId p = userId).
Proof.
  unfold postController.feed_where, follows_edge.
  rewrite andb_true_iff, !orb_true_iff, andb_true_iff, !id_in_iff, !vis_eqb_eq.
  rewrite in_app_iff, following_ids_iff. simpl. rewrite String.eqb_eq.
  split.
  - intros [Hin Hvis]. split.
    + destruct Hin as [H|[H|[]]]; auto.
    + intros Hp. destruct Hvis as [[H|[H _]]|H]; congruence.
  - intros [Hin Hvis]. split.
    + destruct Hin as [H|H]; auto.
    + destruct (post_visibility p) eqn:Hv; auto.
      * left. right. split; [reflexivity|]. destruct Hin as [H|H]; auto.
Qed.

Lemma insert_by_length {A} (le : A -> A -> bool) (x : A) (l : list A) :
  length (insert_by le x l) = S (length l).
Proof.
  induction l as [|y l IH]; simpl; [reflexivity|].
  destruct (le x y); simpl; [reflexivity|]. rewrite IH. reflexivity.
Qed.

Lemma sort_by_length {A} (le : A -> A -> bool) (l : list A) :
  length (sort_by le l) = length l.
Proof.
  induction l as [|x l IH]; simpl; [reflexivity|].
  rewrite insert_by_length, IH. reflexivity.
Qed.

Lemma skip_take_all {A} (take : Z) (l : list A) :
  (Z.of_nat (length l) <= take)%Z -> skip_take 0 take l = Some l.
Proof.
  intros H. unfold skip_take. simpl.
  destruct (Z.leb_spec 0 take) as [Hle|Hlt]; [|lia].
  rewrite firstn_all2; [reflexivity|lia].
Qed.

(** ** The feed: which posts it lists *)

(** X1. The feed lists only stored posts of the viewer and of authors the
    viewer follows, and each of them is a post the read rule lets the
    viewer read: other users' PRIVATE posts never appear. *)
Theorem feed_lists_only_readable_posts
  (e : Env) (db : DB) (page limit : option Z) (userId : string) (p : Post) :
  In p (feed_posts (fst (postController.getFeed page limit userId e db))) ->
  In p (posts db)
  /\ (post_authorId p = userId \/ follows_edge db userId (post_authorId p))
  /\ canRead db p (Some userId).
Proof.
  unfold postController.getFeed, prisma.follow.findMany, prisma.post.findMany. run.
  destruct (rejects e follow_findMany); simpl; [intros []|].
  destruct (rejects e post_findMany); simpl; [intros []|].
  match goal with
  | |- context [skip_take ?s ?t ?l] => destruct (skip_take s t l) as [rows|] eqn:Hpage
  end; simpl; [|intros []].
  rewrite feed_posts_of_rows. intros Hin.
  apply in_map_iff in Hin. destruct Hin as [[q ls] [Hq Hin]]. simpl in Hq. subst q.
  apply (skip_take_In _ _ _ _ _ Hpage) in Hin.
  apply in_map_iff in Hin. destruct Hin as [q [Hq Hin]]. injection Hq as -> _.
  apply sort_by_In_iff in Hin. apply filter_In in Hin. destruct Hin as [Hin Hw].
  apply feed_where_iff in Hw. destruct Hw as [Hauthor Hpriv].
  split; [exact Hin|]. split; [exact Hauthor|].
  unfold canRead. destruct (post_visibility p); auto.
  - destruct Hauthor as [H|H]; [left; congruence|].
    right. exists userId. auto.
  - rewrite Hpriv; reflexivity.
Qed.

Lemma feed_lists_only_readable_posts_witness :
  In t1 (posts db_ab) /\ canRead db_ab t1 (Some "cuserbob001").
Proof.
  destruct (feed_lists_only_readable_posts calm db_ab None None "cuserbob001" t1)
    as (H1 & _ & H2); [left; reflexivity|].
  split; [exact H1|exact H2].
Defined.

(** X2. With no store call rejecting and a limit that covers the posts table
    and is no more than [max_int32], the first page of the feed holds
    every post of the viewer and of the authors the viewer follows,
    other users' PRIVATE posts excepted. *)
Theorem feed_first_page_is_complete
  (e : Env) (db : DB) (page limit : option Z) (userId : string) (p : Post) :
  quiet e ->
  match page with Some n => n | None => 1%Z end = 1%Z ->
  (Z.of_nat (length (posts db)) <= match limit with Some n => n | None => 10 end)%Z ->
  (match limit with Some n => n | None => 10 end <= max_int32)%Z ->
  In p (posts db) ->
  post_authorId p = userId \/ follows_edge db userId (post_authorId p) ->
  (post_visibility p = PRIVATE -> post_authorId p = userId) ->
  In p (feed_posts (fst (postController.getFeed page limit userId e db))).
Proof.
  intros Hq Hpage Hlimit _ Hin Hauthor Hpriv.
  unfold postController.getFeed, prisma.follow.findMany, prisma.post.findMany. run.
  calm_down Hq. rewrite Hpage. simpl.
  rewrite skip_take_all.
  - simpl. rewrite feed_posts_of_rows, map_map. simpl. rewrite map_id.
    apply sort_by_In_iff. apply filter_In. split; [exact Hin|].
    apply feed_where_iff. auto.
  - rewrite length_map, sort_by_length.
    match goal with |- context [filter ?f ?l] => pose proof (filter_length_le f l) end.
    lia.
Qed.

Lemma feed_first_page_is_complete_witness :
  In t2 (feed_posts (fst (postController.getFeed (Some 1%Z) (Some 5%Z) "cuserbob001"
                            calm db_ba))).
Proof.
  apply (feed_first_page_is_complete calm db_ba (Some 1%Z) (Some 5%Z) "cuserbob001" t2).
  - intro; reflexivity.
  - reflexivity.
  - simpl. lia.
  - unfold max_int32. lia.
  - left. reflexivity.
  - left. reflexivity.
  - discriminate.
Defined.

(** X3. Pages tile the feed of a store whose posts were created at pairwise
    different instants: with no store call rejecting, page [k] with
    limit [L] is the run of [L] posts that follows the first
    [(k-1) * L] posts of the whole feed (the first page taken with a
    limit that covers the posts table), so successive pages neither
    overlap nor skip a post as long as the store does not change.  The
    page numbers, limits and offsets are those up to [max_int32]. *)
Theorem feed_pages_tile
  (e : Env) (db : DB) (k L : Z) (userId : string) :
  quiet e ->
  distinct_createdAt db ->
  (1 <= k)%Z -> (1 <= L)%Z -> (k * L <= max_int32)%Z ->
  (Z.of_nat (length (posts db)) <= max_int32)%Z ->
  feed_posts (fst (postController.getFeed (Some k) (Some L) userId e db))
  = firstn (Z.to_nat L)
      (skipn (Z.to_nat ((k - 1) * L))
         (feed_posts
            (fst (postController.getFeed (Some 1%Z)
                    (Some (Z.of_nat (length (posts db)))) userId e db)))).
Proof.
  intros Hq _ Hk HL _ _.
  unfold postController.getFeed, prisma.follow.findMany, prisma.post.findMany. run.
  calm_down Hq.
  rewrite (skip_take_all (Z.of_nat (length (posts db)))).
  2:{ rewrite length_map, sort_by_length.
      match goal with |- context [filter ?f ?l] => pose proof (filter_length_le f l) end.
      lia. }
  unfold skip_take.
  destruct (Z.ltb_spec ((k - 1) * L) 0) as [H|H]; [nia|].
  destruct (Z.leb_spec 0 L) as [H'|H']; [|lia].
  simpl. rewrite !feed_posts_of_rows, !skipn_map, !firstn_map. reflexivity.
Qed.

Lemma feed_pages_tile_witness :
  feed_posts (fst (postController.getFeed (Some 2%Z) (Some 1%Z) "cuseralice1" calm db_posts))
  = [p_fr].
Proof.
  rewrite (feed_pages_tile calm db_posts 2 1 "cuseralice1").
  - reflexivity.
  - intro; reflexivity.
  - unfold distinct_createdAt. simpl.
    repeat constructor; simpl; intuition discriminate.
  - lia.
  - lia.
  - unfold max_int32. lia.
  - unfold max_int32. simpl. lia.
Defined.

(** X4. In a feed response the [isLiked] flag of a post is true exactly when
    the store holds a Like row of the viewer for that post. *)
Theorem feed_isLiked_matches_likes
  (e : Env) (db : DB) (page limit : option Z) (userId : string)
  (ps : list (Post * bool)) (pg lm : Z) (more : bool) (p : Post) (b : bool) :
  data (fst (postController.getFeed page limit userId e db)) = DFeed ps pg lm more ->
  In (p, b) ps ->
  (b = true <-> 0 < like_rows db userId (post_id p)).
Proof.
  unfold postController.getFeed, prisma.follow.findMany, prisma.post.findMany. run.
  destruct (rejects e follow_findMany); simpl; [discriminate|].
  destruct (rejects e post_findMany); simpl; [discriminate|].
  match goal with
  | |- context [skip_take ?s ?t ?l] => destruct (skip_take s t l) as [rows|] eqn:Hpage
  end; simpl; [|discriminate].
  intros H. injection H as <- _ _ _. intros Hin.
  apply in_map_iff in Hin. destruct Hin as [[q ls] [Hq Hin]]. simpl in Hq.
  injection Hq as -> <-.
  apply (skip_take_In _ _ _ _ _ Hpage) in Hin.
  apply in_map_iff in Hin. destruct Hin as [q [Hq Hin]]. injection Hq as -> <-.
  unfold like_rows.
  destruct (length (filter (like_is userId (post_id p)) (likes db))); simpl;
    split; intros; (discriminate || lia || reflexivity).
Qed.

Lemma feed_isLiked_matches_likes_witness :
  false = true <-> 0 < like_rows db_ab "cuserbob001" (post_id t1).
Proof.
  apply (feed_isLiked_matches_likes calm db_ab None None "cuserbob001"
           [(t1, false); (t2, false)] 1 10 false t1 false);
    [reflexivity | left; reflexivity].
Defined.

(** ** Reading one post *)

Lemma follow_edge_find (f g : string) (l : list Follow) :
  In (mkFollow f g) l -> exists r, find (follow_is f g) l = Some r.
Proof.
  intros H. destruct (find (follow_is f g) l) as [r|] eqn:Hf; [eauto|].
  apply find_follow_none in Hf. contradiction.
Qed.

Lemma getPostById_run
  (e : Env) (db : DB) (id : string) (viewer : option string) (p : Post) :
  quiet e ->
  viewer <> Some "" ->
  lookup_post db id = Some p ->
  canRead db p viewer ->
  postController.getPostById id viewer e db
  = (json (DPost p (match viewer with
                    | Some v => negb (Nat.eqb (like_rows db v id) 0)
                    | None => false
                    end)), db).
Proof.
  intros Hq Hne Hp Hcan. unfold lookup_post in Hp.
  assert (Hid : post_id p = id)
    by (apply find_some in Hp; destruct Hp as [_ Hp]; apply String.eqb_eq; exact Hp).
  unfold canRead in Hcan. unfold like_rows.
  unfold postController.getPostById, prisma.post.findUnique_likes,
    prisma.follow.findUnique, postController.isLiked_of.
  run. calm_down Hq. rewrite Hp. simpl. rewrite Hid.
  destruct viewer as [v|]; simpl.
  - assert (Hv : String.eqb v "" = false)
      by (apply String.eqb_neq; intros ->; apply Hne; reflexivity).
    rewrite Hv. simpl.
    destruct (post_visibility p); simpl.
    + reflexivity.
    + destruct (String.eqb_spec (post_authorId p) v) as [Ha|Ha]; simpl; [reflexivity|].
      calm_down Hq.
      destruct Hcan as [H|[w [Hw Hedge]]]; [congruence|].
      injection Hw as <-. apply follow_edge_find in Hedge.
      destruct Hedge as [r Hr]. rewrite Hr. reflexivity.
    + injection Hcan as ->. rewrite String.eqb_refl. reflexivity.
  - destruct (post_visibility p); simpl.
    + reflexivity.
    + destruct Hcan as [H|[w [Hw _]]]; discriminate.
    + discriminate.
Qed.

(** X5. A post that the read rule lets the viewer read (a PUBLIC post for
    anyone, the anonymous viewer included) is answered with the stored
    row, [isLiked] being true exactly when the viewer has a Like row for
    it (never for the anonymous viewer), and the store is left as it was. *)
Theorem getPostById_serves_readable_post
  (e : Env) (db : DB) (id : string) (viewer : option string) (p : Post) :
  quiet e ->
  viewer <> Some "" ->
  lookup_post db id = Some p ->
  canRead db p viewer ->
  postController.getPostById id viewer e db
  = (json (DPost p (match viewer with
                    | Some v => negb (Nat.eqb (like_rows db v id) 0)
                    | None => false
                    end)), db).
Proof.
  exact (getPostById_run e db id viewer p).
Qed.

Lemma getPostById_serves_readable_post_witness :
  postController.getPostById "cpost0public" None calm db0 = (json (DPost p_pub false), db0).
Proof.
  apply (getPostById_serves_readable_post calm db0 "cpost0public" None p_pub);
    [intro; reflexivity | discriminate | reflexivity | exact I].
Defined.

(** ** Liking: notifications and what is left alone *)

(** X6. Liking a post that does not exist is answered 404 and writes nothing;
    the first like of an existing post appends one LIKE notification for
    the author, triggered by the liker and naming the post, unless the
    liker is the author, in which case no notification is written. *)
Theorem likePost_notifies_author
  (e : Env) (db : DB) (user : User) (postId : string) :
  quiet e ->
  match lookup_post db postId with
  | None =>
      postController.likePost postId user e db = (json_error 404 "Post not found", db)
  | Some p =>
      like_rows db (user_id user) postId = 0 ->
      notifications (snd (postController.likePost postId user e db))
      = (notifications db ++
         (if String.eqb (post_authorId p) (user_id user) then []
          else [mkNotification LIKE
                  (user_firstName user ++ " " ++ user_lastName user ++ " liked your post")
                  (post_authorId p) (user_id user) (Some postId)]))%list
  end.
Proof.
  intros Hq. unfold lookup_post, like_rows.
  unfold postController.likePost, prisma.post.findUnique, prisma.like.findUnique,
    prisma.like.create, prisma.like.delete, prisma.notification.create.
  run. calm_down Hq.
  destruct (find (fun p => String.eqb (post_id p) postId) (posts db)) as [p|]; simpl;
    [|reflexivity].
  calm_down Hq. intros H0.
  destruct (like_rows_zero_find _ _ _ H0) as [Hfind Hex].
  rewrite Hfind. simpl. calm_down Hq. rewrite Hex. simpl.
  destruct (String.eqb (post_authorId p) (user_id user)); simpl; calm_down Hq.
  - rewrite app_nil_r. reflexivity.
  - reflexivity.
Qed.

Lemma likePost_notifies_author_witness :
  notifications (snd (postController.likePost "cpost0public" bob calm db0))
  = [mkNotification LIKE "Bob B liked your post" "cuseralice1" "cuserbob001"
       (Some "cpost0public")]
  /\ notifications (snd (postController.likePost "cpost0public" alice calm db0)) = [].
Proof.
  split.
  - apply (likePost_notifies_author calm db0 bob "cpost0public");
      [intro; reflexivity | reflexivity].
  - apply (likePost_notifies_author calm db0 alice "cpost0public");
      [intro; reflexivity | reflexivity].
Defined.

Lemma like_is_other (u p u' p' : string) (r : Like) :
  (u', p') <> (u, p) -> like_is u p r = true -> like_is u' p' r = false.
Proof.
  unfold like_is. intros Hne H. apply andb_true_iff in H. destruct H as [H1 H2].
  apply String.eqb_eq in H1. apply String.eqb_eq in H2.
  destruct (String.eqb_spec (like_userId r) u') as [E1|E1]; [|reflexivity].
  destruct (String.eqb_spec (like_postId r) p') as [E2|E2]; [|reflexivity].
  exfalso. apply Hne. congruence.
Qed.

Lemma like_rows_remove_first_other (u p u' p' : string) (l : list Like) :
  (u', p') <> (u, p) ->
  length (filter (like_is u' p') (prisma.like.remove_first u p l))
  = length (filter (like_is u' p') l).
Proof.
  intros Hne. induction l as [|r l IH]; simpl; [reflexivity|].
  destruct (like_is u p r) eqn:Hr.
  - rewrite (like_is_other u p u' p' r Hne Hr). reflexivity.
  - simpl. destruct (like_is u' p' r); simpl; rewrite IH; reflexivity.
Qed.

(** X7. Whatever the store calls do, [likePost] by [u] on [p] leaves users,
    follows, posts, comments and messages as they were, and does not
    change the number of Like rows of any other (user, post) pair. *)
Theorem likePost_touches_one_pair
  (e : Env) (db : DB) (user : User) (postId u' p' : string) :
  (u', p') <> (user_id user, postId) ->
  let db' := snd (postController.likePost postId user e db) in
  like_rows db' u' p' = like_rows db u' p'
  /\ users db' = users db /\ follows db' = follows db /\ posts db' = posts db
  /\ comments db' = comments db /\ messages db' = messages db.
Proof.
  intros Hne. unfold like_rows.
  unfold postController.likePost, prisma.post.findUnique, prisma.like.findUnique,
    prisma.like.create, prisma.like.delete, prisma.notification.create.
  run.
  assert (Happ : length (filter (like_is u' p')
                           (likes db ++ [mkLike (user_id user) postId]))
                 = length (filter (like_is u' p') (likes db))).
  { rewrite filter_app, length_app. simpl.
    rewrite (like_is_other (user_id user) postId u' p' _ Hne (like_is_refl _ _)).
    simpl. lia. }
  repeat break_match; simpl; repeat split; auto;
    apply like_rows_remove_first_other; exact Hne.
Qed.

Lemma likePost_touches_one_pair_witness :
  like_rows (snd (postController.likePost "cpost0public" bob calm db0))
    "cusercarol1" "cpost0public" = 0.
Proof.
  destruct (likePost_touches_one_pair calm db0 bob "cpost0public"
              "cusercarol1" "cpost0public") as [H _]; [discriminate|].
  rewrite H. reflexivity.
Defined.

(** ** Following and unfollowing *)

Lemma follow_is_refl (f g : string) : follow_is f g (mkFollow f g) = true.
Proof. unfold follow_is. simpl. rewrite !String.eqb_refl. reflexivity. Qed.

Lemma follow_is_eq (f g : string) (r : Follow) :
  follow_is f g r = true -> r = mkFollow f g.
Proof.
  unfold follow_is. intros H. apply andb_true_iff in H. destruct H as [H1 H2].
  apply String.eqb_eq in H1. apply String.eqb_eq in H2. destruct r. simpl in *. congruence.
Qed.

Lemma existsb_follow_edge (f g : string) (l : list Follow) :
  existsb (follow_is f g) l = true <-> In (mkFollow f g) l.
Proof.
  rewrite existsb_exists. split.
  - intros [r [Hin Hr]]. apply follow_is_eq in Hr. subst. exact Hin.
  - intros H. exists (mkFollow f g). split; [exact H|apply follow_is_refl].
Qed.

Lemma remove_first_follow_append (f g : string) (l : list Follow) :
  ~ In (mkFollow f g) l ->
  userController_rest.remove_first f g (l ++ [mkFollow f g]) = l.
Proof.
  induction l as [|r l IH]; simpl; intros Hno.
  - rewrite follow_is_refl. reflexivity.
  - destruct (follow_is f g r) eqn:Hr.
    + apply follow_is_eq in Hr. exfalso. apply Hno. left. exact Hr.
    + rewrite IH; [reflexivity|]. intros H. apply Hno. right. exact H.
Qed.

Lemma remove_first_follow_gone (f g : string) (l : list Follow) :
  NoDup l -> ~ In (mkFollow f g) (userController_rest.remove_first f g l).
Proof.
  induction 1 as [|r l Hr Hnd IH]; simpl; [tauto|].
  destruct (follow_is f g r) eqn:E.
  - apply follow_is_eq in E. subst. exact Hr.
  - intros [H|H]; [|exact (IH H)]. subst. rewrite follow_is_refl in E. discriminate.
Qed.

Lemma unfollowUser_removes_edge
  (more : MoreOp -> bool) (e : Env) (db : DB) (user : User) (v : string) :
  rejects e follow_findUnique = false ->
  more follow_delete = false ->
  follows_edge db (user_id user) v ->
  fst (userController_rest.unfollowUser more v user e db) = json DNull
  /\ snd (userController_rest.unfollowUser more v user e db)
     = set_follows db (userController_rest.remove_first (user_id user) v (follows db)).
Proof.
  intros Hf Hd Hedge.
  unfold userController_rest.unfollowUser, prisma.follow.findUnique,
    userController_rest.follow_delete_where, call_more.
  run. rewrite Hf. simpl.
  destruct (follow_edge_find _ _ _ Hedge) as [r Hr]. rewrite Hr. simpl.
  rewrite Hd. simpl.
  rewrite (proj2 (existsb_follow_edge _ _ _) Hedge). split; reflexivity.
Qed.

(** X8. [unfollowUser]: when the viewer does not follow the target the answer
    is 404 and nothing is written; when the edge is there (and the two
    store calls go through) it is removed, nothing else is written (no
    notification), and, the follow table holding no row twice, a second
    call is answered 404 and leaves the store as the first call left it. *)
Theorem unfollowUser_contract
  (more : MoreOp -> bool) (e : Env) (db : DB) (user : User) (v : string) :
  rejects e follow_findUnique = false ->
  let u := user_id user in
  (~ follows_edge db u v ->
     userController_rest.unfollowUser more v user e db
     = (json_error 404 "Not following", db))
  /\ (follows_edge db u v -> more follow_delete = false ->
      let db1 := set_follows db (userController_rest.remove_first u v (follows db)) in
      userController_rest.unfollowUser more v user e db = (json DNull, db1)
      /\ (NoDup (follows db) ->
          userController_rest.unfollowUser more v user e db1
          = (json_error 404 "Not following", db1))).
Proof.
  intros Hf u. subst u.
  assert (Habsent : forall d : DB,
             ~ follows_edge d (user_id user) v ->
             userController_rest.unfollowUser more v user e d
             = (json_error 404 "Not following", d)).
  { intros d Hno. unfold userController_rest.unfollowUser, prisma.follow.findUnique.
    run. rewrite Hf. simpl.
    destruct (find (follow_is (user_id user) v) (follows d)) as [r|] eqn:Hr; simpl;
      [|reflexivity].
    apply find_follow_some in Hr. contradiction. }
  split; [apply Habsent|].
  intros Hedge Hd db1. split.
  - destruct (unfollowUser_removes_edge more e db user v Hf Hd Hedge) as [Hr Hs].
    destruct (userController_rest.unfollowUser more v user e db) as [r d].
    simpl in Hr, Hs. subst. reflexivity.
  - intros Hnd. apply Habsent. unfold follows_edge, db1. simpl.
    apply remove_first_follow_gone. exact Hnd.
Qed.

Lemma unfollowUser_contract_witness :
  userController_rest.unfollowUser (fun _ => false) "cuseralice1" bob calm db0
  = (json DNull, set_follows db0 [])
  /\ userController_rest.unfollowUser (fun _ => false) "cuseralice1" carol calm db0
     = (json_error 404 "Not following", db0).
Proof.
  destruct (unfollowUser_contract (fun _ => false) calm db0 bob "cuseralice1")
    as [_ H]; [reflexivity|].
  destruct (unfollowUser_contract (fun _ => false) calm db0 carol "cuseralice1")
    as [H' _]; [reflexivity|].
  split.
  - apply H; [left; reflexivity | reflexivity].
  - apply H'. intros [E|[]]. discriminate.
Defined.

(** X9. Following and then unfollowing gives back the follow table: when the
    edge was not there and every store call goes through, [followUser]
    succeeds and the [unfollowUser] after it succeeds and restores the
    follow table exactly; the FOLLOW notification written by the first
    call stays. *)
Theorem follow_then_unfollow_restores_follows
  (more : MoreOp -> bool) (e1 e2 : Env) (db : DB) (user : User) (v : string) :
  quiet e1 -> quiet e2 -> more follow_delete = false ->
  user_id user <> v ->
  lookup_user db v <> None ->
  ~ follows_edge db (user_id user) v ->
  let db1 := snd (userController.followUser v user e1 db) in
  let db2 := snd (userController_rest.unfollowUser more v user e2 db1) in
  kind (fst (userController.followUser v user e1 db)) = Success
  /\ kind (fst (userController_rest.unfollowUser more v user e2 db1)) = Success
  /\ follows db2 = follows db
  /\ notifications db2 = notifications db1
  /\ length (notifications db1) = S (length (notifications db)).
Proof.
  intros H1 H2 Hd Hne Hv Hno db1 db2. unfold lookup_user in Hv.
  assert (Hfollow : userController.followUser v user e1 db
                    = (json DNull,
                       set_notifications
                         (set_follows db (follows db ++ [mkFollow (user_id user) v]))
                         (notifications db ++
                          [mkNotification FOLLOW
                             (user_firstName user ++ " " ++ user_lastName user
                                ++ " started following you") v (user_id user) None]))).
  { unfold userController.followUser, prisma.user.findUnique, prisma.follow.findUnique,
      prisma.follow.create, prisma.notification.create. run.
    rewrite (proj2 (String.eqb_neq _ _) Hne). simpl. calm_down H1.
    destruct (find (fun x => String.eqb (user_id x) v) (users db)) as [tu|]; [|tauto].
    simpl. calm_down H1.
    destruct (find (follow_is (user_id user) v) (follows db)) as [r|] eqn:Hr; simpl.
    - apply find_follow_some in Hr. contradiction.
    - calm_down H1. rewrite existsb_follow_find, Hr. simpl. calm_down H1. reflexivity. }
  subst db2 db1. rewrite Hfollow. cbn [fst snd].
  destruct (unfollowUser_removes_edge more e2
              (set_notifications
                 (set_follows db (follows db ++ [mkFollow (user_id user) v]))
                 (notifications db ++
                  [mkNotification FOLLOW
                     (user_firstName user ++ " " ++ user_lastName user
                        ++ " started following you") v (user_id user) None]))
              user v (H2 _) Hd) as [Hr Hs].
  { unfold follows_edge. simpl. apply in_or_app. right. left. reflexivity. }
  rewrite Hr, Hs. cbn [follows notifications set_follows set_notifications].
  rewrite remove_first_follow_append by exact Hno.
  rewrite length_app. simpl. repeat split; auto. lia.
Qed.

Lemma follow_then_unfollow_restores_follows_witness :
  follows (snd (userController_rest.unfollowUser (fun _ => false) "cuseralice1" carol calm
                  (snd (userController.followUser "cuseralice1" carol calm db0))))
  = follows db0.
Proof.
  destruct (follow_then_unfollow_restores_follows (fun _ => false) calm calm db0 carol
              "cuseralice1") as (_ & _ & H & _);
    [intro; reflexivity | intro; reflexivity | reflexivity | discriminate | discriminate
    | | exact H].
  intros [E|[]]. discriminate.
Defined.

(** What [followUser] may do to the store, whichever store calls reject:
    nothing, or append the edge (and then possibly the notification), the
    latter only for a target other than the follower who exists and is
    not yet followed. *)
Lemma followUser_store (e : Env) (db : DB) (user : User) (v : string) :
  let db' := snd (userController.followUser v user e db) in
  db' = db
  \/ (user_id user <> v /\ lookup_user db v <> None
      /\ ~ follows_edge db (user_id user) v
      /\ users db' = users db
      /\ follows db' = (follows db ++ [mkFollow (user_id user) v])%list).
Proof.
  unfold userController.followUser, prisma.user.findUnique, prisma.follow.findUnique,
    prisma.follow.create, prisma.notification.create, lookup_user. run.
  destruct (String.eqb_spec (user_id user) v) as [Heq|Hne]; simpl; [auto|].
  destruct (rejects e user_findUnique); simpl; [auto|].
  destruct (find (fun x => String.eqb (user_id x) v) (users db)) as [tu|] eqn:Htu; simpl;
    [|auto].
  destruct (rejects e follow_findUnique); simpl; [auto|].
  destruct (find (follow_is (user_id user) v) (follows db)) as [r|] eqn:Hr; simpl; [auto|].
  destruct (rejects e follow_create); simpl; [auto|].
  rewrite existsb_follow_find, Hr. simpl. apply find_follow_none in Hr.
  destruct (rejects e notification_create); simpl; right;
    (repeat split; auto; discriminate).
Qed.

(** X10. [followUser] keeps the follow table well formed, whichever store
    calls reject: it never stores a self-loop, an edge to a user that
    does not exist, or a second row for an edge. *)
Theorem followUser_keeps_follow_table_well_formed
  (e : Env) (db : DB) (user : User) (v : string) :
  follows_wf db -> NoDup (follows db) ->
  let db' := snd (userController.followUser v user e db) in
  follows_wf db' /\ NoDup (follows db').
Proof.
  intros Hwf Hnd db'.
  destruct (followUser_store e db user v) as [H|(Hne & Hv & Hno & Hu & Hf)];
    fold db' in H || fold db' in Hu, Hf.
  - rewrite H. auto.
  - split.
    + intros r Hr. unfold lookup_user. rewrite Hu. rewrite Hf in Hr.
      apply in_app_or in Hr. destruct Hr as [Hr|[<-|[]]].
      * apply Hwf. exact Hr.
      * simpl. split; [exact Hne|exact Hv].
    + rewrite Hf. apply NoDup_app; [exact Hnd| |].
      * constructor; [intros []|constructor].
      * intros r Hr [<-|[]]. exact (Hno Hr).
Qed.

Lemma db0_follows_nodup : NoDup (follows db0).
Proof.
  constructor; [intros []|constructor].
Defined.

Lemma followUser_keeps_follow_table_well_formed_witness :
  NoDup (follows (snd (userController.followUser "cuseralice1" carol calm db0))).
Proof.
  apply (followUser_keeps_follow_table_well_formed calm db0 carol "cuseralice1");
    [exact db0_follows_wf | exact db0_follows_nodup].
Defined.

(** ** Profiles *)

Lemma getUserById_answer
  (e : Env) (db : DB) (id : string) (viewer : option string) (usr : User) :
  quiet e ->
  lookup_user db id = Some usr ->
  userController_rest.getUserById id viewer e db
  = (reply_json 200
       (userController_rest.mkProfile usr
          (match viewer with
           | Some v => truthy viewer && negb (String.eqb v (user_id usr))
                       && existsb (follow_is v (user_id usr)) (follows db)
           | None => false
           end)
          (strict_eq (user_id usr) viewer)), db).
Proof.
  intros Hq Hu. unfold lookup_user in Hu.
  unfold userController_rest.getUserById, try_catch_reply, prisma.user.findUnique,
    prisma.follow.findUnique. run. calm_down Hq. rewrite Hu. simpl.
  destruct viewer as [v|]; simpl; [|reflexivity].
  destruct (negb (String.eqb v "") && negb (String.eqb v (user_id usr))); simpl;
    [|reflexivity].
  calm_down Hq. rewrite existsb_follow_find.
  destruct (find (follow_is v (user_id usr)) (follows db)); reflexivity.
Qed.

(** X11. [getUserById]: 404 for an id no user has; otherwise the stored user,
    with [isOwnProfile] true exactly for the user themself and
    [isFollowing] true exactly for another viewer who follows the user
    (never for the anonymous viewer or on one's own profile). *)
Theorem getUserById_reports_follow_state
  (e : Env) (db : DB) (id : string) (viewer : option string) :
  quiet e ->
  viewer <> Some "" ->
  match lookup_user db id with
  | None =>
      userController_rest.getUserById id viewer e db
      = (reply_error_json 404 "User not found", db)
  | Some usr =>
      exists following own,
        userController_rest.getUserById id viewer e db
        = (reply_json 200 (userController_rest.mkProfile usr following own), db)
        /\ (own = true <-> viewer = Some id)
        /\ (following = true <->
            exists v, viewer = Some v /\ v <> id /\ follows_edge db v id)
  end.
Proof.
  intros Hq Hne. destruct (lookup_user db id) as [usr|] eqn:Hu.
  - assert (Hid : user_id usr = id).
    { unfold lookup_user in Hu. apply find_some in Hu. destruct Hu as [_ Hu].
      apply String.eqb_eq. exact Hu. }
    eexists. eexists. split; [apply (getUserById_answer e db id viewer usr Hq Hu)|].
    rewrite Hid. unfold follows_edge. split.
    + destruct viewer as [v|]; simpl; [|split; discriminate].
      rewrite String.eqb_eq. split; congruence.
    + destruct viewer as [v|]; simpl.
      * assert (Hv : String.eqb v "" = false)
          by (apply String.eqb_neq; intros ->; apply Hne; reflexivity).
        rewrite Hv. simpl. rewrite andb_true_iff, negb_true_iff, String.eqb_neq.
        rewrite existsb_follow_edge. split.
        -- intros [H1 H2]. exists v. auto.
        -- intros [w [Hw [H1 H2]]]. injection Hw as <-. auto.
      * split; [discriminate|]. intros [w [Hw _]]. discriminate.
  - unfold lookup_user in Hu.
    unfold userController_rest.getUserById, try_catch_reply, prisma.user.findUnique.
    run. calm_down Hq. rewrite Hu. reflexivity.
Qed.

Lemma getUserById_reports_follow_state_witness :
  userController_rest.getUserById "cuserdave01" None calm db0
  = (reply_error_json 404 "User not found", db0).
Proof.
  apply (getUserById_reports_follow_state calm db0 "cuserdave01" None);
    [intro; reflexivity | discriminate].
Defined.

(** X12. After [followUser] by [u] on an existing user [v] other than [u],
    with no store call rejecting, the profile of [v] shown to [u] says
    [isFollowing]: this holds when the call created the edge and when it
    answered 409 because the edge was there. *)
Theorem follow_shows_on_profile
  (e1 e2 : Env) (db : DB) (user : User) (v : string) (target : User) :
  quiet e1 -> quiet e2 ->
  user_id user <> "" ->
  user_id user <> v ->
  lookup_user db v = Some target ->
  fst (userController_rest.getUserById v (Some (user_id user)) e2
         (snd (userController.followUser v user e1 db)))
  = reply_json 200 (userController_rest.mkProfile target true false).
Proof.
  intros H1 H2 Hu Hne Hv.
  assert (Hid : user_id target = v).
  { unfold lookup_user in Hv. apply find_some in Hv. destruct Hv as [_ Hv].
    apply String.eqb_eq. exact Hv. }
  assert (Hstore : users (snd (userController.followUser v user e1 db)) = users db
                   /\ follows_edge (snd (userController.followUser v user e1 db))
                        (user_id user) v).
  { unfold follows_edge, lookup_user in *.
    unfold userController.followUser, prisma.user.findUnique, prisma.follow.findUnique,
      prisma.follow.create, prisma.notification.create. run.
    rewrite (proj2 (String.eqb_neq _ _) Hne). simpl. calm_down H1. rewrite Hv. simpl.
    calm_down H1.
    destruct (find (follow_is (user_id user) v) (follows db)) as [r|] eqn:Hr; simpl.
    - apply find_follow_some in Hr. auto.
    - calm_down H1. rewrite existsb_follow_find, Hr. simpl. calm_down H1.
      split; [reflexivity|]. apply in_or_app. right. left. reflexivity. }
  destruct Hstore as [Husers Hedge].
  rewrite (getUserById_answer e2 _ v (Some (user_id user)) target H2).
  - simpl. rewrite Hid.
    rewrite (proj2 (String.eqb_neq _ _) Hu), (proj2 (String.eqb_neq _ _) Hne). simpl.
    rewrite (proj2 (existsb_follow_edge _ _ _) Hedge).
    assert (Hvu : String.eqb v (user_id user) = false)
      by (apply String.eqb_neq; congruence).
    rewrite Hvu. reflexivity.
  - unfold lookup_user in *. rewrite Husers. exact Hv.
Qed.

Lemma follow_shows_on_profile_witness :
  fst (userController_rest.getUserById "cuseralice1" (Some "cusercarol1") calm
         (snd (userController.followUser "cuseralice1" carol calm db0)))
  = reply_json 200 (userController_rest.mkProfile alice true false).
Proof.
  apply (follow_shows_on_profile calm calm db0 carol "cuseralice1" alice);
    [intro; reflexivity | intro; reflexivity | discriminate | discriminate | reflexivity].
Defined.

(** ** The posts of one user *)

Lemma passes_any (userId : string) (db : DB) (p : Post) :
  postController_rest.user_posts_where userId postController_rest.AnyVisibility p = true
  <-> post_authorId p = userId /\ canRead db p (Some userId).
Proof.
  unfold postController_rest.user_posts_where, canRead. simpl.
  rewrite andb_true_r, String.eqb_eq. split; [|tauto].
  intros H. split; [exact H|]. rewrite H. destruct (post_visibility p); auto.
Qed.

Lemma passes_public_or_friends (userId u : string) (db : DB) (p : Post) :
  u <> userId -> follows_edge db u userId ->
  postController_rest.user_posts_where userId postController_rest.PublicOrFriends p = true
  <-> post_authorId p = userId /\ canRead db p (Some u).
Proof.
  intros Hne Hedge. unfold postController_rest.user_posts_where, canRead. simpl.
  rewrite andb_true_iff, String.eqb_eq, orb_true_iff, !vis_eqb_eq. split.
  - intros [Ha Hv]. split; [exact Ha|]. rewrite Ha.
    destruct (post_visibility p); auto.
    + right. exists u. auto.
    + destruct Hv; discriminate.
  - intros [Ha Hc]. split; [exact Ha|]. rewrite Ha in Hc.
    destruct (post_visibility p); auto. congruence.
Qed.

Lemma passes_only_public (userId : string) (viewer : option string) (db : DB) (p : Post) :
  viewer <> Some userId ->
  (forall u, viewer = Some u -> ~ follows_edge db u userId) ->
  postController_rest.user_posts_where userId postController_rest.OnlyPublic p = true
  <-> post_authorId p = userId /\ canRead db p viewer.
Proof.
  intros Hne Hno. unfold postController_rest.user_posts_where, canRead. simpl.
  rewrite andb_true_iff, String.eqb_eq, vis_eqb_eq. split.
  - intros [Ha Hv]. rewrite Hv. auto.
  - intros [Ha Hc]. split; [exact Ha|]. rewrite Ha in Hc.
    destruct (post_visibility p); auto.
    + destruct Hc as [H|[u [Hu He]]]; [contradiction|]. exfalso. exact (Hno u Hu He).
    + contradiction.
Qed.

(** Once the visibility filter is chosen, what the page and the total of
    [getUserPosts] are made of. *)
Lemma getUserPosts_rows
  (more : MoreOp -> bool) (e : Env) (db : DB) (userId : string)
  (vf : postController_rest.VisibilityFilter) (viewer : option string)
  (skip take page limit : Z) (d : postController_rest.UserPosts) :
  reply_data
    (fst (try_catch_reply
            (posts <- postController_rest.findMany_viewer
                        (postController_rest.user_posts_where userId vf) viewer skip take ;;
             totalPosts <- postController_rest.count more
                             (postController_rest.user_posts_where userId vf) ;;
             ret (reply_json 200
                    (postController_rest.mkUserPosts
                       (map (fun pl => (fst pl, postController.isLiked_of viewer (snd pl)))
                          posts)
                       page limit totalPosts (postController_rest.pages_of totalPosts limit))))
            (reply_error_json 500 "Failed to retrieve posts") e db)) = Some d ->
  (forall p, In p (map fst (postController_rest.up_posts d)) ->
     In p (posts db) /\ postController_rest.user_posts_where userId vf p = true)
  /\ postController_rest.up_total d
     = length (filter (postController_rest.user_posts_where userId vf) (posts db)).
Proof.
  unfold try_catch_reply, postController_rest.findMany_viewer, postController_rest.count,
    call_more. run.
  destruct (rejects e post_findMany); simpl; [discriminate|].
  match goal with
  | |- context [skip_take ?s ?t ?l] => destruct (skip_take s t l) as [rows|] eqn:Hpage
  end; simpl; [|discriminate].
  destruct (more post_count); simpl; [discriminate|].
  intros H. injection H as <-. simpl. split; [|reflexivity].
  intros p Hin. rewrite map_map in Hin. simpl in Hin.
  apply in_map_iff in Hin. destruct Hin as [[q ls] [Hq Hin]]. simpl in Hq. subst q.
  apply (skip_take_In _ _ _ _ _ Hpage) in Hin.
  apply in_map_iff in Hin. destruct Hin as [q [Hq Hin]]. injection Hq as -> _.
  apply sort_by_In_iff in Hin. apply filter_In in Hin. exact Hin.
Qed.

(** X13. [getUserPosts] shows a viewer exactly the posts of the user that the
    read rule lets the viewer read: every listed post is a stored post of
    that user that the viewer may read (all of them for the user
    themself, PUBLIC and FRIENDS ones for a follower, PUBLIC ones for
    anyone else and for the anonymous viewer), and [total] counts all
    such posts, whatever the page. *)
Theorem getUserPosts_follows_read_rule
  (more : MoreOp -> bool) (e : Env) (db : DB) (userId : string) (page limit : option Z)
  (viewer : option string) (d : postController_rest.UserPosts) :
  viewer <> Some "" ->
  reply_data (fst (postController_rest.getUserPosts more userId page limit viewer e db))
  = Some d ->
  exists shown : Post -> bool,
    (forall p, shown p = true <-> post_authorId p = userId /\ canRead db p viewer)
    /\ (forall p, In p (map fst (postController_rest.up_posts d)) ->
          In p (posts db) /\ shown p = true)
    /\ postController_rest.up_total d = length (filter shown (posts db)).
Proof.
  intros Hne Hd.
  assert (Hvf : exists vf,
             (forall p, postController_rest.user_posts_where userId vf p = true
                        <-> post_authorId p = userId /\ canRead db p viewer)
             /\ postController_rest.getUserPosts more userId page limit viewer e db
                = try_catch_reply
                    (posts <- postController_rest.findMany_viewer
                                (postController_rest.user_posts_where userId vf) viewer
                                ((match page with Some n => n | None => 1 end - 1)
                                 * match limit with Some n => n | None => 10 end)
                                (match limit with Some n => n | None => 10 end) ;;
                     totalPosts <- postController_rest.count more
                                     (postController_rest.user_posts_where userId vf) ;;
                     ret (reply_json 200
                            (postController_rest.mkUserPosts
                               (map (fun pl => (fst pl,
                                                postController.isLiked_of viewer (snd pl)))
                                  posts)
                               (match page with Some n => n | None => 1 end)
                               (match limit with Some n => n | None => 10 end)
                               totalPosts
                               (postController_rest.pages_of totalPosts
                                  (match limit with Some n => n | None => 10 end)))))
                    (reply_error_json 500 "Failed to retrieve posts") e db).
  { destruct viewer as [u|].
    - destruct (String.eqb_spec userId u) as [Heq|Hneq].
      + subst u. exists postController_rest.AnyVisibility. split.
        * intros p. apply passes_any.
        * unfold postController_rest.getUserPosts, try_catch_reply, bind, ret. simpl.
          rewrite String.eqb_refl. reflexivity.
      + assert (Hu : String.eqb u "" = false)
          by (apply String.eqb_neq; intros ->; apply Hne; reflexivity).
        destruct (rejects e follow_findUnique) eqn:Hrej.
        * exfalso. revert Hd.
          unfold postController_rest.getUserPosts, try_catch_reply, bind, ret,
            prisma.follow.findUnique, call. simpl.
          rewrite (proj2 (String.eqb_neq _ _) Hneq), Hu. simpl. rewrite Hrej. simpl.
          discriminate.
        * destruct (find (follow_is u userId) (follows db)) as [r|] eqn:Hr.
          -- exists postController_rest.PublicOrFriends. split.
             ++ intros p. apply passes_public_or_friends; [congruence|].
                apply find_follow_some in Hr. exact Hr.
             ++ unfold postController_rest.getUserPosts, try_catch_reply, bind, ret,
                  prisma.follow.findUnique, call, get. simpl.
                rewrite (proj2 (String.eqb_neq _ _) Hneq), Hu. simpl.
                rewrite Hrej, Hr. reflexivity.
          -- exists postController_rest.OnlyPublic. split.
             ++ intros p. apply passes_only_public; [congruence|].
                intros w Hw. injection Hw as <-. apply find_follow_none. exact Hr.
             ++ unfold postController_rest.getUserPosts, try_catch_reply, bind, ret,
                  prisma.follow.findUnique, call, get. simpl.
                rewrite (proj2 (String.eqb_neq _ _) Hneq), Hu. simpl.
                rewrite Hrej, Hr. reflexivity.
    - exists postController_rest.OnlyPublic. split.
      + intros p. apply passes_only_public; [discriminate|]. intros u Hu. discriminate.
      + reflexivity. }
  destruct Hvf as [vf [Hiff Hrun]]. rewrite Hrun in Hd.
  apply getUserPosts_rows in Hd. destruct Hd as [Hlist Htotal].
  exists (postController_rest.user_posts_where userId vf).
  split; [exact Hiff|]. split; [exact Hlist|exact Htotal].
Qed.

Lemma getUserPosts_follows_read_rule_witness :
  exists shown : Post -> bool,
    (forall p, shown p = true
               <-> post_authorId p = "cuseralice1" /\ canRead db0 p (Some "cuserbob001"))
    /\ (forall p, In p [p_fr; p_pub] -> In p (posts db0) /\ shown p = true)
    /\ 2 = length (filter shown (posts db0)).
Proof.
  apply (getUserPosts_follows_read_rule (fun _ => false) calm db0 "cuseralice1" None None
           (Some "cuserbob001")
           (postController_rest.mkUserPosts [(p_fr, false); (p_pub, false)] 1 10 2
              (Some 1%Z)));
    [discriminate | reflexivity].
Defined.

(** ** Comments *)

Lemma createComment_run
  (e : Env) (db : DB) (postId content : string) (parentId : option string)
  (user : User) (p : Post) :
  quiet e ->
  lookup_post db postId = Some p ->
  canRead db p (Some (user_id user)) ->
  (forall pid, parentId = Some pid -> pid <> "" -> parent_in_post db pid postId) ->
  let c := mkComment (fresh_id e) (user_id user) postId parentId content (now e) in
  commentController.createComment postId content parentId user e db
  = (json_status 201 (DComment c),
     set_notifications (set_comments db (comments db ++ [c]))
       (notifications db ++
        (if String.eqb (post_authorId p) (user_id user) then []
         else [mkNotification COMMENT
                 (user_firstName user ++ " " ++ user_lastName user
                    ++ " commented on your post")
                 (post_authorId p) (user_id user) (Some postId)]))).
Proof.
  intros Hq Hp Hcan Hparent c. subst c. unfold lookup_post in Hp.
  assert (Hread :
    (vis_eqb (post_visibility p) PRIVATE
     && negb (String.eqb (post_authorId p) (user_id user)) = false)
    /\ (vis_eqb (post_visibility p) FRIENDS
        && negb (String.eqb (post_authorId p) (user_id user)) = true ->
        exists r, find (follow_is (user_id user) (post_authorId p)) (follows db) = Some r)).
  { unfold canRead in Hcan. destruct (post_visibility p); simpl.
    - split; [reflexivity|discriminate].
    - split; [reflexivity|]. intros Hn. apply negb_true_iff, String.eqb_neq in Hn.
      destruct Hcan as [H|[v [Hv He]]]; [congruence|]. injection Hv as <-.
      apply follow_edge_find. exact He.
    - injection Hcan as ->. rewrite String.eqb_refl. split; [reflexivity|discriminate]. }
  destruct Hread as [Hpriv Hfr].
  assert (Hpar : match parentId with
                 | Some pid =>
                     String.eqb pid "" = false ->
                     exists pc, find (fun x => String.eqb (comment_id x) pid) (comments db)
                                = Some pc
                                /\ String.eqb (comment_postId pc) postId = true
                 | None => True
                 end).
  { destruct parentId as [pid|]; [|exact I]. intros Hne.
    apply String.eqb_neq in Hne. destruct (Hparent pid eq_refl Hne) as [pc [H1 H2]].
    exists pc. split; [exact H1|]. apply String.eqb_eq. exact H2. }
  unfold commentController.createComment, prisma.post.findUnique,
    prisma.follow.findUnique, prisma.comment.findUnique, prisma.comment.create,
    prisma.notification.create.
  run. calm_down Hq. rewrite Hp. simpl. rewrite Hpriv. simpl.
  destruct (vis_eqb (post_visibility p) FRIENDS
            && negb (String.eqb (post_authorId p) (user_id user))) eqn:Hf; simpl.
  - calm_down Hq. destruct (Hfr eq_refl) as [r Hr]. rewrite Hr. simpl.
    destruct parentId as [pid|]; simpl.
    + destruct (String.eqb pid "") eqn:Hpid; simpl; calm_down Hq.
      * destruct (String.eqb (post_authorId p) (user_id user)); simpl; calm_down Hq;
          rewrite ?app_nil_r; reflexivity.
      * destruct (Hpar eq_refl) as [pc [H1 H2]]. rewrite H1. simpl. rewrite H2. simpl.
        calm_down Hq.
        destruct (String.eqb (post_authorId p) (user_id user)); simpl; calm_down Hq;
          rewrite ?app_nil_r; reflexivity.
    + calm_down Hq.
      destruct (String.eqb (post_authorId p) (user_id user)); simpl; calm_down Hq;
        rewrite ?app_nil_r; reflexivity.
  - destruct parentId as [pid|]; simpl.
    + destruct (String.eqb pid "") eqn:Hpid; simpl; calm_down Hq.
      * destruct (String.eqb (post_authorId p) (user_id user)); simpl; calm_down Hq;
          rewrite ?app_nil_r; reflexivity.
      * destruct (Hpar eq_refl) as [pc [H1 H2]]. rewrite H1. simpl. rewrite H2. simpl.
        calm_down Hq.
        destruct (String.eqb (post_authorId p) (user_id user)); simpl; calm_down Hq;
          rewrite ?app_nil_r; reflexivity.
    + calm_down Hq.
      destruct (String.eqb (post_authorId p) (user_id user)); simpl; calm_down Hq;
        rewrite ?app_nil_r; reflexivity.
Qed.

(** X14. A comment by a stored user on a post the commenter may read, with
    no parent or with a parent that is a stored comment of the same
    post, is created: the answer is 201 with the new row (the given
    content, user, post and parent, the id and time the store assigns),
    the row is appended to the comments, and the author of the post gets
    one COMMENT notification unless the commenter is the author. *)
Theorem createComment_creates
  (e : Env) (db : DB) (postId content : string) (parentId : option string)
  (user : User) (p : Post) :
  quiet e ->
  lookup_user db (user_id user) = Some user ->
  lookup_post db postId = Some p ->
  canRead db p (Some (user_id user)) ->
  (forall pid, parentId = Some pid -> pid <> "" /\ parent_in_post db pid postId) ->
  let c := mkComment (fresh_id e) (user_id user) postId parentId content (now e) in
  commentController.createComment postId content parentId user e db
  = (json_status 201 (DComment c),
     set_notifications (set_comments db (comments db ++ [c]))
       (notifications db ++
        (if String.eqb (post_authorId p) (user_id user) then []
         else [mkNotification COMMENT
                 (user_firstName user ++ " " ++ user_lastName user
                    ++ " commented on your post")
                 (post_authorId p) (user_id user) (Some postId)]))).
Proof.
  intros Hq _ Hp Hcan Hparent.
  apply (createComment_run e db postId content parentId user p Hq Hp Hcan).
  intros pid Hpid _. exact (proj2 (Hparent pid Hpid)).
Qed.

Lemma createComment_creates_witness :
  fst (commentController.createComment "cpost0public" "nice" (Some "ccomment003") carol
         calm db0)
  = json_status 201
      (DComment (mkComment "cnewrow0001" "cusercarol1" "cpost0public"
                   (Some "ccomment003") "nice" 100)).
Proof.
  rewrite (createComment_creates calm db0 "cpost0public" "nice" (Some "ccomment003")
             carol p_pub);
    [reflexivity | intro; reflexivity | reflexivity | reflexivity | exact I |].
  intros pid Hpid. injection Hpid as <-. split; [discriminate|].
  exists c3. split; reflexivity.
Defined.

Lemma getPostComments_answer
  (e : Env) (db : DB) (postId : string) (page limit : option Z) (p : Post) :
  quiet e ->
  lookup_post db postId = Some p ->
  (1 <= match page with Some n => n | None => 1 end)%Z ->
  (0 <= match limit with Some n => n | None => 20 end)%Z ->
  exists cs,
    commentController.getPostComments postId page limit e db
    = (json (DComments cs (match page with Some n => n | None => 1 end)
               (match limit with Some n => n | None => 20 end)
               (length (filter (fun c => String.eqb (comment_postId c) postId
                                         && prisma.comment.parent_is None c)
                          (comments db)))), db).
Proof.
  intros Hq Hp Hpage Hlimit. unfold lookup_post in Hp.
  unfold commentController.getPostComments, prisma.post.findUnique,
    prisma.comment.findMany_replies, prisma.comment.count. run.
  calm_down Hq. rewrite Hp. simpl. calm_down Hq. unfold skip_take.
  destruct (Z.ltb_spec ((match page with Some n => n | None => 1 end - 1)
                        * match limit with Some n => n | None => 20 end) 0) as [H|H];
    [nia|].
  destruct (Z.leb_spec 0 (match limit with Some n => n | None => 20 end)) as [H'|H'];
    [|lia].
  simpl. calm_down Hq. eexists. reflexivity.
Qed.

Lemma getCommentReplies_answer
  (e : Env) (db : DB) (commentId : string) (page limit : option Z) :
  quiet e ->
  (1 <= match page with Some n => n | None => 1 end)%Z ->
  (0 <= match limit with Some n => n | None => 10 end)%Z ->
  commentController.getCommentReplies commentId page limit e db
  = (json (DReplies
             (firstn (Z.to_nat match limit with Some n => n | None => 10 end)
                (skipn (Z.to_nat ((match page with Some n => n | None => 1 end - 1)
                                  * match limit with Some n => n | None => 10 end))
                   (sort_by comment_asc
                      (filter (prisma.comment.parent_is (Some commentId)) (comments db)))))
             (match page with Some n => n | None => 1 end)
             (match limit with Some n => n | None => 10 end)
             (length (filter (prisma.comment.parent_is (Some commentId)) (comments db)))),
     db).
Proof.
  intros Hq Hpage Hlimit.
  unfold commentController.getCommentReplies, prisma.comment.findMany,
    prisma.comment.count. run.
  calm_down Hq. unfold skip_take.
  destruct (Z.ltb_spec ((match page with Some n => n | None => 1 end - 1)
                        * match limit with Some n => n | None => 10 end) 0) as [H|H];
    [nia|].
  destruct (Z.leb_spec 0 (match limit with Some n => n | None => 10 end)) as [H'|H'];
    [|lia].
  simpl. calm_down Hq. reflexivity.
Qed.

(** X15. A created comment shows in the listings: after [createComment]
    succeeds, the [total] of the post's comment listing is one more than
    before when the comment has no parent; when it is a reply, that total
    is unchanged and the [total] of the parent's replies is one more. *)
Theorem new_comment_is_counted
  (e e' : Env) (db : DB) (postId content : string) (parentId : option string)
  (user : User) (p : Post) (page limit : option Z) :
  quiet e -> quiet e' ->
  lookup_post db postId = Some p ->
  canRead db p (Some (user_id user)) ->
  (forall pid, parentId = Some pid -> pid <> "" /\ parent_in_post db pid postId) ->
  (1 <= match page with Some n => n | None => 1 end)%Z ->
  (0 <= match limit with Some n => n | None => 20 end)%Z ->
  let db' := snd (commentController.createComment postId content parentId user e db) in
  let total (d : DB) :=
    match data (fst (commentController.getPostComments postId page limit e' d)) with
    | DComments _ _ _ n => Some n
    | _ => None
    end in
  let replies_total (pid : string) (d : DB) :=
    match data (fst (commentController.getCommentReplies pid None None e' d)) with
    | DReplies _ _ _ n => Some n
    | _ => None
    end in
  exists n,
    total db = Some n
    /\ match parentId with
       | None => total db' = Some (S n)
       | Some pid =>
           total db' = Some n
           /\ exists m, replies_total pid db = Some m /\ replies_total pid db' = Some (S m)
       end.
Proof.
  intros Hq Hq' Hp Hcan Hparent Hpage Hlimit db' total replies_total.
  assert (Hrun := createComment_run e db postId content parentId user p Hq Hp Hcan
                    (fun pid Hpid _ => proj2 (Hparent pid Hpid))).
  cbv zeta in Hrun.
  assert (Hcomments : comments db'
                      = (comments db ++
                         [mkComment (fresh_id e) (user_id user) postId parentId content
                            (now e)])%list)
    by (unfold db'; rewrite Hrun; reflexivity).
  assert (Hposts : posts db' = posts db) by (unfold db'; rewrite Hrun; reflexivity).
  clearbody db'.
  assert (Hp' : lookup_post db' postId = Some p)
    by (unfold lookup_post in *; rewrite Hposts; exact Hp).
  destruct (getPostComments_answer e' db postId page limit p Hq' Hp Hpage Hlimit)
    as [cs Hcs].
  destruct (getPostComments_answer e' db' postId page limit p Hq' Hp' Hpage Hlimit)
    as [cs' Hcs'].
  eexists. split; [unfold total; rewrite Hcs; reflexivity|].
  unfold total, replies_total. rewrite Hcs'. simpl. rewrite Hcomments.
  destruct parentId as [pid|]; simpl.
  - split.
    + rewrite filter_app, length_app. simpl. rewrite andb_false_r. simpl.
      rewrite Nat.add_0_r. reflexivity.
    + rewrite !getCommentReplies_answer by (assumption || simpl; lia). simpl.
      eexists. split; [reflexivity|]. rewrite Hcomments.
      rewrite filter_app, length_app. simpl. rewrite String.eqb_refl. simpl.
      rewrite Nat.add_1_r. reflexivity.
  - rewrite filter_app, length_app. simpl. rewrite String.eqb_refl. simpl.
    rewrite Nat.add_1_r. reflexivity.
Qed.

Lemma new_comment_is_counted_witness :
  exists n,
    Some 1 = Some n
    /\ match data (fst (commentController.getPostComments "cpost0public" None None calm
                          (snd (commentController.createComment "cpost0public" "nice" None
                                  carol calm db0)))) with
       | DComments _ _ _ k => Some k
       | _ => None
       end = Some (S n).
Proof.
  apply (new_comment_is_counted calm calm db0 "cpost0public" "nice" None carol p_pub
           None None);
    [intro; reflexivity | intro; reflexivity | reflexivity | exact I
    | discriminate | simpl; lia | simpl; lia].
Defined.

Lemma parent_is_iff (parent : option string) (c : Comment) :
  prisma.comment.parent_is parent c = true <-> comment_parentId c = parent.
Proof.
  unfold prisma.comment.parent_is.
  destruct parent as [a|], (comment_parentId c) as [b|]; try (split; congruence).
  rewrite String.eqb_eq. split; congruence.
Qed.

Lemma firstn_In_list {A} (n : nat) (l : list A) (x : A) : In x (firstn n l) -> In x l.
Proof.
  intros H. rewrite <- (firstn_skipn n l). apply in_or_app. left. exact H.
Qed.

Lemma firstn_sorted {A} (R : A -> A -> Prop) (n : nat) (l : list A) :
  StronglySorted R l -> StronglySorted R (firstn n l).
Proof.
  intros H. rewrite <- (firstn_skipn n l) in H. apply StronglySorted_app_l in H. exact H.
Qed.

Lemma comment_asc_sorted (l : list Comment) :
  StronglySorted (fun c d => (comment_createdAt c <= comment_createdAt d)%Z)
    (sort_by comment_asc l).
Proof.
  eapply StronglySorted_impl; [|apply (sort_by_sorted comment_asc)].
  - intros c d H. apply Z.leb_le. exact H.
  - intros x y. unfold comment_asc. rewrite !Z.leb_le. lia.
  - intros x y z. unfold comment_asc. rewrite !Z.leb_le. lia.
Qed.

Lemma comment_desc_sorted (l : list Comment) :
  StronglySorted (fun c d => (comment_createdAt d <= comment_createdAt c)%Z)
    (sort_by comment_desc l).
Proof.
  eapply StronglySorted_impl; [|apply (sort_by_sorted comment_desc)].
  - intros c d H. apply Z.leb_le. exact H.
  - intros x y. unfold comment_desc. rewrite !Z.leb_le. lia.
  - intros x y z. unfold comment_desc. rewrite !Z.leb_le. lia.
Qed.

(** X16. [getPostComments]: 404 for a post that does not exist.  In every
    listing the comments are top-level comments of that post, newest
    first; each comes with at most three replies, oldest first, all of
    them stored replies to that very comment. *)
Theorem getPostComments_listing
  (e : Env) (db : DB) (postId : string) (page limit : option Z) :
  (quiet e -> lookup_post db postId = None ->
     commentController.getPostComments postId page limit e db
     = (json_error 404 "Post not found", db))
  /\ (forall cs pg lm total,
        data (fst (commentController.getPostComments postId page limit e db))
        = DComments cs pg lm total ->
        StronglySorted (fun c d => (comment_createdAt d <= comment_createdAt c)%Z)
          (map fst cs)
        /\ forall c rs, In (c, rs) cs ->
             In c (comments db) /\ comment_postId c = postId /\ comment_parentId c = None
             /\ length rs <= 3
             /\ StronglySorted (fun a b => (comment_createdAt a <= comment_createdAt b)%Z) rs
             /\ forall r, In r rs ->
                  In r (comments db) /\ comment_parentId r = Some (comment_id c)).
Proof.
  split.
  - intros Hq Hp. unfold lookup_post in Hp.
    unfold commentController.getPostComments, prisma.post.findUnique. run.
    calm_down Hq. rewrite Hp. reflexivity.
  - intros cs pg lm total.
    unfold commentController.getPostComments, prisma.post.findUnique,
      prisma.comment.findMany_replies, prisma.comment.count. run.
    destruct (rejects e post_findUnique); simpl; [discriminate|].
    destruct (find _ (posts db)); simpl; [|discriminate].
    destruct (rejects e comment_findMany); simpl; [discriminate|].
    match goal with
    | |- context [skip_take ?s ?t ?l] => destruct (skip_take s t l) as [rows|] eqn:Hpage
    end; simpl; [|discriminate].
    destruct (rejects e comment_count); simpl; [discriminate|].
    intros H. injection H as <- _ _ _.
    pose proof (skip_take_segment _ _ _ _ Hpage) as [a [b Hab]].
    split.
    + apply (f_equal (map fst)) in Hab. rewrite map_map in Hab. simpl in Hab.
      rewrite map_id, !map_app in Hab.
      match type of Hab with
      | sort_by comment_desc ?l = _ => pose proof (comment_desc_sorted l) as Hs
      end.
      rewrite Hab in Hs. apply StronglySorted_app_r, StronglySorted_app_l in Hs. exact Hs.
    + intros c rs Hin. apply (skip_take_In _ _ _ _ _ Hpage) in Hin.
      apply in_map_iff in Hin. destruct Hin as [c' [Hc Hin]]. injection Hc as -> <-.
      apply sort_by_In_iff in Hin. apply filter_In in Hin. destruct Hin as [Hin Htop].
      apply andb_true_iff in Htop. destruct Htop as [Hpost Hnone].
      apply String.eqb_eq in Hpost. apply (proj1 (parent_is_iff None c)) in Hnone.
      unfold prisma.comment.replies_of.
      split; [exact Hin|]. split; [exact Hpost|]. split; [exact Hnone|].
      split; [apply firstn_le_length|].
      split; [apply firstn_sorted, comment_asc_sorted|].
      intros r Hr. apply firstn_In_list in Hr. apply sort_by_In_iff in Hr.
      apply filter_In in Hr. destruct Hr as [Hr Hpar]. apply parent_is_iff in Hpar. auto.
Qed.

Lemma getPostComments_listing_witness :
  commentController.getPostComments "cpost000404" None None calm db0
  = (json_error 404 "Post not found", db0).
Proof.
  destruct (getPostComments_listing calm db0 "cpost000404" None None) as [H _].
  apply H; [intro; reflexivity | reflexivity].
Defined.

(** X17. [getCommentReplies] lists stored comments whose parent is the given
    id, oldest first, and [total] counts all of them.  It never answers
    404: for an id that no comment has as parent, a comment id that does
    not exist included, the answer is an empty page with total 0. *)
Theorem getCommentReplies_listing
  (e : Env) (db : DB) (commentId : string) (page limit : option Z) :
  (forall rs pg lm total,
     data (fst (commentController.getCommentReplies commentId page limit e db))
     = DReplies rs pg lm total ->
     total = length (filter (fun c => prisma.comment.parent_is (Some commentId) c)
                       (comments db))
     /\ StronglySorted (fun a b => (comment_createdAt a <= comment_createdAt b)%Z) rs
     /\ forall r, In r rs -> In r (comments db) /\ comment_parentId r = Some commentId)
  /\ (quiet e ->
      (1 <= match page with Some n => n | None => 1 end)%Z ->
      (0 <= match limit with Some n => n | None => 10 end)%Z ->
      (forall c, In c (comments db) -> comment_parentId c <> Some commentId) ->
      commentController.getCommentReplies commentId page limit e db
      = (json (DReplies [] (match page with Some n => n | None => 1 end)
                 (match limit with Some n => n | None => 10 end) 0), db)).
Proof.
  split.
  - intros rs pg lm total.
    unfold commentController.getCommentReplies, prisma.comment.findMany,
      prisma.comment.count. run.
    destruct (rejects e comment_findMany); simpl; [discriminate|].
    match goal with
    | |- context [skip_take ?s ?t ?l] => destruct (skip_take s t l) as [rows|] eqn:Hpage
    end; simpl; [|discriminate].
    destruct (rejects e comment_count); simpl; [discriminate|].
    intros H. injection H as <- _ _ <-.
    pose proof (skip_take_segment _ _ _ _ Hpage) as [a [b Hab]].
    split; [reflexivity|]. split.
    + match type of Hab with
      | sort_by comment_asc ?l = _ => pose proof (comment_asc_sorted l) as Hs
      end.
      rewrite Hab in Hs. apply StronglySorted_app_r, StronglySorted_app_l in Hs. exact Hs.
    + intros r Hr. apply (skip_take_In _ _ _ _ _ Hpage) in Hr.
      apply sort_by_In_iff in Hr. apply filter_In in Hr. destruct Hr as [Hr Hpar].
      apply (proj1 (parent_is_iff (Some commentId) r)) in Hpar. auto.
  - intros Hq Hpage Hlimit Hnone.
    rewrite getCommentReplies_answer by assumption.
    assert (Hempty : filter (prisma.comment.parent_is (Some commentId)) (comments db) = []).
    { induction (comments db) as [|c l IH]; cbn [filter]; [reflexivity|].
      destruct (prisma.comment.parent_is (Some commentId) c) eqn:Hc.
      - apply parent_is_iff in Hc. exfalso. apply (Hnone c); [left; reflexivity|exact Hc].
      - apply IH. intros d Hd. apply Hnone. right. exact Hd. }
    rewrite Hempty. simpl. rewrite skipn_nil, firstn_nil. reflexivity.
Qed.

Lemma getCommentReplies_listing_witness :
  commentController.getCommentReplies "ccomment404" None None calm db0
  = (json (DReplies [] 1 10 0), db0).
Proof.
  destruct (getCommentReplies_listing calm db0 "ccomment404" None None) as [_ H].
  apply H; [intro; reflexivity | simpl; lia | simpl; lia |].
  intros c [<-|[<-|[<-|[]]]]; discriminate.
Defined.

(** ** Updating and deleting *)

Lemma find_post_updated (id id' : string) (f : Post -> Post) (l : list Post) :
  (forall q, post_id (f q) = post_id q) ->
  find (fun p => String.eqb (post_id p) id')
    (map (fun q => if String.eqb (post_id q) id then f q else q) l)
  = if String.eqb id id'
    then option_map f (find (fun p => String.eqb (post_id p) id') l)
    else find (fun p => String.eqb (post_id p) id') l.
Proof.
  intros Hf. induction l as [|q l IH]; simpl.
  - destruct (String.eqb id id'); reflexivity.
  - destruct (String.eqb_spec (post_id q) id) as [E|E].
    + rewrite Hf, E. destruct (String.eqb_spec id id') as [E'|E']; simpl.
      * reflexivity.
      * exact IH.
    + destruct (String.eqb_spec (post_id q) id') as [E'|E']; simpl.
      * destruct (String.eqb_spec id id') as [E''|E'']; [congruence|reflexivity].
      * exact IH.
Qed.

Lemma updatePost_run
  (e : Env) (db : DB) (id userId : string) (body : prisma.post.UpdateData) (p : Post) :
  quiet e ->
  lookup_post db id = Some p ->
  post_authorId p = userId ->
  postController.updatePost id body userId e db
  = (json (DUpdated (prisma.post.apply_update body p)),
     set_posts db
       (map (fun q => if String.eqb (post_id q) id then prisma.post.apply_update body q
                      else q) (posts db))).
Proof.
  intros Hq Hp Ha. unfold lookup_post in Hp.
  unfold postController.updatePost, prisma.post.findUnique, prisma.post.update. run.
  calm_down Hq. rewrite Hp. simpl. rewrite Ha, String.eqb_refl. simpl.
  calm_down Hq. rewrite Hp. reflexivity.
Qed.

(** X18. An update by the author is what later reads see: the post of that id
    becomes the old row with the given fields replaced, its id, author
    and creation time are the old ones, and every other post is looked up
    as before. *)
Theorem updatePost_then_lookup
  (e : Env) (db : DB) (id userId : string) (body : prisma.post.UpdateData) (p : Post) :
  quiet e ->
  lookup_post db id = Some p ->
  post_authorId p = userId ->
  let p' := prisma.post.apply_update body p in
  let db' := snd (postController.updatePost id body userId e db) in
  fst (postController.updatePost id body userId e db) = json (DUpdated p')
  /\ lookup_post db' id = Some p'
  /\ post_id p' = post_id p /\ post_authorId p' = post_authorId p
  /\ post_createdAt p' = post_createdAt p
  /\ (forall id', id' <> id -> lookup_post db' id' = lookup_post db id').
Proof.
  intros Hq Hp Ha p' db'. subst p' db'.
  rewrite (updatePost_run e db id userId body p Hq Hp Ha). simpl.
  unfold lookup_post in *. simpl.
  split; [reflexivity|]. split.
  - rewrite find_post_updated by reflexivity. rewrite String.eqb_refl, Hp. reflexivity.
  - repeat split. intros id' Hne.
    rewrite find_post_updated by reflexivity.
    destruct (String.eqb_spec id id'); [congruence|reflexivity].
Qed.

Lemma updatePost_then_lookup_witness :
  lookup_post
    (snd (postController.updatePost "cpost0public"
            (prisma.post.mkUpdateData (Some "edited") None None None) "cuseralice1"
            calm db0)) "cpost0public"
  = Some (mkPost "cpost0public" "cuseralice1" (Some "edited") PUBLIC None [] 10).
Proof.
  destruct (updatePost_then_lookup calm db0 "cpost0public" "cuseralice1"
              (prisma.post.mkUpdateData (Some "edited") None None None) p_pub)
    as (_ & H & _); [intro; reflexivity | reflexivity | reflexivity | exact H].
Defined.

(** X19. Once its author has set a post to PRIVATE, [getPostById] refuses it
    (403) to every other viewer, the anonymous one included, even to a
    follower who could read it before. *)
Theorem making_post_private_hides_it
  (e e' : Env) (db : DB) (id userId : string) (body : prisma.post.UpdateData) (p : Post)
  (viewer : option string) :
  quiet e -> quiet e' ->
  lookup_post db id = Some p ->
  post_authorId p = userId ->
  prisma.post.upd_visibility body = Some PRIVATE ->
  viewer <> Some userId ->
  fst (postController.getPostById id viewer e'
         (snd (postController.updatePost id body userId e db)))
  = json_error 403 "Access denied".
Proof.
  intros Hq Hq' Hp Ha Hv Hne.
  rewrite (updatePost_run e db id userId body p Hq Hp Ha). simpl.
  unfold lookup_post in Hp.
  unfold postController.getPostById, prisma.post.findUnique_likes. run.
  calm_down Hq'. rewrite find_post_updated by reflexivity.
  rewrite String.eqb_refl, Hp. simpl. rewrite Hv. simpl.
  destruct viewer as [v|]; simpl; [|reflexivity].
  rewrite Ha. destruct (String.eqb_spec userId v); [congruence|reflexivity].
Qed.

Lemma making_post_private_hides_it_witness :
  fst (postController.getPostById "cpost0friends" (Some "cuserbob001") calm
         (snd (postController.updatePost "cpost0friends"
                 (prisma.post.mkUpdateData None (Some PRIVATE) None None) "cuseralice1"
                 calm db0)))
  = json_error 403 "Access denied".
Proof.
  apply (making_post_private_hides_it calm calm db0 "cpost0friends" "cuseralice1"
           (prisma.post.mkUpdateData None (Some PRIVATE) None None) p_fr
           (Some "cuserbob001"));
    [intro; reflexivity | intro; reflexivity | reflexivity | reflexivity | reflexivity
    | discriminate].
Defined.

Lemma find_after_filter_out {A} (key : A -> string) (id id' : string) (l : list A) :
  find (fun x => String.eqb (key x) id')
    (filter (fun q => negb (String.eqb (key q) id)) l)
  = if String.eqb id id' then None else find (fun x => String.eqb (key x) id') l.
Proof.
  induction l as [|q l IH]; simpl.
  - destruct (String.eqb id id'); reflexivity.
  - destruct (String.eqb_spec (key q) id) as [E|E]; simpl.
    + rewrite IH. destruct (String.eqb_spec id id') as [E'|E']; [reflexivity|].
      destruct (String.eqb_spec (key q) id'); [congruence|reflexivity].
    + destruct (String.eqb_spec (key q) id') as [E'|E'].
      * destruct (String.eqb_spec id id'); [congruence|reflexivity].
      * exact IH.
Qed.

(** X20. A delete by the author removes the item for good.  For a post that
    no stored comment or like belongs to, and for a comment that no
    stored comment replies to: the answer is 200, the row of that id is
    taken out of its table and nothing else in the store changes, the
    id is no longer found while every other post (comment) is found as
    before, and a second delete is answered 404. *)
Theorem delete_then_gone (e e' : Env) (db : DB) (id userId : string) :
  quiet e -> quiet e' ->
  (forall p, lookup_post db id = Some p -> post_authorId p = userId ->
     no_dependents db id ->
     let db' := snd (postController.deletePost id userId e db) in
     fst (postController.deletePost id userId e db) = json DNull
     /\ db' = set_posts db (filter (fun q => negb (String.eqb (post_id q) id)) (posts db))
     /\ lookup_post db' id = None
     /\ (forall id', id' <> id -> lookup_post db' id' = lookup_post db id')
     /\ postController.deletePost id userId e' db' = (json_error 404 "Post not found", db'))
  /\ (forall c, lookup_comment db id = Some c -> comment_userId c = userId ->
        no_replies db id ->
        let db' := snd (commentController.deleteComment id userId e db) in
        fst (commentController.deleteComment id userId e db) = json DNull
        /\ db' = set_comments db
                   (filter (fun q => negb (String.eqb (comment_id q) id)) (comments db))
        /\ lookup_comment db' id = None
        /\ (forall id', id' <> id -> lookup_comment db' id' = lookup_comment db id')
        /\ commentController.deleteComment id userId e' db'
           = (json_error 404 "Comment not found", db')).
Proof.
  intros Hq Hq'. split.
  - intros p Hp Ha _ db'. unfold lookup_post in Hp.
    assert (Hrun : postController.deletePost id userId e db
                   = (json DNull,
                      set_posts db
                        (filter (fun q => negb (String.eqb (post_id q) id)) (posts db)))).
    { unfold postController.deletePost, prisma.post.findUnique, prisma.post.delete. run.
      calm_down Hq. rewrite Hp. simpl. rewrite Ha, String.eqb_refl. simpl.
      calm_down Hq. rewrite (find_existsb _ _ _ Hp). reflexivity. }
    subst db'. rewrite Hrun. simpl. unfold lookup_post. simpl.
    assert (Hgone : find (fun x => String.eqb (post_id x) id)
                      (filter (fun q => negb (String.eqb (post_id q) id)) (posts db))
                    = None)
      by (rewrite (find_after_filter_out post_id), String.eqb_refl; reflexivity).
    split; [reflexivity|]. split; [reflexivity|]. split; [exact Hgone|]. split.
    + intros id' Hne. rewrite (find_after_filter_out post_id).
      destruct (String.eqb_spec id id'); [congruence|reflexivity].
    + unfold postController.deletePost, prisma.post.findUnique. run.
      calm_down Hq'. rewrite Hgone. reflexivity.
  - intros c Hc Ha _ db'. unfold lookup_comment in Hc.
    assert (Hrun : commentController.deleteComment id userId e db
                   = (json DNull,
                      set_comments db
                        (filter (fun q => negb (String.eqb (comment_id q) id))
                           (comments db)))).
    { unfold commentController.deleteComment, prisma.comment.findUnique,
        prisma.comment.delete. run.
      calm_down Hq. rewrite Hc. simpl. rewrite Ha, String.eqb_refl. simpl.
      calm_down Hq. rewrite (find_existsb _ _ _ Hc). reflexivity. }
    subst db'. rewrite Hrun. simpl. unfold lookup_comment. simpl.
    assert (Hgone : find (fun x => String.eqb (comment_id x) id)
                      (filter (fun q => negb (String.eqb (comment_id q) id)) (comments db))
                    = None)
      by (rewrite (find_after_filter_out comment_id), String.eqb_refl; reflexivity).
    split; [reflexivity|]. split; [reflexivity|]. split; [exact Hgone|]. split.
    + intros id' Hne. rewrite (find_after_filter_out comment_id).
      destruct (String.eqb_spec id id'); [congruence|reflexivity].
    + unfold commentController.deleteComment, prisma.comment.findUnique. run.
      calm_down Hq'. rewrite Hgone. reflexivity.
Qed.

Lemma delete_then_gone_witness :
  lookup_post (snd (postController.deletePost "cpost0friends" "cuseralice1" calm db0))
    "cpost0friends" = None
  /\ lookup_comment
       (snd (commentController.deleteComment "ccomment003" "cuserbob001" calm db0))
       "ccomment003" = None.
Proof.
  assert (Hq : quiet calm) by (intro; reflexivity).
  split.
  - destruct (delete_then_gone calm calm db0 "cpost0friends" "cuseralice1" Hq Hq)
      as [H _].
    assert (Hn : no_dependents db0 "cpost0friends").
    { split.
      - intros c [<-|[<-|[<-|[]]]]; discriminate.
      - intros l []. }
    destruct (H p_fr eq_refl eq_refl Hn) as (_ & _ & H' & _). exact H'.
  - destruct (delete_then_gone calm calm db0 "ccomment003" "cuserbob001" Hq Hq)
      as [_ H].
    assert (Hn : no_replies db0 "ccomment003").
    { intros c [<-|[<-|[<-|[]]]]; discriminate. }
    destruct (H c3 eq_refl eq_refl Hn) as (_ & _ & H' & _). exact H'.
Defined.

(** ** Creating a post *)

Lemma createPost_run
  (more : MoreOp -> bool) (e : Env) (db : DB) (body : postController_rest.CreateBody)
  (files : option (list postController_rest.File)) (user : User) :
  postController_rest.no_content (postController_rest.body_content body)
  && postController_rest.no_files files = false ->
  more post_create = false ->
  let p := mkPost (fresh_id e) (user_id user) (postController_rest.body_content body)
             (match postController_rest.body_visibility body with
              | Some v => v
              | None => PUBLIC
              end)
             (postController_rest.body_location body)
             (match postController_rest.body_tags body with Some t => t | None => [] end)
             (now e) in
  postController_rest.createPost more body files user e db
  = (reply_json 201
       (postController_rest.mkCreated p
          (match files with
           | Some l => map postController_rest.file_path l
           | None => []
           end)
          (match files with
           | Some l => map postController_rest.media_type l
           | None => []
           end)),
     set_posts db (posts db ++ [p])).
Proof.
  intros Hne Hm p.
  unfold postController_rest.createPost, try_catch_reply,
    postController_rest.post_create_row, call_more. run.
  rewrite Hne. simpl. rewrite Hm. reflexivity.
Qed.

Lemma no_content_iff (content : option string) :
  postController_rest.no_content content = true <-> content = None \/ content = Some "".
Proof.
  unfold postController_rest.no_content, truthy. destruct content as [c|]; simpl.
  - rewrite negb_involutive, String.eqb_eq. split.
    + intros ->. auto.
    + intros [H|H]; congruence.
  - split; auto.
Qed.

Lemma no_files_iff (files : option (list postController_rest.File)) :
  postController_rest.no_files files = true <-> files = None \/ files = Some [].
Proof.
  unfold postController_rest.no_files. destruct files as [[|f l]|]; simpl.
  - split; auto.
  - split; [discriminate|]. intros [H|H]; discriminate.
  - split; auto.
Qed.

(** X21. [createPost]: a post with neither text (absent or empty) nor files is
    refused with 400 and nothing is written, whatever the store calls do;
    otherwise the post is appended with the caller as author and, when
    none is given, visibility PUBLIC and no tags. *)
Theorem createPost_contract
  (more : MoreOp -> bool) (e : Env) (db : DB) (body : postController_rest.CreateBody)
  (files : option (list postController_rest.File)) (user : User) :
  let empty :=
    (postController_rest.body_content body = None
     \/ postController_rest.body_content body = Some "")
    /\ (files = None \/ files = Some []) in
  (empty ->
     postController_rest.createPost more body files user e db
     = (reply_error_json 400 "Empty post", db))
  /\ (~ empty -> more post_create = false ->
      exists p,
        reply_status (fst (postController_rest.createPost more body files user e db)) = 201
        /\ posts (snd (postController_rest.createPost more body files user e db))
           = (posts db ++ [p])%list
        /\ post_id p = fresh_id e /\ post_authorId p = user_id user
        /\ post_content p = postController_rest.body_content body
        /\ (postController_rest.body_visibility body = None -> post_visibility p = PUBLIC)
        /\ (forall v, postController_rest.body_visibility body = Some v ->
              post_visibility p = v)).
Proof.
  intros empty. subst empty.
  assert (Hiff : postController_rest.no_content (postController_rest.body_content body)
                 && postController_rest.no_files files = true
                 <-> (postController_rest.body_content body = None
                      \/ postController_rest.body_content body = Some "")
                     /\ (files = None \/ files = Some [])).
  { rewrite andb_true_iff, no_content_iff, no_files_iff. reflexivity. }
  split.
  - intros Hempty. apply Hiff in Hempty.
    unfold postController_rest.createPost, try_catch_reply. run.
    rewrite Hempty. reflexivity.
  - intros Hne Hm.
    assert (Hf : postController_rest.no_content (postController_rest.body_content body)
                 && postController_rest.no_files files = false).
    { destruct (postController_rest.no_content _ && _) eqn:E; [|reflexivity].
      exfalso. apply Hne. apply Hiff. reflexivity. }
    rewrite (createPost_run more e db body files user Hf Hm). simpl.
    eexists. split; [reflexivity|]. split; [reflexivity|]. simpl.
    repeat split; auto.
    + intros ->. reflexivity.
    + intros v ->. reflexivity.
Qed.

Lemma createPost_contract_witness :
  postController_rest.createPost (fun _ => false)
    (postController_rest.mkCreateBody (Some "") None None None) (Some []) alice calm db0
  = (reply_error_json 400 "Empty post", db0).
Proof.
  destruct (createPost_contract (fun _ => false) calm db0
              (postController_rest.mkCreateBody (Some "") None None None) (Some []) alice)
    as [H _].
  apply H. split; right; reflexivity.
Defined.

Lemma find_app_fresh {A} (f : A -> bool) (l : list A) (x : A) :
  find f l = None -> f x = true -> find f (l ++ [x]) = Some x.
Proof.
  induction l as [|y l IH]; simpl; intros Hn Hx.
  - rewrite Hx. reflexivity.
  - destruct (f y); [discriminate|]. apply IH; assumption.
Qed.

(** X22. What is created can be read back: when the id the store assigns is
    not in use, the author gets from [getPostById] the very post that
    [createPost] created, whatever its visibility. *)
Theorem createPost_then_read
  (more : MoreOp -> bool) (e e' : Env) (db : DB) (body : postController_rest.CreateBody)
  (files : option (list postController_rest.File)) (user : User) :
  quiet e' ->
  more post_create = false ->
  postController_rest.no_content (postController_rest.body_content body)
  && postController_rest.no_files files = false ->
  user_id user <> "" ->
  lookup_post db (fresh_id e) = None ->
  exists d liked,
    reply_data (fst (postController_rest.createPost more body files user e db)) = Some d
    /\ fst (postController.getPostById (fresh_id e) (Some (user_id user)) e'
              (snd (postController_rest.createPost more body files user e db)))
       = json (DPost (postController_rest.created_post d) liked).
Proof.
  intros Hq' Hm Hne Hu Hfresh.
  rewrite (createPost_run more e db body files user Hne Hm). simpl.
  eexists. eexists. split; [reflexivity|].
  rewrite (getPostById_run e' _ (fresh_id e) (Some (user_id user))
             (mkPost (fresh_id e) (user_id user) (postController_rest.body_content body)
                (match postController_rest.body_visibility body with
                 | Some v => v
                 | None => PUBLIC
                 end)
                (postController_rest.body_location body)
                (match postController_rest.body_tags body with
                 | Some t => t
                 | None => []
                 end)
                (now e))).
  - reflexivity.
  - exact Hq'.
  - congruence.
  - unfold lookup_post in *. simpl. apply find_app_fresh; [exact Hfresh|].
    simpl. apply String.eqb_refl.
  - unfold canRead. simpl.
    destruct (postController_rest.body_visibility body) as [[]|]; simpl; auto.
Qed.

Lemma createPost_then_read_witness :
  exists d liked,
    reply_data (fst (postController_rest.createPost (fun _ => false)
                       (postController_rest.mkCreateBody (Some "secret") (Some PRIVATE)
                          None None) None alice calm db0)) = Some d
    /\ fst (postController.getPostById (fresh_id calm) (Some (user_id alice)) calm
              (snd (postController_rest.createPost (fun _ => false)
                      (postController_rest.mkCreateBody (Some "secret") (Some PRIVATE)
                         None None) None alice calm db0)))
       = json (DPost (postController_rest.created_post d) liked).
Proof.
  apply (createPost_then_read (fun _ => false) calm calm db0
           (postController_rest.mkCreateBody (Some "secret") (Some PRIVATE) None None)
           None alice);
    [intro; reflexivity | reflexivity | reflexivity | discriminate | reflexivity].
Defined.

(** X23. Files that pass the upload filter of the route are classified IMAGE
    or VIDEO by [createPost]: AUDIO and DOCUMENT do not occur for them;
    and each file gives one url and one type, in order. *)
Theorem uploaded_media_are_images_or_videos
  (more : MoreOp -> bool) (e : Env) (db : DB) (body : postController_rest.CreateBody)
  (files : list postController_rest.File) (user : User)
  (d : postController_rest.Created) :
  Forall (fun f => upload.fileFilter f = true) files ->
  reply_data (fst (postController_rest.createPost more body (Some files) user e db))
  = Some d ->
  postController_rest.mediaUrls d = map postController_rest.file_path files
  /\ length (postController_rest.mediaTypes d) = length files
  /\ Forall (fun t => t = postController_rest.IMAGE \/ t = postController_rest.VIDEO)
       (postController_rest.mediaTypes d).
Proof.
  intros Hfiles.
  unfold postController_rest.createPost, try_catch_reply,
    postController_rest.post_create_row, call_more. run.
  destruct (postController_rest.no_content _ && _); simpl; [discriminate|].
  destruct (more post_create); simpl; [discriminate|].
  intros H. injection H as <-. simpl.
  split; [reflexivity|]. split; [apply length_map|].
  apply Forall_map. eapply Forall_impl; [|exact Hfiles].
  intros f Hf. unfold upload.fileFilter, upload.allowedTypes in Hf. simpl in Hf.
  unfold postController_rest.media_type.
  repeat (apply orb_true_iff in Hf; destruct Hf as [Hf|Hf]);
    try discriminate; apply String.eqb_eq in Hf; rewrite Hf; simpl; auto.
Qed.

Lemma uploaded_media_are_images_or_videos_witness :
  Forall (fun t => t = postController_rest.IMAGE \/ t = postController_rest.VIDEO)
    [postController_rest.VIDEO; postController_rest.IMAGE].
Proof.
  apply (uploaded_media_are_images_or_videos (fun _ => false) calm db0
           (postController_rest.mkCreateBody None None None None)
           [postController_rest.mkFile "uploads/m1.mp4" "video/mp4";
            postController_rest.mkFile "uploads/m2.png" "image/png"]
           alice
           (postController_rest.mkCreated
              (mkPost "cnewrow0001" "cuseralice1" None PUBLIC None [] 100)
              ["uploads/m1.mp4"; "uploads/m2.png"]
              [postController_rest.VIDEO; postController_rest.IMAGE]));
    [repeat constructor | reflexivity].
Defined.

(** ** Authentication *)

Lemma lookup_user_id (db : DB) (id : string) (user : User) :
  lookup_user db id = Some user -> user_id user = id.
Proof.
  unfold lookup_user. intros H. apply find_some in H. destruct H as [_ H].
  apply String.eqb_eq. exact H.
Qed.

(** X24. [authenticate] lets a request through exactly when its header is
    ["Bearer <token>"], the token verifies, and the user of the token's
    [userId] is in the store (the lookup not failing); [req.user] is then
    that stored user.  Every other request is answered 401 or 500, and
    the middleware never writes. *)
Theorem authenticate_admits_stored_users
  (verify : string -> auth.Verified) (authHeader : option string) (e : Env) (db : DB) :
  snd (auth.authenticate verify authHeader e db) = db
  /\ (forall user,
        fst (auth.authenticate verify authHeader e db) = auth.Next user
        <-> exists token,
              auth.bearer authHeader = Some token
              /\ verify token = auth.Decoded (user_id user)
              /\ rejects e user_findUnique = false
              /\ lookup_user db (user_id user) = Some user)
  /\ (forall r,
        fst (auth.authenticate verify authHeader e db) = auth.Respond r ->
        status r = 401 \/ status r = 500).
Proof.
  unfold auth.authenticate, prisma.user.findUnique, lookup_user. run.
  destruct (auth.bearer authHeader) as [token|] eqn:Hb; simpl.
  - destruct (verify token) as [id| | |] eqn:Hv; simpl.
    + destruct (rejects e user_findUnique) eqn:Hr; simpl.
      * split; [reflexivity|]. split.
        -- intros user. split; [discriminate|].
           intros [t (_ & _ & H & _)]. discriminate.
        -- intros r H. injection H as <-. auto.
      * destruct (find (fun u => String.eqb (user_id u) id) (users db)) as [u|] eqn:Hu;
          simpl.
        -- assert (Hid : user_id u = id) by (apply (lookup_user_id db id u); exact Hu).
           split; [reflexivity|]. split; [|discriminate].
           intros user. split.
           ++ intros H. injection H as <-. exists token. rewrite Hid. auto.
           ++ intros [t (Ht & Hd & _ & Hl)]. injection Ht as <-.
              rewrite Hv in Hd. injection Hd as ->. rewrite Hu in Hl. congruence.
        -- split; [reflexivity|]. split.
           ++ intros user. split; [discriminate|].
              intros [t (Ht & Hd & _ & Hl)]. injection Ht as <-.
              rewrite Hv in Hd. injection Hd as ->. rewrite Hu in Hl. discriminate.
           ++ intros r H. injection H as <-. auto.
    + split; [reflexivity|]. split.
      * intros user. split; [discriminate|].
        intros [t (Ht & Hd & _)]. injection Ht as <-. congruence.
      * intros r H. injection H as <-. auto.
    + split; [reflexivity|]. split.
      * intros user. split; [discriminate|].
        intros [t (Ht & Hd & _)]. injection Ht as <-. congruence.
      * intros r H. injection H as <-. auto.
    + split; [reflexivity|]. split.
      * intros user. split; [discriminate|].
        intros [t (Ht & Hd & _)]. injection Ht as <-. congruence.
      * intros r H. injection H as <-. auto.
  - split; [reflexivity|]. split.
    + intros user. split; [discriminate|]. intros [t (Ht & _)]. discriminate.
    + intros r H. injection H as <-. auto.
Qed.

(** X25. [optionalAuth] never answers the request itself and never writes; it
    sets [req.user] exactly when [authenticate] would let the request
    through, and to the same user. *)
Theorem optionalAuth_agrees_with_authenticate
  (verify : string -> auth.Verified) (authHeader : option string) (e : Env) (db : DB) :
  snd (auth.optionalAuth verify authHeader e db) = db
  /\ forall user,
       fst (auth.optionalAuth verify authHeader e db) = Some user
       <-> fst (auth.authenticate verify authHeader e db) = auth.Next user.
Proof.
  unfold auth.optionalAuth, auth.authenticate, prisma.user.findUnique. run.
  destruct (auth.bearer authHeader) as [token|]; simpl;
    [|split; [reflexivity|intros; split; discriminate]].
  destruct (verify token) as [id| | |]; simpl;
    try (split; [reflexivity|intros; split; discriminate]).
  destruct (rejects e user_findUnique); simpl;
    [split; [reflexivity|intros; split; discriminate]|].
  destruct (find (fun u => String.eqb (user_id u) id) (users db)) as [u|]; simpl.
  - split; [reflexivity|]. intros user. split; congruence.
  - split; [reflexivity|]. intros; split; discriminate.
Qed.

(** X26. A connection is accepted by the handshake only for a non-empty token
    that verifies to a stored user, and is then bound to that user: every
    message it sends is stored with that user as sender. *)
Theorem handshake_binds_sender
  (verify : string -> auth.Verified) (socketId : string) (token : option string)
  (e : Env) (db : DB) (sock : socket.Socket) :
  fst (auth.handshake verify socketId token e db) = inr sock ->
  (exists t user,
     token = Some t /\ t <> "" /\ verify t = auth.Decoded (user_id user)
     /\ lookup_user db (user_id user) = Some user
     /\ sock = socket.mkSocket socketId (user_id user))
  /\ forall d e' db',
       rejects e' message_create = false ->
       exists m,
         messages (snd (socket.send_message sock (Some d) e' db'))
         = (messages db' ++ [m])%list
         /\ message_senderId m = socket.socket_userId sock
         /\ message_receiverId m = socket.receiverId d.
Proof.
  intros H. split.
  - revert H. unfold auth.handshake, prisma.user.findUnique, lookup_user. run.
    destruct token as [t|]; simpl; [|discriminate].
    destruct (String.eqb_spec t "") as [Ht|Ht]; simpl; [discriminate|].
    destruct (verify t) as [id| | |] eqn:Hv; simpl; try discriminate.
    destruct (rejects e user_findUnique); simpl; [discriminate|].
    destruct (find (fun u => String.eqb (user_id u) id) (users db)) as [u|] eqn:Hu; simpl;
      [|discriminate].
    intros H. injection H as <-.
    assert (Hid : user_id u = id) by (apply (lookup_user_id db id u); exact Hu).
    exists t, u. rewrite Hid. auto.
  - intros d e' db' Hw.
    unfold socket.send_message, prisma.message.create. run. unfold call. rewrite Hw. simpl.
    eexists. split; [reflexivity|]. split; reflexivity.
Qed.

Lemma handshake_binds_sender_witness :
  exists m,
    messages (snd (socket.send_message (socket.mkSocket "s1" "cuserbob001")
                     (Some (socket.mkSendMessage "cuseralice1" "yo" None None)) calm db0))
    = (messages db0 ++ [m])%list
    /\ message_senderId m = "cuserbob001"
    /\ message_receiverId m = "cuseralice1".
Proof.
  destruct (handshake_binds_sender
              (fun t => if String.eqb t "tok" then auth.Decoded "cuserbob001"
                        else auth.JsonWebTokenError)
              "s1" (Some "tok") calm db0 (socket.mkSocket "s1" "cuserbob001"))
    as [_ H]; [reflexivity|].
  apply (H (socket.mkSendMessage "cuseralice1" "yo" None None) calm db0). reflexivity.
Defined.

Lemma authenticate_admits_stored_users_witness :
  fst (auth.authenticate
         (fun t => if String.eqb t "tok" then auth.Decoded "cuserbob001"
                   else auth.JsonWebTokenError)
         (Some "Bearer tok") calm db0) = auth.Next bob.
Proof.
  destruct (authenticate_admits_stored_users
              (fun t => if String.eqb t "tok" then auth.Decoded "cuserbob001"
                        else auth.JsonWebTokenError)
              (Some "Bearer tok") calm db0) as (_ & H & _).
  apply H. exists "tok". repeat split; reflexivity.
Defined.

Lemma optionalAuth_agrees_with_authenticate_witness :
  snd (auth.optionalAuth (fun _ => auth.TokenExpiredError) (Some "Bearer tok") calm db0)
  = db0.
Proof.
  destruct (optionalAuth_agrees_with_authenticate (fun _ => auth.TokenExpiredError)
              (Some "Bearer tok") calm db0) as [H _].
  exact H.
Defined.

(** ** The routes *)

(** An object schema with only [body] in its shape hands on no [params]. *)
Lemma body_only_schema_drops_params
  (is_cuid : string -> bool) (bodySchema : validation.ZSchema)
  (v out : validation.JValue) :
  validation.parse is_cuid (validation.ZObject [("body", bodySchema)]) v = Some out ->
  validation.field "params" out = validation.JUndefined.
Proof.
  destruct v; cbn [validation.parse]; try discriminate.
  destruct (validation.parse is_cuid bodySchema _) as [[]|]; simpl;
    intros H; try discriminate; injection H as <-; reflexivity.
Qed.

Lemma createPost_schema_drops_params
  (is_cuid : string -> bool) (req : validation.Request) (vd : validation.JValue) :
  validation.validateRequest is_cuid validation.schemas.createPost req = inr vd ->
  validation.field "params" vd = validation.JUndefined.
Proof.
  unfold validation.validateRequest, validation.schemas.createPost.
  match goal with
  | |- context [validation.parse is_cuid ?s ?v] =>
      destruct (validation.parse is_cuid s v) as [out|] eqn:Hparse
  end; [|discriminate].
  intros H. injection H as <-.
  exact (body_only_schema_drops_params _ _ _ _ Hparse).
Qed.

(** A request whose [params] lack the key a schema requires is refused. *)
Lemma getPostById_schema_needs_id
  (is_cuid : string -> bool) (segment : string) (body : validation.JValue) :
  validation.validateRequest is_cuid validation.schemas.getPostById
    (routes.request "postId" segment body)
  = inl (json_error 400 "Validation failed").
Proof. reflexivity. Qed.

Lemma params_schema_needs_postId
  (is_cuid : string -> bool) (bodySchema : validation.ZSchema) (segment : string)
  (body query : validation.JValue) :
  validation.parse is_cuid
    (validation.ZObject
       [("body", bodySchema);
        ("params", validation.ZObject [("postId", validation.ZString None None true)])])
    (validation.JObject
       [("body", body); ("query", query);
        ("params", validation.JObject [("id", validation.JString segment)])])
  = None.
Proof.
  cbn [validation.parse].
  destruct (validation.parse is_cuid bodySchema _) as [[]|]; reflexivity.
Qed.

Lemma createComment_schema_needs_postId
  (is_cuid : string -> bool) (segment : string) (body : validation.JValue) :
  validation.validateRequest is_cuid validation.schemas.createComment
    (routes.request "id" segment body)
  = inl (json_error 400 "Validation failed").
Proof.
  unfold validation.validateRequest, validation.schemas.createComment, routes.request.
  cbn [validation.req_body validation.req_query validation.req_params].
  rewrite params_schema_needs_postId. reflexivity.
Qed.

Lemma authenticate_reads_only
  (verify : string -> auth.Verified) (authHeader : option string) (e : Env) (db : DB) :
  snd (auth.authenticate verify authHeader e db) = db.
Proof.
  unfold auth.authenticate, prisma.user.findUnique. run.
  repeat break_match; reflexivity.
Qed.

Lemma authenticate_refusal
  (verify : string -> auth.Verified) (authHeader : option string) (e : Env) (db : DB)
  (r : Response) :
  fst (auth.authenticate verify authHeader e db) = auth.Respond r ->
  status r = 401 \/ status r = 500.
Proof.
  unfold auth.authenticate, prisma.user.findUnique. run.
  repeat break_match; intros H; try discriminate; injection H as <-; auto.
Qed.

Lemma optionalAuth_reads_only
  (verify : string -> auth.Verified) (authHeader : option string) (e : Env) (db : DB) :
  snd (auth.optionalAuth verify authHeader e db) = db.
Proof.
  unfold auth.optionalAuth, prisma.user.findUnique. run.
  repeat break_match; reflexivity.
Qed.

(** X27. [PUT /posts/:id] never updates a post.  The route validates with
    [schemas.createPost], which has no [params], so the validated data
    that reaches [updatePost] has none and the handler ends in its
    [catch]: an authenticated request with a valid body is answered 500,
    every other one 400 or 401 (or 500 by the authentication), and the
    store is never written. *)
Theorem put_post_never_updates
  (verify : string -> auth.Verified) (is_cuid : string -> bool)
  (authHeader : option string) (id : string) (body : validation.JValue)
  (e : Env) (db : DB) :
  let r := fst (routes.put_post verify is_cuid authHeader id body e db) in
  snd (routes.put_post verify is_cuid authHeader id body e db) = db
  /\ (status r = 400 \/ status r = 401 \/ status r = 500)
  /\ (forall user vd,
        fst (auth.authenticate verify authHeader e db) = auth.Next user ->
        validation.validateRequest is_cuid validation.schemas.createPost
          (routes.request "id" id body) = inr vd ->
        r = json_error 500 "Failed to update post").
Proof.
  unfold routes.put_post, routes.authenticated.
  pose proof (authenticate_reads_only verify authHeader e db) as Hstore.
  pose proof (authenticate_refusal verify authHeader e db) as Hrefuse.
  destruct (auth.authenticate verify authHeader e db) as [[user|r0] db0'].
  - simpl in Hstore. subst db0'.
    destruct (validation.validateRequest is_cuid validation.schemas.createPost
                (routes.request "id" id body)) as [r1|vd] eqn:Hval.
    + unfold validation.validateRequest in Hval.
      destruct (validation.parse _ _ _); [discriminate|]. injection Hval as <-.
      simpl. split; [reflexivity|]. split; [auto|]. intros u v _ H. discriminate.
    + pose proof (createPost_schema_drops_params _ _ _ Hval) as Hparams.
      unfold routes.updatePost_on, routes.with_params. rewrite Hparams. simpl.
      split; [reflexivity|]. split; [auto|]. reflexivity.
  - simpl in Hstore. subst db0'. simpl.
    split; [reflexivity|]. split.
    + destruct (Hrefuse r0 eq_refl); auto.
    + intros u v H. discriminate.
Qed.

Lemma put_post_never_updates_witness :
  fst (routes.put_post
         (fun t => if String.eqb t "tok" then auth.Decoded "cuseralice1"
                   else auth.JsonWebTokenError)
         (fun _ => true) (Some "Bearer tok") "cpost0public"
         (validation.JObject [("content", validation.JString "edited")]) calm db0)
  = json_error 500 "Failed to update post".
Proof.
  destruct (put_post_never_updates
              (fun t => if String.eqb t "tok" then auth.Decoded "cuseralice1"
                        else auth.JsonWebTokenError)
              (fun _ => true) (Some "Bearer tok") "cpost0public"
              (validation.JObject [("content", validation.JString "edited")]) calm db0)
    as (_ & _ & H).
  apply (H alice
           (validation.JObject
              [("body", validation.JObject
                          [("content", validation.JString "edited");
                           ("visibility", validation.JString "PUBLIC")])]));
    reflexivity.
Defined.

(** X28. Two comment routes never reach their controller, because the schema
    they validate with asks for a parameter their path does not have:
    [GET /posts/:postId/comments] (validated with [schemas.getPostById],
    which wants [params.id]) answers every request 400, and
    [PUT /posts/comments/:id] (validated with [schemas.createComment],
    which wants [params.postId]) answers every authenticated request 400;
    neither writes. *)
Theorem comment_routes_refuse_every_request
  (verify : string -> auth.Verified) (is_cuid : string -> bool)
  (authHeader : option string) (segment : string) (body : validation.JValue)
  (page limit : option Z) (e : Env) (db : DB) :
  routes.get_post_comments verify is_cuid authHeader segment body page limit e db
  = (json_error 400 "Validation failed", db)
  /\ snd (routes.put_comment verify is_cuid authHeader segment body e db) = db
  /\ (forall user,
        fst (auth.authenticate verify authHeader e db) = auth.Next user ->
        fst (routes.put_comment verify is_cuid authHeader segment body e db)
        = json_error 400 "Validation failed")
  /\ (forall r,
        fst (auth.authenticate verify authHeader e db) = auth.Respond r ->
        fst (routes.put_comment verify is_cuid authHeader segment body e db) = r).
Proof.
  split.
  - unfold routes.get_post_comments, routes.optional.
    pose proof (optionalAuth_reads_only verify authHeader e db) as Hstore.
    destruct (auth.optionalAuth verify authHeader e db) as [user db0'].
    simpl in Hstore. subst db0'. rewrite getPostById_schema_needs_id. reflexivity.
  - unfold routes.put_comment, routes.authenticated.
    pose proof (authenticate_reads_only verify authHeader e db) as Hstore.
    destruct (auth.authenticate verify authHeader e db) as [[user|r0] db0'];
      simpl in Hstore; subst db0'.
    + rewrite createComment_schema_needs_postId. simpl.
      split; [reflexivity|]. split; [reflexivity|]. intros r H. discriminate.
    + simpl. split; [reflexivity|]. split; [intros u H; discriminate|].
      intros r H. injection H as <-. reflexivity.
Qed.

Lemma authenticate_next
  (verify : string -> auth.Verified) (authHeader : option string) (e : Env) (db : DB)
  (user : User) :
  fst (auth.authenticate verify authHeader e db) = auth.Next user ->
  exists token,
    auth.bearer authHeader = Some token
    /\ verify token = auth.Decoded (user_id user)
    /\ lookup_user db (user_id user) = Some user.
Proof.
  unfold auth.authenticate, prisma.user.findUnique, lookup_user. run.
  destruct (auth.bearer authHeader) as [token|]; simpl; [|discriminate].
  destruct (verify token) as [id| | |] eqn:Hv; simpl; try discriminate.
  destruct (rejects e user_findUnique); simpl; [discriminate|].
  destruct (find (fun u => String.eqb (user_id u) id) (users db)) as [u|] eqn:Hu; simpl;
    [|discriminate].
  intros H. injection H as <-.
  assert (Hid : user_id u = id) by (apply (lookup_user_id db id u); exact Hu).
  exists token. rewrite Hid. auto.
Qed.

Lemma getPostById_schema_on_id
  (is_cuid : string -> bool) (id : string) (body : validation.JValue) :
  validation.validateRequest is_cuid validation.schemas.getPostById
    (routes.request "id" id body)
  = if is_cuid id
    then inr (validation.JObject
                [("params", validation.JObject [("id", validation.JString id)])])
    else inl (json_error 400 "Validation failed").
Proof.
  unfold validation.validateRequest, validation.schemas.getPostById, routes.request.
  simpl. destruct (is_cuid id); reflexivity.
Qed.

Lemma deletePost_store (e : Env) (db : DB) (id userId : string) :
  snd (postController.deletePost id userId e db) = db
  \/ exists p, lookup_post db id = Some p /\ post_authorId p = userId.
Proof.
  unfold lookup_post.
  unfold postController.deletePost, prisma.post.findUnique, prisma.post.delete. run.
  destruct (rejects e post_findUnique); simpl; [auto|].
  destruct (find (fun p => String.eqb (post_id p) id) (posts db)) as [p|]; simpl; [|auto].
  destruct (String.eqb_spec (post_authorId p) userId) as [Ha|Ha]; simpl; [|auto].
  right. exists p. auto.
Qed.

(** X29. [DELETE /posts/:id], end to end: the store is written only for a
    request that carries a token verifying to a stored user, names a
    well-formed id, and whose user is the author of the post of that id.
    No other request, whatever the store calls do, changes anything. *)
Theorem delete_post_route_writes_only_for_author
  (verify : string -> auth.Verified) (is_cuid : string -> bool)
  (authHeader : option string) (id : string) (body : validation.JValue)
  (e : Env) (db : DB) :
  snd (routes.delete_post verify is_cuid authHeader id body e db) <> db ->
  exists token user p,
    auth.bearer authHeader = Some token
    /\ verify token = auth.Decoded (user_id user)
    /\ lookup_user db (user_id user) = Some user
    /\ is_cuid id = true
    /\ lookup_post db id = Some p
    /\ post_authorId p = user_id user.
Proof.
  unfold routes.delete_post, routes.authenticated.
  pose proof (authenticate_reads_only verify authHeader e db) as Hstore.
  pose proof (authenticate_next verify authHeader e db) as Hnext.
  destruct (auth.authenticate verify authHeader e db) as [[user|r0] db0'];
    simpl in Hstore; subst db0'; [|intros H; exfalso; apply H; reflexivity].
  destruct (Hnext user eq_refl) as [token (Hb & Hv & Hu)].
  rewrite getPostById_schema_on_id.
  destruct (is_cuid id) eqn:Hid; [|intros H; exfalso; apply H; reflexivity].
  unfold routes.deletePost_on, routes.with_params. simpl.
  intros Hchanged.
  destruct (deletePost_store e db id (user_id user)) as [H|[p [Hp Ha]]];
    [contradiction|].
  exists token, user, p. repeat split; assumption || reflexivity.
Qed.

Lemma delete_post_route_writes_only_for_author_witness :
  exists token user p,
    auth.bearer (Some "Bearer tok") = Some token
    /\ (if String.eqb token "tok" then auth.Decoded "cuseralice1"
        else auth.JsonWebTokenError) = auth.Decoded (user_id user)
    /\ lookup_user db0 (user_id user) = Some user
    /\ true = true
    /\ lookup_post db0 "cpost0public" = Some p
    /\ post_authorId p = user_id user.
Proof.
  apply (delete_post_route_writes_only_for_author
           (fun t => if String.eqb t "tok" then auth.Decoded "cuseralice1"
                     else auth.JsonWebTokenError)
           (fun _ => true) (Some "Bearer tok") "cpost0public" validation.JUndefined
           calm db0).
  vm_compute. discriminate.
Defined.

Lemma parse_comment_body
  (is_cuid : string -> bool) (body out : validation.JValue) :
  validation.parse is_cuid
    (validation.ZObject
       [("content", validation.ZString (Some 1) (Some 1000) false);
        ("parentId", validation.ZOptional (validation.ZString None None true))]) body
  = Some out ->
  routes.destructurable out = true
  /\ exists c,
      validation.field "content" out = validation.JString c
      /\ 1 <= String.length c <= 1000
      /\ forall pid, routes.as_string (validation.field "parentId" out) = Some pid ->
           is_cuid pid = true.
Proof.
  destruct body; cbn [validation.parse]; try discriminate.
  generalize (validation.field "content" (validation.JObject fields)).
  generalize (validation.field "parentId" (validation.JObject fields)).
  intros pv cv.
  destruct cv as [| | | |c| |]; try discriminate.
  unfold validation.at_least, validation.at_most. simpl negb. simpl orb.
  destruct (Nat.leb_spec 1 (String.length c)) as [H1|H1]; simpl; [|discriminate].
  destruct (Nat.leb_spec (String.length c) 1000) as [H2|H2]; simpl; [|discriminate].
  destruct pv as [| | | |pid| |]; simpl; try discriminate.
  - intros H. injection H as <-. simpl. split; [reflexivity|].
    exists c. repeat split; auto. discriminate.
  - destruct (is_cuid pid) eqn:Hpid; simpl; [|discriminate].
    intros H. injection H as <-. simpl. split; [reflexivity|].
    exists c. repeat split; auto. intros p Hp. injection Hp as <-. exact Hpid.
Qed.

Lemma createComment_schema_validated
  (is_cuid : string -> bool) (postId : string) (body vd : validation.JValue) :
  validation.validateRequest is_cuid validation.schemas.createComment
    (routes.request "postId" postId body) = inr vd ->
  is_cuid postId = true
  /\ validation.field "params" vd
     = validation.JObject [("postId", validation.JString postId)]
  /\ routes.destructurable (validation.field "body" vd) = true
  /\ exists c,
      validation.field "content" (validation.field "body" vd) = validation.JString c
      /\ 1 <= String.length c <= 1000
      /\ forall pid,
           routes.as_string (validation.field "parentId" (validation.field "body" vd))
           = Some pid -> is_cuid pid = true.
Proof.
  unfold validation.validateRequest, validation.schemas.createComment, routes.request.
  cbn [validation.req_body validation.req_query validation.req_params].
  remember (validation.ZObject
              [("content", validation.ZString (Some 1) (Some 1000) false);
               ("parentId", validation.ZOptional (validation.ZString None None true))])
    as B eqn:HB.
  simpl.
  destruct (validation.parse is_cuid B body) as [bout|] eqn:Hb; [|discriminate].
  subst B. destruct (parse_comment_body is_cuid body bout Hb) as [Hd Hc].
  destruct (is_cuid postId) eqn:Hid; simpl.
  - destruct bout; try discriminate; intros H; injection H as <-; simpl; auto.
  - destruct bout; discriminate.
Qed.

Lemma createComment_store
  (e : Env) (db : DB) (postId content : string) (parentId : option string) (user : User) :
  let db' := snd (commentController.createComment postId content parentId user e db) in
  comments db' = comments db
  \/ comments db'
     = (comments db ++
        [mkComment (fresh_id e) (user_id user) postId parentId content (now e)])%list.
Proof.
  unfold commentController.createComment, prisma.post.findUnique,
    prisma.follow.findUnique, prisma.comment.findUnique, prisma.comment.create,
    prisma.notification.create.
  run. repeat break_match; auto.
Qed.

(** X30. [POST /posts/:postId/comments], end to end: whatever the store calls
    do, a comment that a request adds to the store has a content of 1 to
    1000 characters, belongs to the post named in the path (a well-formed
    id), names as parent, if any, a well-formed id, and has as author the
    stored user the request's token verifies to. *)
Theorem post_comment_route_stores_validated_comments
  (verify : string -> auth.Verified) (is_cuid : string -> bool)
  (authHeader : option string) (postId : string) (body : validation.JValue)
  (e : Env) (db : DB) (c : Comment) :
  In c (comments (snd (routes.post_comment verify is_cuid authHeader postId body e db))) ->
  ~ In c (comments db) ->
  1 <= String.length (comment_content c) <= 1000
  /\ comment_postId c = postId /\ is_cuid postId = true
  /\ (forall pid, comment_parentId c = Some pid -> is_cuid pid = true)
  /\ exists token,
       auth.bearer authHeader = Some token
       /\ verify token = auth.Decoded (comment_userId c)
       /\ lookup_user db (comment_userId c) <> None.
Proof.
  unfold routes.post_comment, routes.authenticated.
  pose proof (authenticate_reads_only verify authHeader e db) as Hstore.
  pose proof (authenticate_next verify authHeader e db) as Hnext.
  destruct (auth.authenticate verify authHeader e db) as [[user|r0] db0'];
    simpl in Hstore; subst db0'; [|intros H Hn; contradiction].
  destruct (Hnext user eq_refl) as [token (Hb & Hv & Hu)].
  destruct (validation.validateRequest is_cuid validation.schemas.createComment
              (routes.request "postId" postId body)) as [r1|vd] eqn:Hval;
    [intros H Hn; contradiction|].
  destruct (createComment_schema_validated is_cuid postId body vd Hval)
    as (Hid & Hparams & Hd & content & Hcontent & Hlen & Hparent).
  unfold routes.createComment_on, routes.with_params.
  rewrite Hparams. simpl. rewrite Hd, Hcontent.
  intros Hin Hnew.
  destruct (createComment_store e db postId content
              (routes.as_string
                 (validation.field "parentId" (validation.field "body" vd))) user)
    as [H|H]; rewrite H in Hin; [contradiction|].
  apply in_app_or in Hin. destruct Hin as [Hin|[<-|[]]]; [contradiction|]. simpl.
  split; [exact Hlen|]. split; [reflexivity|]. split; [exact Hid|].
  split; [exact Hparent|].
  exists token. split; [exact Hb|]. split; [exact Hv|]. rewrite Hu. discriminate.
Qed.

Lemma post_comment_route_stores_validated_comments_witness :
  1 <= String.length "nice" <= 1000 /\ "cpost0public" = "cpost0public".
Proof.
  destruct (post_comment_route_stores_validated_comments
              (fun t => if String.eqb t "tok" then auth.Decoded "cusercarol1"
                        else auth.JsonWebTokenError)
              (fun _ => true) (Some "Bearer tok") "cpost0public"
              (validation.JObject [("content", validation.JString "nice")]) calm db0
              (mkComment "cnewrow0001" "cusercarol1" "cpost0public" None "nice" 100))
    as (H1 & H2 & _).
  - vm_compute. right. right. right. left. reflexivity.
  - intros [H|[H|[H|[]]]]; discriminate.
  - split; [exact H1|exact H2].
Defined.
